(** * Zappo: transaction orchestration and escrow engine

    A shallow embedding of the confirmation registry, the transaction
    preparer and the execution dispatcher of the chat front-end
    (CommandHandler and TransactionHandler), of the contract-deposit helper
    of [Web3/contracts/connections.js], and of the claim flow.

    JavaScript numbers are IEEE-754 binary64 values: they are modelled by
    the primitive floats of the kernel, so [NaN] and the comparison
    operators behave as in the source.  The two [Map] fields of
    CommandHandler are finite maps keyed by the phone number. *)

From Stdlib Require Import Floats ZArith Lia List Bool.
From stdpp Require Import gmap strings.
Import ListNotations.

Set Warnings "-inexact-float".
Local Open Scope Z_scope.

(** ** JavaScript values *)

Module Js.

(** What the handlers observe of a JS value: a number, a string, or
    [undefined]/[null]. *)
Inductive JsVal :=
| JUndefined
| JNum (n : float)
| JStr (s : string).

(** A string-valued property that may be absent. *)
Definition JsStr := option string.

Definition nonEmpty (s : string) : bool :=
  match s with EmptyString => false | String _ _ => true end.

(** [!!v] *)
Definition truthy (v : JsVal) : bool :=
  match v with
  | JUndefined => false
  | JNum n => negb (PrimFloat.is_nan n) && negb (PrimFloat.eqb n 0)
  | JStr s => nonEmpty s
  end.

Definition truthyS (v : JsStr) : bool :=
  match v with Some s => nonEmpty s | None => false end.

(** [a || b] on optional strings *)
Definition orS (a b : JsStr) : JsStr := if truthyS a then a else b.

(** [a > b], [a <= b], [isNaN(a)] *)
Definition gt (a b : float) : bool := PrimFloat.ltb b a.
Definition le (a b : float) : bool := PrimFloat.leb a b.
Definition isNaN (a : float) : bool := PrimFloat.is_nan a.

Section ParseFloat.
(** The builtin conversion of a string to a number is not re-implemented;
    every result below holds whatever it returns. *)
Variable parseFloatStr : string -> float.

(** [parseFloat(v)]: a number goes through its decimal rendering, which
    gives the number back (and drops the sign of a zero). *)
Definition parseFloat (v : JsVal) : float :=
  match v with
  | JUndefined => PrimFloat.nan
  | JNum n => if PrimFloat.eqb n 0 then 0%float else n
  | JStr s => parseFloatStr s
  end.
End ParseFloat.

(** [s.includes(needle)] *)
Fixpoint includes (needle s : string) : bool :=
  String.prefix needle s ||
  match s with
  | EmptyString => false
  | String _ rest => includes needle rest
  end.

Fixpoint dropS (n : nat) (s : string) : string :=
  match n, s with
  | O, _ => s
  | S n', String _ rest => dropS n' rest
  | S _, EmptyString => EmptyString
  end.

(** [s.replace(needle, repl)] with a string pattern: the first occurrence
    only. *)
Fixpoint replace (needle repl s : string) : string :=
  if String.prefix needle s then repl +:+ dropS (String.length needle) s
  else match s with
       | EmptyString => EmptyString
       | String c rest => String c (replace needle repl rest)
       end.

#[global] Arguments gt : simpl never.
#[global] Arguments le : simpl never.
#[global] Arguments isNaN : simpl never.
#[global] Arguments truthy : simpl never.
#[global] Arguments truthyS : simpl never.
#[global] Arguments nonEmpty : simpl never.
#[global] Arguments parseFloat : simpl never.

End Js.
Export Js.

(** ** Data model *)

(** The user record as the wallet handler returns it. *)
Record Wallet := {
  address : string;
  balance : JsVal;
}.

Record GasEstimate := {
  estimatedCost : JsVal;
}.

(** The parameters of a send request ([sendParams]). *)
Record SendParams := {
  amount : JsVal;
  recipient : JsStr;
  recipientAddress : JsStr;
  recipientPhone : JsStr;
  name : JsStr;
  valid : bool;
  error : string;
}.

(** [transactionData] of TransactionHandler.handleSendTransaction. *)
Record TransactionData := {
  td_from : string;
  td_to : JsStr;
  td_amount : float;
  td_gasEstimate : GasEstimate;
  td_totalCost : float;
  td_phone : string;
  td_recipientPhone : JsStr;
  td_shouldCreateClaimLink : bool;
}.

(** The records stored in [pendingTransactions], by their [type] field. *)
Inductive PendingTx :=
| SendTransaction (data : TransactionData) (originalParams : SendParams) (timestamp : Z)
| UsdcDeposit (amount zapTokens : float) (timestamp : Z)
| UsdcSwap (amount expectedOutput : float) (timestamp : Z).

Definition timestampOf (tx : PendingTx) : Z :=
  match tx with
  | SendTransaction _ _ t | UsdcDeposit _ _ t | UsdcSwap _ _ t => t
  end.

(** The kinds of the specification, read off a stored record. *)
Inductive Kind := DirectTransfer | EscrowCreate | ContractDeposit | ContractSwap.

Definition kindOf (tx : PendingTx) : Kind :=
  match tx with
  | SendTransaction d _ _ =>
      if td_shouldCreateClaimLink d then EscrowCreate else DirectTransfer
  | UsdcDeposit _ _ _ => ContractDeposit
  | UsdcSwap _ _ _ => ContractSwap
  end.

(** An entry of [userStates]. *)
Record UserState := {
  us_state : string;
  us_recipientPhone : JsStr;
  us_timestamp : Z;
}.

(** What the transfer and claim-link collaborators return. *)
Record TxResult := {
  tx_success : bool;
  tx_error : JsStr;
  tx_claimLink : JsStr;
  tx_hash : JsStr;
  tx_ephemeralAddress : JsStr;
}.

Record SwapResult := {
  sw_success : bool;
  sw_error : string;
  sw_amountOut : JsVal;
  sw_transactionHash : JsStr;
}.

(** The object the deposit executor expects from the deposit helper. *)
Record DepositResult := {
  dr_success : bool;
  dr_hash : JsStr;
  dr_error : JsStr;
}.

(** Claim links (section 3 of the specification). *)
Inductive ClaimStatus := Pending | Claimed | Refunded.

Record ClaimLink := {
  cl_sender : string;
  cl_recipient : string;
  cl_amount : float;
  cl_createdAt : Z;
  cl_expiresAt : Z;
  cl_status : ClaimStatus;
}.

Inductive ClaimErrorKind := NotFound | Expired | AlreadyClaimed.

(** ** Errors, messages and events *)

(** The errors a handler can throw or catch, by the message they carry. *)
Inductive Error :=
| MissingParameters
| InvalidAmount
| WalletUnavailable
| InsufficientBalance (have tried : float)
| InsufficientForGas (need have : float)
| BalanceChanged
| ClaimLinkFailed (reason : JsStr)
| TransactionFailed
| SwapError (reason : string)
| TypeError (what : string)
| ClaimError (kind : ClaimErrorKind)
| External (message : string).

(** [error.message], with the interpolated numbers left out; a claim error
    is rendered by its kind. *)
Definition messageOf (e : Error) : string :=
  match e with
  | MissingParameters => "Missing parameters: provide amount and recipient."
  | InvalidAmount => "Invalid amount. Must be greater than 0."
  | WalletUnavailable => "Wallet not found or balance unavailable."
  | InsufficientBalance _ _ => "Insufficient balance. You have ETH, tried to send ETH."
  | InsufficientForGas _ _ => "Insufficient balance for amount + gas. Need ETH, have ETH."
  | BalanceChanged => "Insufficient balance. Your balance may have changed."
  | ClaimLinkFailed r => "Failed to create claim link: " +:+ default "undefined" r
  | TransactionFailed => "Transaction failed. See logs for details."
  | SwapError r => r
  | TypeError w => "Cannot read properties of undefined (reading '" +:+ w +:+ "')"
  | ClaimError NotFound => "NotFound"
  | ClaimError Expired => "Expired"
  | ClaimError AlreadyClaimed => "AlreadyClaimed"
  | External m => m
  end.

(** The texts sent to the user, by template, with the values interpolated
    into them. *)
Inductive Message :=
| NoPendingFound
| DepositCancelled | SwapCancelled | TransactionCancelled
| RepromptDeposit | RepromptSwap | RepromptReaction
| ErrorReply (e : Error)
| EnhancedError (e : Error)
| NeedWallet
| InvalidSendFormat
| SendParamError (text : string)
| InvalidAmountRange
| SendStepContact
| SendConfirmation (sending : float) (to : JsStr) (fee total : float) (claimLink : bool)
| PreparationFailed (e : Error)
| ClaimLinkCreated (sent : float) (recipient : JsStr) (link : JsStr)
| TransactionSuccessful (sent : float) (to : JsStr) (hash : JsStr)
| ExecutionFailed (e : Error)
| ProcessingDeposit
| DepositSuccessful (sent zapTokens : float) (hash : JsStr)
| DepositFailedWith (reason : JsStr)
| DepositFailed (e : Error)
| ProcessingSwap (sent : float)
| SwapSuccessful (sent : float) (hash : JsStr)
| SwapFailed (e : Error)
| ClaimNeedsWallet
| ClaimedSuccessfully (received gasCost : float) (hash : string)
| ClaimAmountTooSmall (e : Error)
| ClaimGasFeeIssue (e : Error)
| UnableToClaim (e : Error).

(** The handlers, for the trace of calls. *)
Inductive Handler :=
| HTransactionConfirmation
| HExecuteUSDCDeposit
| HExecuteUSDCSwap
| HExecutePendingTransaction
| HOtherwise.

(** What a handler does to the outside: the messages sent, the calls that
    change something off-process, and the entry into a handler. *)
Inductive Event :=
| EvSend (to : string) (m : Message)
| EvCall (h : Handler)
| EvCreateClaimLink (phone : string) (recipient : JsStr) (sent : float) (display : string)
| EvSendTransaction (provider : string) (to : JsStr) (sent : float)
| EvUpdateUserBalance (phone : string)
| EvLogTransaction (phone : string) (to : JsStr) (sent : float) (claim : bool) (ref : JsStr)
| EvApprove (amountWei : Z)
| EvDepositTx (amountWei : Z)
| EvSwap (sent : float)
| EvTransfer (to : string) (sent : float).

(** The in-memory state of CommandHandler, and the claim-link table. *)
Record State := {
  userStates : gmap string UserState;
  pendingTransactions : gmap string PendingTx;
  claimLinks : gmap string ClaimLink;
}.

(** ** Handlers as state, trace and exception passing *)

Inductive result (A : Type) :=
| Ok (a : A)
| Throw (e : Error).
Arguments Ok {A} a.
Arguments Throw {A} e.

Definition M (A : Type) : Type := State -> State * list Event * result A.

Definition ret {A} (a : A) : M A := fun s => (s, [], Ok a).

Definition throw {A} (e : Error) : M A := fun s => (s, [], Throw e).

Definition bind {A B} (m : M A) (k : A -> M B) : M B :=
  fun s =>
    match m s with
    | (s1, ev1, Ok a) =>
        match k a s1 with
        | (s2, ev2, r) => (s2, ev1 ++ ev2, r)
        end
    | (s1, ev1, Throw e) => (s1, ev1, Throw e)
    end.

Notation "'let*' x ':=' m 'in' k" := (bind m (fun x => k))
  (at level 10, x name, m at level 100, k at level 200).
Notation "m ';;;' k" := (bind m (fun _ => k))
  (at level 100, k at level 200, right associativity).

(** [try { body } catch (error) { handler }] *)
Definition tryCatch {A} (body : M A) (handler : Error -> M A) : M A :=
  fun s =>
    match body s with
    | (s1, ev1, Throw e) =>
        match handler e s1 with
        | (s2, ev2, r) => (s2, ev1 ++ ev2, r)
        end
    | done => done
    end.

(** [await f(...)] of a collaborator whose answer is [r] *)
Definition await {A} (r : result A) : M A := fun s => (s, [], r).

Definition emit (e : Event) : M unit := fun s => (s, [e], Ok tt).

(** [sendMessage] catches whatever the transport throws. *)
Definition sendMessage (to : string) (m : Message) : M unit := emit (EvSend to m).

Definition when (b : bool) (m : M unit) : M unit := if b then m else ret tt.

Definition setPending (phone : string) (tx : PendingTx) : M unit :=
  fun s => ({| userStates := userStates s;
               pendingTransactions := <[phone := tx]> (pendingTransactions s);
               claimLinks := claimLinks s |}, [], Ok tt).

Definition deletePending (phone : string) : M unit :=
  fun s => ({| userStates := userStates s;
               pendingTransactions := delete phone (pendingTransactions s);
               claimLinks := claimLinks s |}, [], Ok tt).

Definition getPending (phone : string) : M (option PendingTx) :=
  fun s => (s, [], Ok (pendingTransactions s !! phone)).

Definition setUserState (phone : string) (u : UserState) : M unit :=
  fun s => ({| userStates := <[phone := u]> (userStates s);
               pendingTransactions := pendingTransactions s;
               claimLinks := claimLinks s |}, [], Ok tt).

Definition stateOf {A} (r : State * list Event * result A) : State := fst (fst r).
Definition eventsOf {A} (r : State * list Event * result A) : list Event := snd (fst r).

(** ** The collaborators

    The wallet resolver, the user table, the gas oracle, the transfer and
    claim-link services and the chain are outside the engine.  A [World]
    gives what each of them answers when a handler runs; it may differ
    from one handler run to the next. *)

(** What the chain answers to the deposit helper. *)
Record Chain := {
  parseUnits : float -> result Z;
  usdcBalanceOf : result Z;
  usdcAllowance : result Z;
  usdcApprove : Z -> result unit;
  zappoDeposit : Z -> result string;
  depositWait : result unit;
}.

Record World := {
  findUserByPhone : string -> result bool;
  validateUserWallet : string -> result bool;
  getUserWallet : string -> result (option Wallet);
  getWalletProvider : string -> result string;
  estimateGas : string -> JsStr -> float -> result GasEstimate;
  createClaimLink : string -> JsStr -> float -> string -> result TxResult;
  sendTransaction : string -> JsStr -> float -> result TxResult;
  swapUSDCtoWETH : float -> result SwapResult;
  payoutGasCost : float;
  payoutTxHash : string;
  chain : Chain;
}.

(** ** Web3/contracts/connections.js *)

Module Connections.

(** [deposit(amount)]: the whole body is inside [try], the [catch] only
    logs, and no branch has a [return]: the promise resolves to
    [undefined], here [None]. *)
Definition deposit (c : Chain) (amount : float) : M (option DepositResult) :=
  tryCatch
    (let* amountWei := await (parseUnits c amount) in
     let* balance := await (usdcBalanceOf c) in
     (if balance <? amountWei then throw (External "Not enough USDC.") else ret tt);;;
     let* allowance := await (usdcAllowance c) in
     when (allowance <? amountWei)
          (emit (EvApprove amountWei);;; await (usdcApprove c amountWei));;;
     emit (EvDepositTx amountWei);;;
     let* hash := await (zappoDeposit c amountWei) in
     await (depositWait c);;;
     ret None)
    (fun _ => ret None).

(** The names the module exports; [getZAPBalance] is not one of them, so
    the name CommandHandler imports is [undefined] and calling it throws. *)
Definition getZAPBalance : M JsVal :=
  throw (External "getZAPBalance is not a function").

End Connections.

(** ** TransactionHandler *)

Module TransactionHandler.
Section WithBuiltins.
Variable parseFloatStr : string -> float.
Local Abbreviation parseFloat := (Js.parseFloat parseFloatStr).

(** The address the gas estimate uses for a claim link. *)
Definition claimEscrowAddress : string := "0x0000000000000000000000000000000000000001".

(** [if (!wallet || !wallet.balance) throw ...] *)
Definition requireWallet (o : option Wallet) : M Wallet :=
  match o with
  | Some wallet => if truthy (balance wallet) then ret wallet else throw WalletUnavailable
  | None => throw WalletUnavailable
  end.

(** [handleSendTransaction(from, phone, sendParams)]: prepare and ask for
    confirmation. *)
Definition handleSendTransaction (w : World) (now : Z) (from phone : string)
    (sendParams : SendParams) : M unit :=
  tryCatch
    ((if truthy (amount sendParams) then ret tt else throw MissingParameters);;;
     let sendAmount := parseFloat (amount sendParams) in
     (if isNaN sendAmount || le sendAmount 0 then throw InvalidAmount else ret tt);;;
     let* found := await (getUserWallet w phone) in
     let* wallet := requireWallet found in
     let* resolved :=
       match recipientPhone sendParams with
       | Some rp =>
           if nonEmpty rp && negb (truthyS (recipientAddress sendParams)) then
             let* recipientWallet := await (getUserWallet w rp) in
             match recipientWallet with
             | Some rw => ret (Some (address rw), false)
             | None => ret (recipientAddress sendParams, true)
             end
           else ret (recipientAddress sendParams, false)
       | None => ret (recipientAddress sendParams, false)
       end in
     let finalRecipientAddress := fst resolved in
     let shouldCreateClaimLink := snd resolved in
     let currentBalance := parseFloat (balance wallet) in
     (if gt sendAmount currentBalance
      then throw (InsufficientBalance currentBalance sendAmount) else ret tt);;;
     let* gasEstimate :=
       await (estimateGas w (address wallet)
                (if shouldCreateClaimLink then Some claimEscrowAddress
                 else finalRecipientAddress)
                sendAmount) in
     let totalCost := (sendAmount + parseFloat (estimatedCost gasEstimate))%float in
     (if gt totalCost currentBalance
      then throw (InsufficientForGas totalCost currentBalance) else ret tt);;;
     let transactionData :=
       {| td_from := address wallet;
          td_to := finalRecipientAddress;
          td_amount := sendAmount;
          td_gasEstimate := gasEstimate;
          td_totalCost := totalCost;
          td_phone := phone;
          td_recipientPhone :=
            if shouldCreateClaimLink then recipientPhone sendParams else None;
          td_shouldCreateClaimLink := shouldCreateClaimLink |} in
     let recipientDisplay :=
       orS (name sendParams) (orS finalRecipientAddress (recipientPhone sendParams)) in
     sendMessage from
       (SendConfirmation sendAmount recipientDisplay
          (parseFloat (estimatedCost gasEstimate)) totalCost shouldCreateClaimLink);;;
     setPending phone (SendTransaction transactionData sendParams now))
    (fun error => sendMessage from (PreparationFailed error)).

(** [originalParams.name || 'Unknown'] *)
Definition displayName (originalParams : SendParams) : string :=
  match name originalParams with
  | Some n => if nonEmpty n then n else "Unknown"
  | None => "Unknown"
  end.

(** [updateUserBalance(phone)] swallows its own failures. *)
Definition updateUserBalance (phone : string) : M unit :=
  emit (EvUpdateUserBalance phone).

(** [executePendingTransaction(from, phone, pendingTx)] for a record of
    type [send_transaction]. *)
Definition executePendingTransaction (w : World) (from phone : string)
    (data : TransactionData) (originalParams : SendParams) : M unit :=
  emit (EvCall HExecutePendingTransaction);;;
  tryCatch
    (let* found := await (getUserWallet w phone) in
     let* wallet := requireWallet found in
     (if gt (td_totalCost data) (parseFloat (balance wallet))
      then throw BalanceChanged else ret tt);;;
     let* txResult :=
       if td_shouldCreateClaimLink data then
         let display := displayName originalParams in
         emit (EvCreateClaimLink phone (td_recipientPhone data) (td_amount data) display);;;
         let* txResult :=
           await (createClaimLink w phone (td_recipientPhone data) (td_amount data) display) in
         (if tx_success txResult then ret tt
          else throw (ClaimLinkFailed (tx_error txResult)));;;
         sendMessage from
           (ClaimLinkCreated (td_amount data) (td_recipientPhone data)
              (tx_claimLink txResult));;;
         ret txResult
       else
         let* walletProvider := await (getWalletProvider w phone) in
         emit (EvSendTransaction walletProvider (td_to data) (td_amount data));;;
         let* txResult :=
           tryCatch
             (await (sendTransaction w walletProvider (td_to data) (td_amount data)))
             (fun _ => throw TransactionFailed) in
         sendMessage from
           (TransactionSuccessful (td_amount data) (td_to data) (tx_hash txResult));;;
         ret txResult in
     updateUserBalance phone;;;
     emit (EvLogTransaction phone
             (orS (td_to data) (td_recipientPhone data))
             (td_amount data) (td_shouldCreateClaimLink data)
             (orS (tx_hash txResult) (tx_ephemeralAddress txResult))))
    (fun error => sendMessage from (ExecutionFailed error)).

End WithBuiltins.
End TransactionHandler.

(** ** The claim escrow service *)

Module Claims.

(** Modelled from the spec: a link expires three days after its creation
    (times in milliseconds). *)
Definition threeDays : Z := 3 * 24 * 60 * 60 * 1000.

Record Receipt := {
  transferAmount : float;
  gasCost : float;
  txHash : string;
}.

Definition setClaim (token : string) (link : ClaimLink) : M unit :=
  fun s => ({| userStates := userStates s;
               pendingTransactions := pendingTransactions s;
               claimLinks := <[token := link]> (claimLinks s) |}, [], Ok tt).

Definition withStatus (st : ClaimStatus) (link : ClaimLink) : ClaimLink :=
  {| cl_sender := cl_sender link;
     cl_recipient := cl_recipient link;
     cl_amount := cl_amount link;
     cl_createdAt := cl_createdAt link;
     cl_expiresAt := cl_expiresAt link;
     cl_status := st |}.

(** Modelled from the spec: the net payout is the held amount less the
    network cost, floored at zero. *)
Definition netAmount (held cost : float) : float :=
  if gt held cost then (held - cost)%float else 0%float.

(** Modelled from the spec: the claims service ([services/claims]) is not
    among the sources; this is [claim] of section 4.4, the redemption the
    claim flow calls as [validateAndClaim].  It looks the token up and
    fails with NotFound, Expired or AlreadyClaimed "if the token is unknown,
    past expiresAt, or already Claimed/Refunded".  The stored status is
    read first: section 8 has every claim after a successful one answer
    AlreadyClaimed, whenever it comes, and scenario 3 has a link that the
    sweep has refunded answer Expired once its expiry has passed.
    Otherwise it pays the net amount out and marks the record Claimed. *)
Definition validateAndClaim (w : World) (now : Z) (tokenPlain : string)
    (recipientWalletAddress : string) : M Receipt :=
  fun s =>
    match claimLinks s !! tokenPlain with
    | None => throw (ClaimError NotFound) s
    | Some link =>
        match cl_status link with
        | Claimed => throw (ClaimError AlreadyClaimed) s
        | Refunded =>
            if cl_expiresAt link <? now then throw (ClaimError Expired) s
            else throw (ClaimError AlreadyClaimed) s
        | Pending =>
            if cl_expiresAt link <? now then throw (ClaimError Expired) s
            else
              let cost := payoutGasCost w in
              let net := netAmount (cl_amount link) cost in
              (emit (EvTransfer recipientWalletAddress net);;;
               setClaim tokenPlain (withStatus Claimed link);;;
               ret {| transferAmount := net; gasCost := cost; txHash := payoutTxHash w |}) s
        end
    end.

Definition sweepable (now : Z) (link : ClaimLink) : bool :=
  match cl_status link with
  | Pending => cl_expiresAt link <? now
  | Claimed | Refunded => false
  end.

(** Modelled from the spec: [sweepExpired] refunds every Pending claim
    past its expiry to the sender and marks it Refunded. *)
Definition sweepExpired (now : Z) : M unit :=
  fun s =>
    ({| userStates := userStates s;
        pendingTransactions := pendingTransactions s;
        claimLinks :=
          (fun link => if sweepable now link then withStatus Refunded link else link)
            <$> claimLinks s |},
     omap (fun kv => if sweepable now (snd kv)
                     then Some (EvTransfer (cl_sender (snd kv)) (cl_amount (snd kv)))
                     else None)
          (map_to_list (claimLinks s)),
     Ok tt).

End Claims.

(** ** CommandHandler *)

Module CommandHandler.

(** The [parameters] of a parsed send command. *)
Record Parameters := {
  p_amount : JsVal;
  p_recipient : JsStr;
  p_recipientPhone : JsStr;
  p_name : JsStr;
  p_args : option (list string);
  p_intent : JsStr;
}.

Section WithParser.
Variable parseFloatStr : string -> float.

(** The command parser is not among the sources: its predicates on the
    reply text, its amount validator and its argument parser are taken as
    they come.  A predicate may throw. *)
Variable isConfirmation : string -> result bool.
Variable isCancellation : string -> result bool.
Variable validateAmount : JsVal -> bool.
Variable parseSendParameters : list string -> SendParams.

(** The rest of [handleMessage] (the stateful flows and the command
    router, after the pending-confirmation check). *)
Variable handleOtherwise : World -> Z -> string -> string -> string -> M unit.

(** [extractPhoneNumber(whatsappId)] *)
Definition extractPhoneNumber (whatsappId : string) : string :=
  replace "@c.us" "" (replace "@s.whatsapp.net" "" whatsappId).

(** Which branch of [handleSendTransaction] a request takes: direct
    parameters (amount and a recipient), command arguments to parse, the
    start of the step-by-step flow, or none of these. *)
Inductive SendRequest :=
| Prepare (sendParams : SendParams)
| StartFlow
| BadFormat.

Definition requestOf (parameters : Parameters) : SendRequest :=
  if truthy (p_amount parameters)
     && (truthyS (p_recipient parameters) || truthyS (p_recipientPhone parameters)) then
    Prepare {| amount := p_amount parameters;
               recipient := p_recipient parameters;
               recipientAddress := None;
               recipientPhone := p_recipientPhone parameters;
               name := p_name parameters;
               valid := true;
               error := "" |}
  else match p_args parameters with
       | Some args => Prepare (parseSendParameters args)
       | None =>
           if bool_decide (p_intent parameters = Some "SEND_ARB_START")
           then StartFlow else BadFormat
       end.

(** [handleSendTransaction(from, phone, parameters)] *)
Definition handleSendTransaction (w : World) (now : Z) (from phone : string)
    (parameters : Parameters) : M unit :=
  tryCatch
    (let* user := await (findUserByPhone w phone) in
     if negb user then
       sendMessage from NeedWallet
     else
       match requestOf parameters with
       | StartFlow =>
           setUserState phone
             {| us_state := "AWAITING_CONTACT_FOR_SEND";
                us_recipientPhone := None;
                us_timestamp := now |};;;
           sendMessage from SendStepContact
       | BadFormat =>
           sendMessage from InvalidSendFormat
       | Prepare sendParams =>
           if negb (valid sendParams) then
             sendMessage from (SendParamError (error sendParams))
           else if negb (validateAmount (amount sendParams)) then
             sendMessage from InvalidAmountRange
           else
             TransactionHandler.handleSendTransaction parseFloatStr w now from phone
               sendParams
       end)
    (fun error => sendMessage from (ErrorReply error)).

(** [executeUSDCDeposit(from, phone, pendingDeposit)]: the class declares
    the method twice; the second declaration (the last in the class body)
    is the one in force. *)
Definition executeUSDCDeposit (w : World) (from phone : string)
    (amount zapTokens : float) : M unit :=
  emit (EvCall HExecuteUSDCDeposit);;;
  tryCatch
    (sendMessage from ProcessingDeposit;;;
     let* result := Connections.deposit (chain w) amount in
     match result with
     | None => throw (TypeError "success")
     | Some r =>
         if dr_success r then
           Connections.getZAPBalance;;;
           sendMessage from (DepositSuccessful amount zapTokens (dr_hash r))
         else
           sendMessage from (DepositFailedWith (dr_error r))
     end)
    (fun error => sendMessage from (DepositFailed error)).

(** [executeUSDCSwap(from, phone, swapData)] *)
Definition executeUSDCSwap (w : World) (from phone : string)
    (amount expectedOutput : float) : M unit :=
  emit (EvCall HExecuteUSDCSwap);;;
  tryCatch
    (sendMessage from (ProcessingSwap amount);;;
     tryCatch
       (emit (EvSwap amount);;;
        let* swapResult := await (swapUSDCtoWETH w amount) in
        (if sw_success swapResult then ret tt
         else throw (SwapError (sw_error swapResult)));;;
        sendMessage from (SwapSuccessful amount (sw_transactionHash swapResult)))
       (fun error => sendMessage from (SwapFailed error)))
    (fun error => sendMessage from (ErrorReply error)).

(** The three-way test on [pendingTx.type] after a confirmation. *)
Definition dispatch (w : World) (from phone : string) (tx : PendingTx) : M unit :=
  match tx with
  | UsdcDeposit amount zapTokens _ =>
      executeUSDCDeposit w from phone amount zapTokens
  | UsdcSwap amount expectedOutput _ =>
      executeUSDCSwap w from phone amount expectedOutput
  | SendTransaction data originalParams _ =>
      TransactionHandler.executePendingTransaction parseFloatStr w from phone
        data originalParams
  end.

Definition cancelledMessage (tx : PendingTx) : Message :=
  match tx with
  | UsdcDeposit _ _ _ => DepositCancelled
  | UsdcSwap _ _ _ => SwapCancelled
  | SendTransaction _ _ _ => TransactionCancelled
  end.

Definition repromptMessage (tx : PendingTx) : Message :=
  match tx with
  | UsdcDeposit _ _ _ => RepromptDeposit
  | UsdcSwap _ _ _ => RepromptSwap
  | SendTransaction _ _ _ => RepromptReaction
  end.

(** [handleTransactionConfirmation(from, phone, text)] *)
Definition handleTransactionConfirmation (w : World) (from phone text : string) : M unit :=
  emit (EvCall HTransactionConfirmation);;;
  tryCatch
    (let* pendingTx := getPending phone in
     match pendingTx with
     | None => sendMessage from NoPendingFound
     | Some tx =>
         let* confirmed := await (isConfirmation text) in
         if confirmed then
           deletePending phone;;;
           dispatch w from phone tx
         else
           let* cancelled := await (isCancellation text) in
           if cancelled then
             deletePending phone;;;
             sendMessage from (cancelledMessage tx)
           else
             sendMessage from (repromptMessage tx)
     end)
    (fun error => deletePending phone;;; sendMessage from (ErrorReply error)).

(** [handleMessage(messageData)], for a text message: the pending check
    comes first, then everything else. *)
Definition handleMessage (w : World) (now : Z) (from text : string) : M unit :=
  tryCatch
    (let phone := extractPhoneNumber from in
     let* pendingTx := getPending phone in
     match pendingTx with
     | Some _ => handleTransactionConfirmation w from phone text
     | None => emit (EvCall HOtherwise);;; handleOtherwise w now from phone text
     end)
    (fun error => sendMessage from (EnhancedError error)).

(** [handleClaimFlow(from, phone, tokenPlain)] *)
Definition handleClaimFlow (w : World) (now : Z) (from phone tokenPlain : string) : M unit :=
  tryCatch
    (let* hasWallet := await (validateUserWallet w phone) in
     if negb hasWallet then
       sendMessage from ClaimNeedsWallet
     else
       let* found := await (getUserWallet w phone) in
       let* wallet :=
         match found with
         | Some wallet => ret wallet
         | None => throw (TypeError "address")
         end in
       let* receipt := Claims.validateAndClaim w now tokenPlain (address wallet) in
       sendMessage from
         (ClaimedSuccessfully (Claims.transferAmount receipt) (Claims.gasCost receipt)
            (Claims.txHash receipt)))
    (fun error =>
       if includes "Amount too small" (messageOf error) then
         sendMessage from (ClaimAmountTooSmall error)
       else if includes "gas fees" (messageOf error) then
         sendMessage from (ClaimGasFeeIssue error)
       else
         sendMessage from (UnableToClaim error)).

End WithParser.
End CommandHandler.

(** ** Observations on traces and messages *)

(** An event that enters one of the three executors. *)
Definition isDispatch (e : Event) : bool :=
  match e with
  | EvCall HExecuteUSDCDeposit | EvCall HExecuteUSDCSwap
  | EvCall HExecutePendingTransaction => true
  | _ => false
  end.

Definition dispatchCount (evs : list Event) : nat := length (List.filter isDispatch evs).

(** An event that moves or commits funds. *)
Definition movesFunds (e : Event) : bool :=
  match e with
  | EvCreateClaimLink _ _ _ _ | EvSendTransaction _ _ _
  | EvApprove _ | EvDepositTx _ | EvSwap _ | EvTransfer _ _ => true
  | _ => false
  end.

Definition isDirectTransfer (e : Event) : bool :=
  match e with EvSendTransaction _ _ _ => true | _ => false end.

Definition isSend (e : Event) : bool :=
  match e with EvSend _ _ => true | _ => false end.

(** The messages that reject a request for what it says. *)
Definition isValidationError (m : Message) : bool :=
  match m with
  | InvalidAmountRange | InvalidSendFormat | SendParamError _
  | PreparationFailed MissingParameters | PreparationFailed InvalidAmount => true
  | _ => false
  end.

(** The numbers an error message shows. *)
Definition shownNumbers (e : Error) : list float :=
  match e with
  | InsufficientBalance have tried => [have; tried]
  | InsufficientForGas need have => [need; have]
  | _ => []
  end.

Definition isInsufficientBalance (e : Error) : bool :=
  match e with
  | InsufficientBalance _ _ | InsufficientForGas _ _ => true
  | _ => false
  end.

(** The staleness window of the confirmation texts: five minutes. *)
Definition stalenessWindow : Z := 5 * 60 * 1000.

Definition inRange (n : float) : bool := le 0.000001%float n && le n 1000000%float.

(** An amount that is not a number, not strictly positive, or out of the
    range. *)
Definition amountRejected (n : float) : bool := isNaN n || le n 0 || negb (inRange n).

(** A computation that leaves the state alone. *)
Definition preserves {A} (m : M A) : Prop := forall s, stateOf (m s) = s.

(** A computation that never throws. *)
Definition safe {A} (m : M A) : Prop := forall s, exists a, snd (m s) = Ok a.

(** The state once the pending record of [phone] is deleted. *)
Definition forget (phone : string) (s : State) : State :=
  {| userStates := userStates s;
     pendingTransactions := delete phone (pendingTransactions s);
     claimLinks := claimLinks s |}.

(** A computation none of whose events satisfies [P]. *)
Definition avoids {A} (P : Event -> bool) (m : M A) : Prop :=
  forall s, Forall (fun e => P e = false) (eventsOf (m s)).

Definition isOtherwise (e : Event) : bool :=
  match e with EvCall HOtherwise => true | _ => false end.

(** ** The command parser *)

Module CommandParser.

(** Modelled from the spec: the amount validator of the command parser
    ([commandParser.validateAmount]) is not among the sources; an amount
    "must parse as a positive number inside a configured range", the range
    [handleSendTransaction] tells the user. *)
Definition validateAmount (parse : string -> float) (a : JsVal) : bool :=
  let n := Js.parseFloat parse a in
  negb (isNaN n) && gt n 0 && inRange n.

End CommandParser.

(** ** Scenarios *)

Module Scenario.

(** The decimal strings the scenarios use. *)
Definition parseDecimal (s : string) : float :=
  if bool_decide (s = "1.0") then 1%float
  else if bool_decide (s = "0.5") then 0.5%float
  else if bool_decide (s = "0.3") then 0.3%float
  else if bool_decide (s = "0.1") then 0.1%float
  else if bool_decide (s = "0.0001") then 0.0001%float
  else if bool_decide (s = "2000000") then 2000000%float
  else PrimFloat.nan.

Definition isYes (text : string) : result bool := Ok (bool_decide (text = "yes")).
Definition isNo (text : string) : result bool := Ok (bool_decide (text = "no")).

Definition validateAmount := CommandParser.validateAmount.

Definition noArgs (args : list string) : SendParams :=
  {| amount := JUndefined; recipient := None; recipientAddress := None;
     recipientPhone := None; name := None; valid := false;
     error := "Invalid send format" |}.

Definition idle (w : World) (now : Z) (from phone text : string) : M unit := ret tt.

Definition okTx : TxResult :=
  {| tx_success := true; tx_error := None; tx_claimLink := Some "https://claim/1";
     tx_hash := Some "0xabc"; tx_ephemeralAddress := None |}.

Definition goodChain : Chain :=
  {| parseUnits := fun _ => Ok 1000000;
     usdcBalanceOf := Ok 5000000;
     usdcAllowance := Ok 0;
     usdcApprove := fun _ => Ok tt;
     zappoDeposit := fun _ => Ok "0xdef";
     depositWait := Ok tt |}.

(** A sender with the given cached balance; nobody else has a wallet. *)
Definition world (cachedBalance : string) : World :=
  {| findUserByPhone := fun p => Ok (bool_decide (p = "911"));
     validateUserWallet := fun p => Ok (bool_decide (p = "911"));
     getUserWallet := fun p =>
       Ok (if bool_decide (p = "911")
           then Some {| address := "0xA11CE"; balance := JStr cachedBalance |}
           else None);
     getWalletProvider := fun p => Ok p;
     estimateGas := fun _ _ _ => Ok {| estimatedCost := JStr "0.0001" |};
     createClaimLink := fun _ _ _ _ => Ok okTx;
     sendTransaction := fun _ _ _ => Ok okTx;
     swapUSDCtoWETH := fun _ =>
       Ok {| sw_success := true; sw_error := ""; sw_amountOut := JUndefined;
             sw_transactionHash := Some "0x5a" |};
     payoutGasCost := 0.0001%float;
     payoutTxHash := "0xfeed";
     chain := goodChain |}.

Definition empty : State :=
  {| userStates := ∅; pendingTransactions := ∅; claimLinks := ∅ |}.

Definition sendTo (amount phone : string) : SendParams :=
  {| amount := JStr amount; recipient := None; recipientAddress := None;
     recipientPhone := Some phone; name := None; valid := true; error := "" |}.

Definition request (amount phone : string) : CommandHandler.Parameters :=
  {| CommandHandler.p_amount := JStr amount;
     CommandHandler.p_recipient := None;
     CommandHandler.p_recipientPhone := Some phone;
     CommandHandler.p_name := None;
     CommandHandler.p_args := None;
     CommandHandler.p_intent := None |}.

Definition withPending (phone : string) (tx : PendingTx) : State :=
  {| userStates := ∅; pendingTransactions := {[ phone := tx ]}; claimLinks := ∅ |}.

Definition withClaim (token : string) (link : ClaimLink) : State :=
  {| userStates := ∅; pendingTransactions := ∅; claimLinks := {[ token := link ]} |}.

Definition heldLink : ClaimLink :=
  {| cl_sender := "911"; cl_recipient := "922"; cl_amount := 0.1%float;
     cl_createdAt := 0; cl_expiresAt := Claims.threeDays; cl_status := Pending |}.

End Scenario.

From Stdlib Require Import Ascii.

(** ** State, trace and exception passing, in general

    The handlers above run over [State] and [Event]; the rest of the code
    has other stores and other effects.  The same plumbing, for any store
    and any kind of event. *)

Definition Run (St Ev A : Type) : Type := St -> St * list Ev * result A.

Definition runRet {St Ev A} (a : A) : Run St Ev A := fun s => (s, [], Ok a).

Definition runThrow {St Ev A} (e : Error) : Run St Ev A := fun s => (s, [], Throw e).

Definition runBind {St Ev A B} (m : Run St Ev A) (k : A -> Run St Ev B) : Run St Ev B :=
  fun s =>
    match m s with
    | (s1, ev1, Ok a) =>
        match k a s1 with
        | (s2, ev2, r) => (s2, ev1 ++ ev2, r)
        end
    | (s1, ev1, Throw e) => (s1, ev1, Throw e)
    end.

Notation "'let+' x ':=' m 'in' k" := (runBind m (fun x => k))
  (at level 10, x name, m at level 100, k at level 200).
Notation "m '>>' k" := (runBind m (fun _ => k))
  (at level 100, k at level 200, right associativity).

(** [try { body } catch (error) { handler }] *)
Definition runTry {St Ev A} (body : Run St Ev A) (handler : Error -> Run St Ev A)
    : Run St Ev A :=
  fun s =>
    match body s with
    | (s1, ev1, Throw e) =>
        match handler e s1 with
        | (s2, ev2, r) => (s2, ev1 ++ ev2, r)
        end
    | done => done
    end.

Definition runAwait {St Ev A} (r : result A) : Run St Ev A := fun s => (s, [], r).

Definition runEmit {St Ev} (e : Ev) : Run St Ev unit := fun s => (s, [e], Ok tt).

Definition runGet {St Ev} : Run St Ev St := fun s => (s, [], Ok s).

Definition runModify {St Ev} (f : St -> St) : Run St Ev unit := fun s => (f s, [], Ok tt).

Definition finalOf {St Ev A} (r : St * list Ev * result A) : St := fst (fst r).
Definition traceOf {St Ev A} (r : St * list Ev * result A) : list Ev := snd (fst r).

(** ** The conversation flows of CommandHandler *)

Module Flows.

(** What the state of the contact flow carries besides its name and time. *)
Record ContactTarget := {
  targetAddress : JsStr;
  contactPhone : string;
  contactName : string;
}.

(** The handler's memory.  An entry of [userStates] is a [UserState] and,
    for the contact flow, a [ContactTarget] under the same key: every write
    and every delete of an entry below goes to both maps. *)
Record Session := {
  base : State;
  contactTargets : gmap string ContactTarget;
}.

(** The row of the user table. *)
Record UserRow := {
  wallet_address : JsStr;
}.

Record ImportResult := {
  ir_success : bool;
  ir_walletAddress : JsStr;
  ir_balance : JsVal;
  ir_error : JsStr;
}.

(** What [getSwapQuote] and [getTokenBalances] return; both catch their own
    errors and answer with [success: false]. *)
Record SwapQuote := {
  sq_success : bool;
  sq_error : JsStr;
  sq_amountOut : JsVal;
  sq_currentUSDCBalance : JsVal;
}.

Record TokenBalances := {
  tb_usdcBalance : JsVal;
  tb_wethBalance : JsVal;
}.

(** What the chain answers to [withdraw] and [checkBalances]. *)
Record VaultChain := {
  vaultUsdcBalanceOf : result Z;
  zappoBalanceOf : result Z;
  zappoWithdraw : Z -> result string;
  withdrawWait : result unit;
}.

(** The collaborators these handlers ask besides those of [World]. *)
Record Services := {
  findUserRow : string -> result (option UserRow);
  importWallet : string -> string -> result ImportResult;
  getBalance : string -> result JsVal;
  getTokenBalances : result TokenBalances;
  getSwapQuote : float -> result SwapQuote;
  uptime : float;
  vault : VaultChain;
}.

(** The further texts, by template, with the values interpolated. *)
Inductive Reply :=
| OperationCancelled
| NoActiveAction
| OperationTimedOut
| InvalidState
| InvalidEthAmount
| InvalidUsdcDepositAmount
| InvalidUsdcSwapAmount
| InvalidDefiOption
| SendStepAmount (recipient : string)
| InvalidPrivateKey
| ImportingWallet
| WalletImported (walletAddress : JsStr) (balance : JsVal)
| ImportFailed (reason : JsStr)
| ImportAborted (e : Error)
| WalletNotFound
| Welcome
| GreetingMenu (balance : float)
| WalletIssue
| Hello
| DefiMenu (walletAddress : JsStr)
| SwapPrompt (usdc weth : JsVal)
| DepositPrompt
| DepositConfirmation (currentUsdc currentZap deposit zapTokens newUsdc newZap : float)
| SwapConfirmation (currentUsdc currentWeth input output newUsdc newWeth : float)
| QuoteFailed (reason : JsStr)
| ContactRegistered (walletAddress : JsStr)
| ContactUnregistered
| ContactUnreadable
| ContactFailed
| AccessDenied
| UnknownAdminCommand
| AdminStatus (userStates pendingTransactions : nat) (uptime : float)
| AdminReset (userStates pendingTransactions : nat)
| AdminFailed (e : Error).

Inductive Action :=
| Core (e : Event)
| Say (to : string) (m : Reply)
| ImportWallet (phone key : string)
| WithdrawTx (amount : Z).

Definition F (A : Type) : Type := Run Session Action A.

Definition say (to : string) (m : Reply) : F unit := runEmit (Say to m).

(** A handler of the engine, run on the session.  The handlers run this way
    write no conversation entry that carries a [ContactTarget]: they send,
    store a pending record, or run after the sender's entry was deleted. *)
Definition core {A} (m : M A) : F A :=
  fun x =>
    match m (base x) with
    | (s1, ev, r) =>
        ({| base := s1; contactTargets := contactTargets x |}, map Core ev, r)
    end.

Definition withUserStates (f : gmap string UserState -> gmap string UserState)
    (s : State) : State :=
  {| userStates := f (userStates s);
     pendingTransactions := pendingTransactions s;
     claimLinks := claimLinks s |}.

(** [userStates.set(phone, { state, recipientPhone?, timestamp })] *)
Definition setFlow (phone : string) (u : UserState) : F unit :=
  runModify (fun x =>
    {| base := withUserStates (insert phone u) (base x);
       contactTargets := delete phone (contactTargets x) |}).

(** [userStates.set(phone, { state, targetAddress, contactPhone,
    contactName, timestamp })] *)
Definition setContactFlow (phone : string) (u : UserState) (t : ContactTarget) : F unit :=
  runModify (fun x =>
    {| base := withUserStates (insert phone u) (base x);
       contactTargets := <[phone := t]> (contactTargets x) |}).

(** [userStates.delete(phone)] *)
Definition forgetFlow (phone : string) (x : Session) : Session :=
  {| base := withUserStates (delete phone) (base x);
     contactTargets := delete phone (contactTargets x) |}.

Definition deleteFlow (phone : string) : F unit := runModify (forgetFlow phone).

(** [userStates.get(phone)] *)
Definition getFlow (phone : string) : F (option (UserState * option ContactTarget)) :=
  fun x =>
    (x, [],
     Ok (match userStates (base x) !! phone with
         | Some u => Some (u, contactTargets x !! phone)
         | None => None
         end)).

Definition flow (stateName : string) (now : Z) : UserState :=
  {| us_state := stateName; us_recipientPhone := None; us_timestamp := now |}.

(** The expiry of a conversation state: five minutes. *)
Definition fiveMinutes : Z := 5 * 60 * 1000.

(** [/^0x[a-fA-F0-9]{64}$/] *)
Definition isHexDigit (c : ascii) : bool :=
  let n := nat_of_ascii c in
  ((48 <=? n) && (n <=? 57) || (97 <=? n) && (n <=? 102) || (65 <=? n) && (n <=? 70))%nat.

Fixpoint allHex (s : string) : bool :=
  match s with
  | EmptyString => true
  | String c rest => isHexDigit c && allHex rest
  end.

Definition isPrivateKey (s : string) : bool :=
  match s with
  | String "0" (String "x" rest) => (String.length rest =? 64)%nat && allHex rest
  | _ => false
  end.

(** [p.replace(/^\+/, '')] *)
Definition stripPlus (p : string) : string :=
  match p with
  | String "+" rest => rest
  | _ => p
  end.

(** The one administrator. *)
Definition adminNumbers : list string := ["919489042245"].

(** [parseFloat(x) || 0] *)
Definition orZero (n : float) : float :=
  if isNaN n || PrimFloat.eqb n 0 then 0%float else n.

Section WithBuiltins.
Variable parseFloatStr : string -> float.
Variable validateAmount : JsVal -> bool.
Variable parseSendParameters : list string -> SendParams.

(** [String.prototype.trim] and [toLowerCase] are not re-implemented. *)
Variable trim : string -> string.
Variable toLowerCase : string -> string.

(** [parseInt(x.toFixed(0))], the rounding of a balance to a whole number, is
    not re-implemented either. *)
Variable toInteger : float -> float.

Local Abbreviation parseFloat := (Js.parseFloat parseFloatStr).
Local Abbreviation handleSendTransaction :=
  (CommandHandler.handleSendTransaction parseFloatStr validateAmount parseSendParameters).

(** The guard that opens most menu handlers. *)
Definition requireUser (w : World) (from phone : string) (k : F unit) : F unit :=
  let+ user := runAwait (findUserByPhone w phone) in
  if negb user then core (sendMessage from NeedWallet) else k.

Definition replyError (from : string) (error : Error) : F unit :=
  core (sendMessage from (ErrorReply error)).

(** [checkBalances()] of connections.js: it logs the two balances, catches
    everything and returns nothing. *)
Definition checkBalances (c : VaultChain) : F (option TokenBalances) :=
  runTry
    (let+ usdcBalance := runAwait (vaultUsdcBalanceOf c) in
     let+ zappoBalance := runAwait (zappoBalanceOf c) in
     runRet None)
    (fun _ => runRet None).

(** [withdraw()] of connections.js: all the ZAPPO tokens, or nothing. *)
Definition withdraw (c : VaultChain) : F (option unit) :=
  runTry
    (let+ balance := runAwait (zappoBalanceOf c) in
     (if balance =? 0 then runThrow (External "No ZAPPO tokens to withdraw")
      else runRet tt) >>
     runEmit (WithdrawTx balance) >>
     let+ hash := runAwait (zappoWithdraw c balance) in
     runAwait (withdrawWait c) >>
     runRet None)
    (fun _ => runRet None).

(** [handleDepositConfirmation(from, phone, amount)] *)
Definition handleDepositConfirmation (w : World) (x : Services) (now : Z)
    (from phone : string) (amount : float) : F unit :=
  runTry
    (let+ wallet := runAwait (getUserWallet w phone) in
     match wallet with
     | None => say from WalletNotFound
     | Some _ =>
         (* the inner [try]: a throw keeps what was assigned before it *)
         let+ current :=
           runTry
             (let+ balances := checkBalances (vault x) in
              let currentUSDCBalance :=
                match balances with
                | Some b => if truthy (tb_usdcBalance b)
                            then parseFloat (tb_usdcBalance b) else 0%float
                | None => 0%float
                end in
              runTry
                (let+ zapBalance := core Connections.getZAPBalance in
                 runRet (currentUSDCBalance, toInteger (parseFloat zapBalance * 1e18)%float))
                (fun _ => runRet (currentUSDCBalance, 0%float)))
             (fun _ => runRet (0%float, 0%float)) in
         let currentUSDCBalance := fst current in
         let currentZAPBalance := snd current in
         let zapTokensToReceive := amount in
         let newZAPBalance := (currentZAPBalance + amount * 1e18)%float in
         say from
           (DepositConfirmation currentUSDCBalance currentZAPBalance amount
              zapTokensToReceive (currentUSDCBalance - amount)%float newZAPBalance) >>
         core (setPending phone (UsdcDeposit amount zapTokensToReceive now))
     end)
    (replyError from).

(** [handleSwapConfirmation(from, phone, amount)] *)
Definition handleSwapConfirmation (w : World) (x : Services) (now : Z)
    (from phone : string) (amount : float) : F unit :=
  runTry
    (let+ wallet := runAwait (getUserWallet w phone) in
     match wallet with
     | None => say from WalletNotFound
     | Some _ =>
         let+ quoteResult := runAwait (getSwapQuote x amount) in
         if negb (sq_success quoteResult) then
           say from (QuoteFailed (sq_error quoteResult))
         else
           let currentUSDCBalance := parseFloat (sq_currentUSDCBalance quoteResult) in
           let wethToReceive := parseFloat (sq_amountOut quoteResult) in
           let+ currentWETHBalance :=
             runTry
               (let+ balanceData := runAwait (getTokenBalances x) in
                runRet (if truthy (tb_wethBalance balanceData)
                        then parseFloat (tb_wethBalance balanceData) else 0%float))
               (fun _ => runRet 0%float) in
           say from
             (SwapConfirmation currentUSDCBalance currentWETHBalance amount wethToReceive
                (currentUSDCBalance - amount)%float
                (currentWETHBalance + wethToReceive)%float) >>
           core (setPending phone (UsdcSwap amount wethToReceive now))
     end)
    (replyError from).

(** [handlePrivateKeyInput(from, phone, privateKey)] *)
Definition handlePrivateKeyInput (x : Services) (from phone privateKey : string) : F unit :=
  runTry
    (if negb (isPrivateKey privateKey) then
       say from InvalidPrivateKey
     else
       say from ImportingWallet >>
       runEmit (ImportWallet phone privateKey) >>
       let+ result := runAwait (importWallet x phone privateKey) in
       if ir_success result then
         deleteFlow phone >>
         say from (WalletImported (ir_walletAddress result) (ir_balance result))
       else
         say from (ImportFailed (ir_error result)))
    (fun error => deleteFlow phone >> say from (ImportAborted error)).

(** [handleGreeting(from, phone)] *)
Definition handleGreeting (w : World) (x : Services) (from phone : string) : F unit :=
  runTry
    (let+ existingUser := runAwait (findUserByPhone w phone) in
     if negb existingUser then
       say from Welcome
     else
       let+ wallet := runAwait (getUserWallet w phone) in
       match wallet with
       | Some wallet =>
           let+ freshBalance := runAwait (getBalance x (address wallet)) in
           say from (GreetingMenu (orZero (parseFloat freshBalance)))
       | None => say from WalletIssue
       end)
    (fun _ => say from Hello).

(** [handleExploreDeFiMenu(from, phone)] *)
Definition handleExploreDeFiMenu (w : World) (now : Z) (from phone : string) : F unit :=
  runTry
    (requireUser w from phone
       (setFlow phone (flow "AWAITING_DEFI_SELECTION" now) >>
        let+ wallet := runAwait (getUserWallet w phone) in
        say from (DefiMenu (address <$> wallet))))
    (replyError from).

(** [handleSwapTokens(from, phone)] *)
Definition handleSwapTokens (w : World) (x : Services) (now : Z) (from phone : string)
    : F unit :=
  runTry
    (requireUser w from phone
       (setFlow phone (flow "AWAITING_SWAP_AMOUNT" now) >>
        let+ balanceData := runAwait (getTokenBalances x) in
        say from (SwapPrompt (tb_usdcBalance balanceData) (tb_wethBalance balanceData))))
    (replyError from).

(** [handleDepositUSDC(from, phone)] *)
Definition handleDepositUSDC (w : World) (now : Z) (from phone : string) : F unit :=
  runTry
    (requireUser w from phone
       (setFlow phone (flow "AWAITING_USDC_DEPOSIT_AMOUNT" now) >>
        say from DepositPrompt))
    (replyError from).

(** [transactionHandler.handleBalance] and [transactionHandler.handleHistory]:
    TransactionHandler has no such methods (its methods are
    [handleGetBalance], [handleGetTransactions], [handleGetHistory], ...), so
    the call throws. *)
Definition missingMethod (methodName : string) : F unit :=
  runThrow (External ("transactionHandler." +:+ methodName +:+ " is not a function")).

(** The reply that is an amount: [!isNaN(amount) && amount > 0]. *)
Definition validAmount (amount : float) : bool := negb (isNaN amount) && gt amount 0.

(** The [switch (userState.state)] of [handleStatefulMessage], entered with
    the trimmed text [msg] and the entry found for the sender. *)
Definition resume (w : World) (x : Services) (now : Z) (from phone text msg : string)
    (entry : UserState) (target : option ContactTarget) : F unit :=
  let stateName := us_state entry in
  let amount := parseFloatStr msg in
  if bool_decide (stateName = "IMPORTING_WALLET") then
    handlePrivateKeyInput x from phone text
  else if bool_decide (stateName = "AWAITING_DEFI_SELECTION") then
    let selection := trim msg in
    deleteFlow phone >>
    if bool_decide (selection = "1") then handleSwapTokens w x now from phone
    else if bool_decide (selection = "2") then handleDepositUSDC w now from phone
    else if bool_decide (selection = "3") then missingMethod "handleBalance"
    else if bool_decide (selection = "4") then missingMethod "handleHistory"
    else if bool_decide (selection = "back") then handleGreeting w x from phone
    else
      say from InvalidDefiOption >>
      handleExploreDeFiMenu w now from phone
  else if bool_decide (stateName = "AWAITING_AMOUNT_FOR_CONTACT") then
    if validAmount amount then
      deleteFlow phone >>
      core (handleSendTransaction w now from phone
              {| CommandHandler.p_amount := JNum amount;
                 CommandHandler.p_recipient := target ≫= targetAddress;
                 CommandHandler.p_recipientPhone := contactPhone <$> target;
                 CommandHandler.p_name := contactName <$> target;
                 CommandHandler.p_args := None;
                 CommandHandler.p_intent := None |})
    else say from InvalidEthAmount
  else if bool_decide (stateName = "AWAITING_AMOUNT_FOR_UNREGISTERED")
          || bool_decide (stateName = "AWAITING_AMOUNT_FOR_SEND") then
    if validAmount amount then
      deleteFlow phone >>
      core (handleSendTransaction w now from phone
              {| CommandHandler.p_amount := JNum amount;
                 CommandHandler.p_recipient := None;
                 CommandHandler.p_recipientPhone := us_recipientPhone entry;
                 CommandHandler.p_name := us_recipientPhone entry;
                 CommandHandler.p_args := None;
                 CommandHandler.p_intent := None |})
    else say from InvalidEthAmount
  else if bool_decide (stateName = "AWAITING_CONTACT_FOR_SEND") then
    setFlow phone
      {| us_state := "AWAITING_AMOUNT_FOR_SEND";
         us_recipientPhone := Some msg;
         us_timestamp := now |} >>
    say from (SendStepAmount msg)
  else if bool_decide (stateName = "AWAITING_USDC_DEPOSIT_AMOUNT") then
    if validAmount amount then
      deleteFlow phone >>
      handleDepositConfirmation w x now from phone amount
    else say from InvalidUsdcDepositAmount
  else if bool_decide (stateName = "AWAITING_SWAP_AMOUNT") then
    if validAmount amount then
      deleteFlow phone >>
      handleSwapConfirmation w x now from phone amount
    else if bool_decide (toLowerCase msg = "cancel") then
      deleteFlow phone >>
      handleExploreDeFiMenu w now from phone
    else say from InvalidUsdcSwapAmount
  else
    deleteFlow phone >> say from InvalidState.

(** [handleStatefulMessage(from, phone, text)] *)
Definition handleStatefulMessage (w : World) (x : Services) (now : Z)
    (from phone text : string) : F unit :=
  runTry
    (let msg := trim text in
     let+ userState := getFlow phone in
     if bool_decide (toLowerCase msg = "cancel") then
       deleteFlow phone >> say from OperationCancelled
     else
       match userState with
       | None => say from NoActiveAction
       | Some (entry, target) =>
           if fiveMinutes <? now - us_timestamp entry then
             deleteFlow phone >> say from OperationTimedOut
           else
             resume w x now from phone text msg entry target
       end)
    (fun error => deleteFlow phone >> replyError from error).

(** [handleSharedContact({ from, phones })]: both branches of the loop body
    return, so the loop ends at the first phone. *)
Definition handleSharedContact (x : Services) (now : Z) (from : string)
    (phones : list string) : F unit :=
  let senderPhone := CommandHandler.extractPhoneNumber from in
  runTry
    (match phones with
     | p :: _ =>
         let normalized := stripPlus p in
         let+ contactUser := runAwait (findUserRow x normalized) in
         match contactUser with
         | Some row =>
             say from (ContactRegistered (wallet_address row)) >>
             setContactFlow senderPhone (flow "AWAITING_AMOUNT_FOR_CONTACT" now)
               {| targetAddress := wallet_address row;
                  contactPhone := normalized;
                  contactName := normalized |}
         | None =>
             say from ContactUnregistered >>
             setFlow senderPhone
               {| us_state := "AWAITING_AMOUNT_FOR_UNREGISTERED";
                  us_recipientPhone := Some normalized;
                  us_timestamp := now |}
         end
     | [] => say from ContactUnreadable
     end)
    (fun _ => say from ContactFailed).

(** [handleStatusCommand(from, phone)] *)
Definition handleStatusCommand (x : Services) (from : string) : F unit :=
  runTry
    (let+ s := runGet in
     say from (AdminStatus (size (userStates (base s)))
                 (size (pendingTransactions (base s))) (uptime x)))
    (fun error => say from (AdminFailed error)).

(** [handleResetCommand(from, phone)] *)
Definition handleResetCommand (from : string) : F unit :=
  runTry
    (let+ s := runGet in
     let beforeStates := size (userStates (base s)) in
     let beforeTransactions := size (pendingTransactions (base s)) in
     runModify (fun s =>
       {| base := {| userStates := ∅;
                     pendingTransactions := ∅;
                     claimLinks := claimLinks (base s) |};
          contactTargets := ∅ |}) >>
     say from (AdminReset beforeStates beforeTransactions))
    (fun error => say from (AdminFailed error)).

(** [handleAdminCommand(from, phone, text)] *)
Definition handleAdminCommand (x : Services) (from phone text : string) : F unit :=
  if negb (bool_decide (phone ∈ adminNumbers)) then
    say from AccessDenied
  else
    let command := trim (toLowerCase text) in
    runTry
      (if bool_decide (command = "/status") then handleStatusCommand x from
       else if bool_decide (command = "/reset") then handleResetCommand from
       else say from UnknownAdminCommand)
      (fun error => say from (AdminFailed error)).

End WithBuiltins.
End Flows.

(** ** The vault contract (zappo.sol) *)

Module Zappo.

Definition address : Type := string.

(** [type(uint256).max]: the contract is compiled with checked arithmetic
    (pragma ^0.8.24), so a result outside [0, maxUint] reverts. *)
Definition maxUint : Z := 2 ^ 256 - 1.

(** The contract's own storage.  A mapping reads 0 where nothing was
    written. *)
Record Storage := {
  aaveActive : bool;
  userDeposits : gmap address Z;
  userTiers : gmap address Z;
  userTransactionHashes : gmap address (list Z);
  totalInAave : Z;
  currentAaveAPY : Z;
  userAaveBalance : gmap address Z;
  totalDeposited : Z;
}.

Definition at_ (m : gmap address Z) (a : address) : Z := default 0 (m !! a).

Definition hashesOf (m : gmap address (list Z)) (a : address) : list Z :=
  default [] (m !! a).

(** The state the constructor leaves. *)
Definition initial : Storage :=
  {| aaveActive := false;
     userDeposits := ∅;
     userTiers := ∅;
     userTransactionHashes := ∅;
     totalInAave := 0;
     currentAaveAPY := 450;
     userAaveBalance := ∅;
     totalDeposited := 0 |}.

(** The calls that leave the contract's own code: to the USDC token, and to
    the inherited ERC20 (OpenZeppelin's, not among the sources). *)
Inductive Call :=
| UsdcTransferFrom (from to : address) (amount : Z)
| UsdcTransfer (to : address) (amount : Z)
| Mint (account : address) (amount : Z)
| Burn (account : address) (amount : Z).

Inductive Log :=
| Deposit (user : address) (amount txHash : Z)
| Withdraw (user : address) (amount txHash : Z)
| AaveSupply (user : address) (amount newBalance : Z)
| AaveWithdraw (user : address) (amount remainingBalance : Z)
| AaveActivated (poolAddress : address)
| YieldEarned (user : address) (amount : Z).

Inductive Effect :=
| Called (c : Call)
| Emitted (l : Log).

(** What [abi.encodePacked] is given. *)
Inductive Packed :=
| PAddress (a : address)
| PUint (n : Z)
| PString (s : string).

(** What a call sees of the world outside the contract's own storage: the
    message and the block, what the two token ledgers answer, who the owner
    is, and whether a call into a ledger goes through or reverts. *)
Record Env := {
  sender : address;
  this : address;
  owner : address;
  aavePool : address;
  timestamp : Z;
  number : Z;
  keccak256 : list Packed -> Z;
  usdcBalanceOf : address -> Z;
  usdcAllowance : address -> address -> Z;
  balanceOf : address -> Z;
  goesThrough : Call -> bool;
}.

Inductive Revert :=
| Require (reason : string)
| Panic
| Unauthorized
| CallReverted (c : Call).

(** A transaction either completes, with the new storage, what it called
    and emitted, and its return value, or reverts and leaves nothing. *)
Inductive Outcome (A : Type) :=
| Done (st : Storage) (effects : list Effect) (value : A)
| Reverted (why : Revert).
Arguments Done {A} st effects value.
Arguments Reverted {A} why.

Definition Tx (A : Type) : Type := Storage -> Outcome A.

Definition txRet {A} (a : A) : Tx A := fun st => Done st [] a.

Definition revert {A} (why : Revert) : Tx A := fun _ => Reverted why.

Definition txBind {A B} (m : Tx A) (k : A -> Tx B) : Tx B :=
  fun st =>
    match m st with
    | Done st1 ev1 a =>
        match k a st1 with
        | Done st2 ev2 b => Done st2 (ev1 ++ ev2) b
        | Reverted why => Reverted why
        end
    | Reverted why => Reverted why
    end.

Notation "'let!' x ':=' m 'in' k" := (txBind m (fun x => k))
  (at level 10, x name, m at level 100, k at level 200).
Notation "m ';!' k" := (txBind m (fun _ => k))
  (at level 100, k at level 200, right associativity).

Definition require (cond : bool) (reason : string) : Tx unit :=
  if cond then txRet tt else revert (Require reason).

Definition call (env : Env) (c : Call) : Tx unit :=
  fun st => if goesThrough env c then Done st [Called c] tt else Reverted (CallReverted c).

Definition emit (l : Log) : Tx unit := fun st => Done st [Emitted l] tt.

Definition read {A} (f : Storage -> A) : Tx A := fun st => Done st [] (f st).

Definition write (f : Storage -> Storage) : Tx unit := fun st => Done (f st) [] tt.

Definition onlyOwner (env : Env) : Tx unit :=
  if bool_decide (owner env = sender env) then txRet tt else revert Unauthorized.

(** Checked arithmetic on uint256. *)
Definition add (a b : Z) : Tx Z :=
  if a + b <=? maxUint then txRet (a + b) else revert Panic.

Definition sub (a b : Z) : Tx Z :=
  if b <=? a then txRet (a - b) else revert Panic.

Definition mul (a b : Z) : Tx Z :=
  if a * b <=? maxUint then txRet (a * b) else revert Panic.

(** The writes of one storage variable. *)
Definition setAaveActive (b : bool) (st : Storage) : Storage :=
  {| aaveActive := b;
     userDeposits := userDeposits st;
     userTiers := userTiers st;
     userTransactionHashes := userTransactionHashes st;
     totalInAave := totalInAave st;
     currentAaveAPY := currentAaveAPY st;
     userAaveBalance := userAaveBalance st;
     totalDeposited := totalDeposited st |}.

Definition setUserDeposits (a : address) (v : Z) (st : Storage) : Storage :=
  {| aaveActive := aaveActive st;
     userDeposits := <[a := v]> (userDeposits st);
     userTiers := userTiers st;
     userTransactionHashes := userTransactionHashes st;
     totalInAave := totalInAave st;
     currentAaveAPY := currentAaveAPY st;
     userAaveBalance := userAaveBalance st;
     totalDeposited := totalDeposited st |}.

Definition setUserTiers (a : address) (v : Z) (st : Storage) : Storage :=
  {| aaveActive := aaveActive st;
     userDeposits := userDeposits st;
     userTiers := <[a := v]> (userTiers st);
     userTransactionHashes := userTransactionHashes st;
     totalInAave := totalInAave st;
     currentAaveAPY := currentAaveAPY st;
     userAaveBalance := userAaveBalance st;
     totalDeposited := totalDeposited st |}.

Definition pushHash (a : address) (h : Z) (st : Storage) : Storage :=
  {| aaveActive := aaveActive st;
     userDeposits := userDeposits st;
     userTiers := userTiers st;
     userTransactionHashes :=
       <[a := hashesOf (userTransactionHashes st) a ++ [h]]> (userTransactionHashes st);
     totalInAave := totalInAave st;
     currentAaveAPY := currentAaveAPY st;
     userAaveBalance := userAaveBalance st;
     totalDeposited := totalDeposited st |}.

Definition setTotalInAave (v : Z) (st : Storage) : Storage :=
  {| aaveActive := aaveActive st;
     userDeposits := userDeposits st;
     userTiers := userTiers st;
     userTransactionHashes := userTransactionHashes st;
     totalInAave := v;
     currentAaveAPY := currentAaveAPY st;
     userAaveBalance := userAaveBalance st;
     totalDeposited := totalDeposited st |}.

Definition setCurrentAaveAPY (v : Z) (st : Storage) : Storage :=
  {| aaveActive := aaveActive st;
     userDeposits := userDeposits st;
     userTiers := userTiers st;
     userTransactionHashes := userTransactionHashes st;
     totalInAave := totalInAave st;
     currentAaveAPY := v;
     userAaveBalance := userAaveBalance st;
     totalDeposited := totalDeposited st |}.

Definition setUserAaveBalance (a : address) (v : Z) (st : Storage) : Storage :=
  {| aaveActive := aaveActive st;
     userDeposits := userDeposits st;
     userTiers := userTiers st;
     userTransactionHashes := userTransactionHashes st;
     totalInAave := totalInAave st;
     currentAaveAPY := currentAaveAPY st;
     userAaveBalance := <[a := v]> (userAaveBalance st);
     totalDeposited := totalDeposited st |}.

Definition setTotalDeposited (v : Z) (st : Storage) : Storage :=
  {| aaveActive := aaveActive st;
     userDeposits := userDeposits st;
     userTiers := userTiers st;
     userTransactionHashes := userTransactionHashes st;
     totalInAave := totalInAave st;
     currentAaveAPY := currentAaveAPY st;
     userAaveBalance := userAaveBalance st;
     totalDeposited := v |}.

(** [userAaveBalance[msg.sender] += amount; totalInAave += amount;] *)
Definition creditAave (who : address) (amount : Z) : Tx unit :=
  let! position := read (fun st => at_ (userAaveBalance st) who) in
  let! newPosition := add position amount in
  write (setUserAaveBalance who newPosition);!
  let! total := read totalInAave in
  let! newTotal := add total amount in
  write (setTotalInAave newTotal).

(** [userAaveBalance[msg.sender] -= amount; totalInAave -= amount;] *)
Definition debitAave (who : address) (amount : Z) : Tx unit :=
  let! position := read (fun st => at_ (userAaveBalance st) who) in
  let! newPosition := sub position amount in
  write (setUserAaveBalance who newPosition);!
  let! total := read totalInAave in
  let! newTotal := sub total amount in
  write (setTotalInAave newTotal).

(** [calculateTier(amount)] *)
Definition calculateTier (amount : Z) : Z :=
  if 100000 * 1000000 <=? amount then 5
  else if 50000 * 1000000 <=? amount then 4
  else if 10000 * 1000000 <=? amount then 3
  else if 5000 * 1000000 <=? amount then 2
  else 1.

(** [activateAave()] *)
Definition activateAave (env : Env) : Tx unit :=
  onlyOwner env;!
  write (setAaveActive true);!
  emit (AaveActivated (aavePool env)).

(** [supplyToAave(amount)] *)
Definition supplyToAave (env : Env) (amount : Z) : Tx Z :=
  require (0 <? amount) "Amount must be positive";!
  let! active := read aaveActive in
  require active "Aave not activated";!
  require (amount <=? usdcBalanceOf env (sender env)) "Insufficient USDC";!
  require (amount <=? usdcAllowance env (sender env) (this env)) "Insufficient allowance";!
  let txHash :=
    keccak256 env [PAddress (sender env); PUint amount; PUint (timestamp env);
                   PString "aave_supply"] in
  call env (UsdcTransferFrom (sender env) (this env) amount);!
  creditAave (sender env) amount;!
  write (pushHash (sender env) txHash);!
  let! position := read (fun st => at_ (userAaveBalance st) (sender env)) in
  emit (AaveSupply (sender env) amount position);!
  txRet txHash.

(** [deposit(amount)] *)
Definition deposit (env : Env) (amount : Z) : Tx Z :=
  require (0 <? amount) "Amount must be positive";!
  require (amount <=? usdcBalanceOf env (sender env)) "Insufficient USDC";!
  require (amount <=? usdcAllowance env (sender env) (this env)) "Insufficient allowance";!
  let txHash :=
    keccak256 env [PAddress (sender env); PUint amount; PUint (timestamp env);
                   PUint (number env)] in
  call env (UsdcTransferFrom (sender env) (this env) amount);!
  call env (Mint (sender env) amount);!
  let! active := read aaveActive in
  (if active then
     creditAave (sender env) amount;!
     let! position := read (fun st => at_ (userAaveBalance st) (sender env)) in
     emit (AaveSupply (sender env) amount position)
   else txRet tt);!
  let! deposited := read (fun st => at_ (userDeposits st) (sender env)) in
  let! newDeposited := add deposited amount in
  write (setUserDeposits (sender env) newDeposited);!
  write (setUserTiers (sender env) (calculateTier newDeposited));!
  let! total := read totalDeposited in
  let! newTotal := add total amount in
  write (setTotalDeposited newTotal);!
  write (pushHash (sender env) txHash);!
  emit (Deposit (sender env) amount txHash);!
  txRet txHash.

(** [withdrawFromAave(amount)], returning [(txHash, yieldEarned)] *)
Definition withdrawFromAave (env : Env) (amount : Z) : Tx (Z * Z) :=
  require (0 <? amount) "Amount must be positive";!
  let! position := read (fun st => at_ (userAaveBalance st) (sender env)) in
  require (amount <=? position) "Insufficient Aave balance";!
  let txHash :=
    keccak256 env [PAddress (sender env); PUint amount; PUint (timestamp env);
                   PString "aave_withdraw"] in
  let! scaled := mul amount 200 in
  let yield2 := scaled / 10000 in
  let! uncapped := add amount yield2 in
  let contractBalance := usdcBalanceOf env (this env) in
  let totalWithdraw := if contractBalance <? uncapped then contractBalance else uncapped in
  let yieldEarned :=
    if contractBalance <? uncapped
    then (if amount <? totalWithdraw then totalWithdraw - amount else 0)
    else yield2 in
  debitAave (sender env) amount;!
  call env (UsdcTransfer (sender env) totalWithdraw);!
  write (pushHash (sender env) txHash);!
  let! remaining := read (fun st => at_ (userAaveBalance st) (sender env)) in
  emit (AaveWithdraw (sender env) amount remaining);!
  (if 0 <? yieldEarned then emit (YieldEarned (sender env) yieldEarned) else txRet tt);!
  txRet (txHash, yieldEarned).

(** [withdraw(tokenAmount)] *)
Definition withdraw (env : Env) (tokenAmount : Z) : Tx Z :=
  require (0 <? tokenAmount) "Amount must be positive";!
  require (tokenAmount <=? balanceOf env (sender env)) "Insufficient ZAPPO balance";!
  let txHash :=
    keccak256 env [PAddress (sender env); PUint tokenAmount; PUint (timestamp env);
                   PString "withdraw"] in
  let! active := read aaveActive in
  let! position := read (fun st => at_ (userAaveBalance st) (sender env)) in
  let! earnedYield :=
    if active && (tokenAmount <=? position) then
      let! scaled := mul tokenAmount 150 in
      debitAave (sender env) tokenAmount;!
      let! remaining := read (fun st => at_ (userAaveBalance st) (sender env)) in
      emit (AaveWithdraw (sender env) tokenAmount remaining);!
      txRet (scaled / 10000)
    else txRet 0 in
  let! uncapped := add tokenAmount earnedYield in
  let contractBalance := usdcBalanceOf env (this env) in
  let totalWithdraw := if contractBalance <? uncapped then contractBalance else uncapped in
  call env (Burn (sender env) tokenAmount);!
  call env (UsdcTransfer (sender env) totalWithdraw);!
  let! deposited := read (fun st => at_ (userDeposits st) (sender env)) in
  (if tokenAmount <=? deposited then
     let! newDeposited := sub deposited tokenAmount in
     write (setUserDeposits (sender env) newDeposited)
   else txRet tt);!
  let! deposited' := read (fun st => at_ (userDeposits st) (sender env)) in
  write (setUserTiers (sender env) (calculateTier deposited'));!
  let! total := read totalDeposited in
  let! newTotal := sub total tokenAmount in
  write (setTotalDeposited newTotal);!
  write (pushHash (sender env) txHash);!
  (if 0 <? earnedYield then emit (YieldEarned (sender env) earnedYield) else txRet tt);!
  emit (Withdraw (sender env) totalWithdraw txHash);!
  txRet txHash.

(** [updateAaveAPY(newAPY)] *)
Definition updateAaveAPY (env : Env) (newAPY : Z) : Tx unit :=
  onlyOwner env;!
  write (setCurrentAaveAPY newAPY).

(** [emergencyWithdraw()] *)
Definition emergencyWithdraw (env : Env) : Tx unit :=
  onlyOwner env;!
  let balance := usdcBalanceOf env (this env) in
  if 0 <? balance then call env (UsdcTransfer (owner env) balance) else txRet tt.

(** [getUserInfo(user)] *)
Record UserInfo := {
  zappoBalance : Z;
  totalDeposited_ : Z;
  aaveBalance : Z;
  tier : Z;
  transactionCount : Z;
  latestTxHash : Z;
}.

Definition getUserInfo (env : Env) (user : address) (st : Storage) : UserInfo :=
  let hashes := hashesOf (userTransactionHashes st) user in
  {| zappoBalance := balanceOf env user;
     totalDeposited_ := at_ (userDeposits st) user;
     aaveBalance := at_ (userAaveBalance st) user;
     tier := at_ (userTiers st) user;
     transactionCount := Z.of_nat (length hashes);
     latestTxHash := if 0 <? Z.of_nat (length hashes) then List.last hashes 0 else 0 |}.

(** The external functions that write, and a history of calls to them: a
    call that reverts leaves the storage as it was. *)
Inductive Op :=
| ActivateAave
| SupplyToAave (amount : Z)
| DepositOp (amount : Z)
| WithdrawFromAave (amount : Z)
| WithdrawOp (tokenAmount : Z)
| UpdateAaveAPY (newAPY : Z)
| EmergencyWithdraw.

Definition storageAfter {A} (o : Outcome A) (before : Storage) : Storage :=
  match o with
  | Done st _ _ => st
  | Reverted _ => before
  end.

Definition step (st : Storage) (c : Env * Op) : Storage :=
  let env := fst c in
  match snd c with
  | ActivateAave => storageAfter (activateAave env st) st
  | SupplyToAave amount => storageAfter (supplyToAave env amount st) st
  | DepositOp amount => storageAfter (deposit env amount st) st
  | WithdrawFromAave amount => storageAfter (withdrawFromAave env amount st) st
  | WithdrawOp tokenAmount => storageAfter (withdraw env tokenAmount st) st
  | UpdateAaveAPY newAPY => storageAfter (updateAaveAPY env newAPY st) st
  | EmergencyWithdraw => storageAfter (emergencyWithdraw env st) st
  end.

Definition history (calls : list (Env * Op)) : Storage := fold_left step calls initial.

(** The sum of the positions. *)
Definition sumOf (m : gmap address Z) : Z := map_fold (fun _ v acc => v + acc) 0 m.

Definition isCall (e : Effect) : bool :=
  match e with
  | Called _ => true
  | Emitted _ => false
  end.

Arguments maxUint : simpl never.

End Zappo.

(** ** FunctionMapper *)

Module FunctionMapper.

(** What the AI answer is decoded to. *)
Record Entities := {
  e_amount : JsVal;
  e_recipient : JsStr;
  e_address : JsStr;
}.

Record AiData := {
  intent : string;
  entities : Entities;
  conversationalResponse : JsStr;
  confidence : float;
}.

Definition noEntities : Entities :=
  {| e_amount := JUndefined; e_recipient := None; e_address := None |}.

(** The object both fallbacks of [parseAIResponse] build. *)
Definition generalChat (aiContent : JsStr) : AiData :=
  {| intent := "GENERAL_CHAT";
     entities := noEntities;
     conversationalResponse := aiContent;
     confidence := 0.5 |}.

(** The pattern of [parseAIResponse] as the source spells it: a backslash
    and an opening brace, any number of characters of the class that holds
    the backslash, [s] and [S], then a backslash and a closing brace. *)
Definition inClass (c : ascii) : bool :=
  bool_decide (c = "\"%char) || bool_decide (c = "s"%char) || bool_decide (c = "S"%char).

Definition closing (s : string) : option string :=
  match s with
  | String "\" (String "}" _) => Some "\}"
  | _ => None
  end.

(** The starred class and the closing, from the start of [s]: the star
    takes a character first and gives it back when the rest does not
    match. *)
Fixpoint body (s : string) : option string :=
  match s with
  | String c rest =>
      if inClass c then
        match body rest with
        | Some m => Some (String c m)
        | None => closing s
        end
      else closing s
  | EmptyString => None
  end.

Definition matchHere (s : string) : option string :=
  match s with
  | String "\" (String "{" rest) =>
      match body rest with
      | Some m => Some (String "\" (String "{" m))
      | None => None
      end
  | _ => None
  end.

(** [aiContent.match(pattern)]: the leftmost match, or nothing. *)
Fixpoint firstMatch (s : string) : option string :=
  match matchHere s with
  | Some m => Some m
  | None =>
      match s with
      | String _ rest => firstMatch rest
      | EmptyString => None
      end
  end.

(** What is sent to the chat. *)
Inductive Text :=
| Reply (text : string)
| DefaultReply
| Hiccup.

Section WithJson.

(** [JSON.parse] is not re-implemented. *)
Variable jsonParse : string -> result AiData.

(** [sock.sendMessage], which may throw. *)
Variable deliver : string -> Text -> result unit.

(** The handlers of the other intents are taken as they come. *)
Variable handleBalanceCheck handleSendETH handleCreateWallet handleHelp :
  string -> AiData -> string -> Run unit (string * Text) unit.

Definition send (jid : string) (t : Text) : Run unit (string * Text) unit :=
  runEmit (jid, t) >> runAwait (deliver jid t).

(** [parseAIResponse(aiContent)]; on a content that is no string the call
    of [match] throws. *)
Definition parseAIResponse (aiContent : JsStr) : AiData :=
  let attempt : result AiData :=
    match aiContent with
    | None => Throw (TypeError "match")
    | Some text =>
        match firstMatch text with
        | Some found => jsonParse found
        | None => Ok (generalChat aiContent)
        end
    end in
  match attempt with
  | Ok data => data
  | Throw _ => generalChat aiContent
  end.

(** [handleGeneralChat(sock, message, aiData)] *)
Definition handleGeneralChat (jid : string) (aiData : AiData)
    : Run unit (string * Text) unit :=
  send jid (match conversationalResponse aiData with
            | Some text => if nonEmpty text then Reply text else DefaultReply
            | None => DefaultReply
            end).

(** [executeAIIntent(sock, message, aiResult, userPhone)] *)
Definition executeAIIntent (jid : string) (content : JsStr) (userPhone : string)
    : Run unit (string * Text) unit :=
  runTry
    (let aiData := parseAIResponse content in
     if bool_decide (intent aiData = "GET_BALANCE") then
       handleBalanceCheck jid aiData userPhone
     else if bool_decide (intent aiData = "SEND_ETH") then
       handleSendETH jid aiData userPhone
     else if bool_decide (intent aiData = "CREATE_WALLET") then
       handleCreateWallet jid aiData userPhone
     else if bool_decide (intent aiData = "HELP") then
       handleHelp jid aiData userPhone
     else
       handleGeneralChat jid aiData)
    (fun _ => send jid Hiccup).

End WithJson.
End FunctionMapper.

(** ** Further scenarios *)

Module Cases.

(** [toLowerCase] and [trim] on ASCII text. *)
Definition lowerChar (c : ascii) : ascii :=
  let n := nat_of_ascii c in
  if ((65 <=? n) && (n <=? 90))%nat then ascii_of_nat (n + 32) else c.

Fixpoint toLowerCase (s : string) : string :=
  match s with
  | EmptyString => EmptyString
  | String c rest => String (lowerChar c) (toLowerCase rest)
  end.

Definition isSpace (c : ascii) : bool :=
  let n := nat_of_ascii c in
  ((n =? 32) || (9 <=? n) && (n <=? 13))%nat.

Fixpoint trimStart (s : string) : string :=
  match s with
  | String c rest => if isSpace c then trimStart rest else s
  | EmptyString => EmptyString
  end.

Fixpoint trimEnd (s : string) : string :=
  match s with
  | EmptyString => EmptyString
  | String c rest =>
      match trimEnd rest with
      | EmptyString => if isSpace c then EmptyString else String c EmptyString
      | kept => String c kept
      end
  end.

Definition trim (s : string) : string := trimEnd (trimStart s).

Definition services : Flows.Services :=
  {| Flows.findUserRow := fun p =>
       Ok (if bool_decide (p = "933")
           then Some {| Flows.wallet_address := Some "0xC0FFEE" |} else None);
     Flows.importWallet := fun _ _ =>
       Ok {| Flows.ir_success := true; Flows.ir_walletAddress := Some "0xA11CE";
             Flows.ir_balance := JStr "0.0"; Flows.ir_error := None |};
     Flows.getBalance := fun _ => Ok (JStr "1.0");
     Flows.getTokenBalances :=
       Ok {| Flows.tb_usdcBalance := JStr "1.0"; Flows.tb_wethBalance := JStr "0.5" |};
     Flows.getSwapQuote := fun _ =>
       Ok {| Flows.sq_success := true; Flows.sq_error := None;
             Flows.sq_amountOut := JStr "0.0001";
             Flows.sq_currentUSDCBalance := JStr "1.0" |};
     Flows.uptime := 0%float;
     Flows.vault :=
       {| Flows.vaultUsdcBalanceOf := Ok 5000000;
          Flows.zappoBalanceOf := Ok 1000000;
          Flows.zappoWithdraw := fun _ => Ok "0xbeef";
          Flows.withdrawWait := Ok tt |} |}.

Definition fresh : Flows.Session :=
  {| Flows.base := Scenario.empty; Flows.contactTargets := ∅ |}.

Definition inFlow (phone : string) (u : UserState) : Flows.Session :=
  {| Flows.base :=
       {| userStates := {[ phone := u ]}; pendingTransactions := ∅; claimLinks := ∅ |};
     Flows.contactTargets := ∅ |}.

(** The world of [Scenario.world] with some answers replaced. *)
Definition worldWith (cachedBalance : string)
    (wallets : string -> result (option Wallet))
    (gas : result GasEstimate) (claimLink transfer : result TxResult) : World :=
  {| findUserByPhone := findUserByPhone (Scenario.world cachedBalance);
     validateUserWallet := validateUserWallet (Scenario.world cachedBalance);
     getUserWallet := wallets;
     getWalletProvider := getWalletProvider (Scenario.world cachedBalance);
     estimateGas := fun _ _ _ => gas;
     createClaimLink := fun _ _ _ _ => claimLink;
     sendTransaction := fun _ _ _ => transfer;
     swapUSDCtoWETH := swapUSDCtoWETH (Scenario.world cachedBalance);
     payoutGasCost := payoutGasCost (Scenario.world cachedBalance);
     payoutTxHash := payoutTxHash (Scenario.world cachedBalance);
     chain := chain (Scenario.world cachedBalance) |}.

Definition twoWallets (p : string) : result (option Wallet) :=
  Ok (if bool_decide (p = "911")
      then Some {| address := "0xA11CE"; balance := JStr "1.0" |}
      else if bool_decide (p = "933")
      then Some {| address := "0xC0FFEE"; balance := JStr "0.5" |}
      else None).

Definition gasOk : result GasEstimate := Ok {| estimatedCost := JStr "0.0001" |}.

Definition refusedLink : TxResult :=
  {| tx_success := false; tx_error := Some "escrow transfer failed"; tx_claimLink := None;
     tx_hash := None; tx_ephemeralAddress := None |}.

Definition directData : TransactionData :=
  {| td_from := "0xA11CE"; td_to := Some "0xC0FFEE"; td_amount := 0.1%float;
     td_gasEstimate := {| estimatedCost := JStr "0.0001" |};
     td_totalCost := (0.1 + 0.0001)%float; td_phone := "911";
     td_recipientPhone := None; td_shouldCreateClaimLink := false |}.

Definition escrowData : TransactionData :=
  {| td_from := "0xA11CE"; td_to := None; td_amount := 0.1%float;
     td_gasEstimate := {| estimatedCost := JStr "0.0001" |};
     td_totalCost := (0.1 + 0.0001)%float; td_phone := "911";
     td_recipientPhone := Some "922"; td_shouldCreateClaimLink := true |}.

(** A bare send request, as the router passes it on. *)
Definition startSend : CommandHandler.Parameters :=
  {| CommandHandler.p_amount := JUndefined;
     CommandHandler.p_recipient := None;
     CommandHandler.p_recipientPhone := None;
     CommandHandler.p_name := None;
     CommandHandler.p_args := None;
     CommandHandler.p_intent := Some "SEND_ARB_START" |}.

(** A send request that names an address. *)
Definition toAddress : CommandHandler.Parameters :=
  {| CommandHandler.p_amount := JStr "0.1";
     CommandHandler.p_recipient := Some "0xB0B";
     CommandHandler.p_recipientPhone := None;
     CommandHandler.p_name := None;
     CommandHandler.p_args := None;
     CommandHandler.p_intent := None |}.

(** The rounding on numbers that are whole already. *)
Definition whole (x : float) : float := x.

Definition someKey : string :=
  "0x0123456789abcdef0123456789ABCDEF0123456789abcdef0123456789ABCDEF".

(** A call to the vault by [who] while the vault holds [held] USDC. *)
Definition vaultEnv (who : string) (held : Z) : Zappo.Env :=
  {| Zappo.sender := who;
     Zappo.this := "vault";
     Zappo.owner := "owner";
     Zappo.aavePool := "pool";
     Zappo.timestamp := 1;
     Zappo.number := 1;
     Zappo.keccak256 := fun _ => 7;
     Zappo.usdcBalanceOf := fun a => if bool_decide (a = "vault") then held else 5000000;
     Zappo.usdcAllowance := fun _ _ => 5000000;
     Zappo.balanceOf := fun _ => 1000000;
     Zappo.goesThrough := fun _ => true |}.

(** The vault after the owner activated lending and alice deposited one
    USDC. *)
Definition lending : Zappo.Storage :=
  {| Zappo.aaveActive := true;
     Zappo.userDeposits := {[ "alice" := 1000000 ]};
     Zappo.userTiers := {[ "alice" := 1 ]};
     Zappo.userTransactionHashes := {[ "alice" := [7] ]};
     Zappo.totalInAave := 1000000;
     Zappo.currentAaveAPY := 450;
     Zappo.userAaveBalance := {[ "alice" := 1000000 ]};
     Zappo.totalDeposited := 1000000 |}.

(** The vault after alice took everything out again. *)
Definition emptied (deposits total : Z) : Zappo.Storage :=
  {| Zappo.aaveActive := true;
     Zappo.userDeposits := {[ "alice" := deposits ]};
     Zappo.userTiers := {[ "alice" := 1 ]};
     Zappo.userTransactionHashes := {[ "alice" := [7; 7] ]};
     Zappo.totalInAave := 0;
     Zappo.currentAaveAPY := 450;
     Zappo.userAaveBalance := {[ "alice" := 0 ]};
     Zappo.totalDeposited := total |}.

(** A JSON reader that accepts what begins with a brace. *)
Definition strictJson (text : string) : result FunctionMapper.AiData :=
  match text with
  | String "{" _ =>
      Ok {| FunctionMapper.intent := "GET_BALANCE";
            FunctionMapper.entities := FunctionMapper.noEntities;
            FunctionMapper.conversationalResponse := None;
            FunctionMapper.confidence := 1 |}
  | _ => Throw (External "Unexpected token")
  end.

Definition delivered (jid : string) (t : FunctionMapper.Text) : result unit := Ok tt.

Definition unused (jid : string) (d : FunctionMapper.AiData) (userPhone : string)
    : Run unit (string * FunctionMapper.Text) unit :=
  runRet tt.

End Cases.

(** A computation that leaves a view of the store as it was. *)
Definition keeps {St Ev A B} (view : St -> B) (m : Run St Ev A) : Prop :=
  forall s, view (finalOf (m s)) = view s.

(** The pending records, as the session holds them. *)
Definition pendingOf (x : Flows.Session) : gmap string PendingTx :=
  pendingTransactions (Flows.base x).

(** The states in which a reply is read as an amount to send. *)
Definition sendAmountStates : list string :=
  ["AWAITING_AMOUNT_FOR_CONTACT"; "AWAITING_AMOUNT_FOR_UNREGISTERED";
   "AWAITING_AMOUNT_FOR_SEND"].

Definition amountStates : list string :=
  sendAmountStates ++ ["AWAITING_USDC_DEPOSIT_AMOUNT"; "AWAITING_SWAP_AMOUNT"].

(** A computation whose trace has no action of a kind. *)
Definition quiet {St Ev A} (P : Ev -> bool) (m : Run St Ev A) : Prop :=
  forall s, existsb P (traceOf (m s)) = false.

Definition isImport (a : Flows.Action) : bool :=
  match a with
  | Flows.ImportWallet _ _ => true
  | _ => false
  end.

(** What the history of the vault keeps true of the lending positions and
    of the tiers. *)
Definition positionsAddUp (st : Zappo.Storage) : Prop :=
  Zappo.totalInAave st = Zappo.sumOf (Zappo.userAaveBalance st) /\
  forall a, 0 <= Zappo.at_ (Zappo.userAaveBalance st) a.

Definition tiersFollow (st : Zappo.Storage) : Prop :=
  forall a t,
    Zappo.userTiers st !! a = Some t ->
    t = Zappo.calculateTier (Zappo.at_ (Zappo.userDeposits st) a).

(** What can reach the claim escrow: a redemption, the claim flow of a
    user, or the sweep. *)
Inductive EscrowCall :=
| Redeem (w : World) (now : Z) (tokenPlain address : string)
| ClaimFlow (w : World) (now : Z) (from phone tokenPlain : string)
| Sweep (now : Z).

Definition escrowAfter (call : EscrowCall) (s : State) : State :=
  match call with
  | Redeem w now tokenPlain address =>
      stateOf (Claims.validateAndClaim w now tokenPlain address s)
  | ClaimFlow w now from phone tokenPlain =>
      stateOf (CommandHandler.handleClaimFlow w now from phone tokenPlain s)
  | Sweep now => stateOf (Claims.sweepExpired now s)
  end.

(** The escrow after a history of calls, the earliest first. *)
Definition escrowHistory (calls : list EscrowCall) (s : State) : State :=
  fold_left (fun s call => escrowAfter call s) calls s.

(** A redemption that is refused with [kind]: the store stays as it was,
    nothing is transferred, and the claim flow, whoever starts it, changes
    nothing and moves no funds either. *)
Definition refusedWith (kind : ClaimErrorKind) (w : World) (now : Z)
    (tokenPlain address : string) (s : State) : Prop :=
  Claims.validateAndClaim w now tokenPlain address s = (s, [], Throw (ClaimError kind)) /\
  forall from phone,
    stateOf (CommandHandler.handleClaimFlow w now from phone tokenPlain s) = s /\
    existsb movesFunds (eventsOf (CommandHandler.handleClaimFlow w now from phone tokenPlain s))
    = false.

(** What a settled link answers: AlreadyClaimed when it was redeemed, and,
    when it was refunded, Expired once its expiry has passed. *)
Definition settledAnswer (now : Z) (link : ClaimLink) : ClaimErrorKind :=
  match cl_status link with
  | Claimed => AlreadyClaimed
  | _ => if cl_expiresAt link <? now then Expired else AlreadyClaimed
  end.

(** ** Handlers that overlap

    The handlers are [async] and [initialize] registers them without
    serialising them: a handler runs without interruption up to an
    [await], and what is left of it runs later, after whatever the other
    handlers did to the store in between.  A task is a handler cut at its
    awaits: each segment runs at once on the store it finds and says what
    is left. *)

Module Overlap.

#[warnings="-register-all"]
Inductive Task :=
| Finished
| Segment (body : State -> State * list Event * Task).

(** [await this.sendMessage(to, m)] as the last step of a handler. *)
Definition reply (to : string) (m : Message) : Task :=
  Segment (fun s => (s, [EvSend to m], Finished)).

(** Events that come one segment each: another handler can run between
    any two of them. *)
Fixpoint handOut (events : list Event) (rest : Task) : Task :=
  match events with
  | [] => rest
  | e :: events => Segment (fun s => (s, [e], handOut events rest))
  end.

(** A task run with nothing in between. *)
Fixpoint alone (t : Task) (s : State) : State * list Event :=
  match t with
  | Finished => (s, [])
  | Segment body =>
      match body s with
      | (s1, ev, t1) =>
          match alone t1 s1 with
          | (s2, evs) => (s2, ev ++ evs)
          end
      end
  end.

Section WithParser.
Variable parseFloatStr : string -> float.
Variable isConfirmation : string -> result bool.
Variable isCancellation : string -> result bool.

(** [await] of the executor of a record, within the [try] of
    [handleTransactionConfirmation].  No executor reads or writes the
    store, so what it does is what [dispatch] says whenever the rest of it
    runs; its events are handed out one segment each, which puts an await
    wherever the executor may have one.  Should it throw, the [catch]
    deletes the record again, on the store as it is by then, and
    replies. *)
Definition awaitDispatch (w : World) (from phone : string) (tx : PendingTx)
    (s : State) : Task :=
  match CommandHandler.dispatch parseFloatStr w from phone tx s with
  | (_, events, outcome) =>
      handOut events
        match outcome with
        | Ok _ => Finished
        | Throw error =>
            Segment (fun s1 => (forget phone s1, [], reply from (ErrorReply error)))
        end
  end.

(** [handleTransactionConfirmation(from, phone, text)], cut at its awaits.
    Between the [get] of the record and its [delete] there is no await:
    the first segment reads the record, tests the reply and deletes the
    record before anything is awaited. *)
Definition handleTransactionConfirmation (w : World) (from phone text : string) : Task :=
  Segment (fun s =>
    let entered := [EvCall HTransactionConfirmation] in
    match pendingTransactions s !! phone with
    | None => (s, entered, reply from NoPendingFound)
    | Some tx =>
        match isConfirmation text with
        | Ok true =>
            (forget phone s, entered, awaitDispatch w from phone tx (forget phone s))
        | Ok false =>
            match isCancellation text with
            | Ok true =>
                (forget phone s, entered, reply from (CommandHandler.cancelledMessage tx))
            | Ok false => (s, entered, reply from (CommandHandler.repromptMessage tx))
            | Throw error => (forget phone s, entered, reply from (ErrorReply error))
            end
        | Throw error => (forget phone s, entered, reply from (ErrorReply error))
        end
    end).

End WithParser.

(** Two handlers and the order in which the event loop resumes them. *)
Inductive Which := First | Second.

Record Overlapped := {
  store : State;
  heard : list (Which * Event);
  first : Task;
  second : Task;
}.

Definition hear (who : Which) (ev : list Event) (r : Overlapped) : Overlapped :=
  {| store := store r;
     heard := map (pair who) ev ++ heard r;
     first := first r;
     second := second r |}.

(** The turns are taken as the schedule gives them; the turn of a handler
    that has finished is skipped. *)
Fixpoint interleave (schedule : list Which) (a b : Task) (s : State) : Overlapped :=
  match schedule with
  | [] => {| store := s; heard := []; first := a; second := b |}
  | who :: schedule =>
      match who, a, b with
      | First, Segment body, _ =>
          match body s with
          | (s1, ev, a1) => hear First ev (interleave schedule a1 b s1)
          end
      | Second, _, Segment body =>
          match body s with
          | (s1, ev, b1) => hear Second ev (interleave schedule a b1 s1)
          end
      | _, _, _ => interleave schedule a b s
      end
  end.

Definition isWho (who : Which) (x : Which * Event) : bool :=
  match who, fst x with
  | First, First | Second, Second => true
  | _, _ => false
  end.

(** What one of the two handlers did, in order. *)
Definition saidBy (who : Which) (r : Overlapped) : list Event :=
  map snd (List.filter (isWho who) (heard r)).

(** What both did, as it happened. *)
Definition said (r : Overlapped) : list Event := map snd (heard r).

Definition bothFinished (r : Overlapped) : Prop :=
  first r = Finished /\ second r = Finished.

(** A task that, resumed on the store [s0], leaves it as it is at every
    segment and says [events] in all. *)
Inductive keepsSaying (s0 : State) : Task -> list Event -> Prop :=
| says_nothing : keepsSaying s0 Finished []
| says_more body ev t events :
    body s0 = (s0, ev, t) ->
    keepsSaying s0 t events ->
    keepsSaying s0 (Segment body) (ev ++ events).

End Overlap.

(** A computation that neither reads nor writes the store: on any store
    it says and returns what it does on any other. *)
Definition oblivious {A} (m : M A) : Prop :=
  forall s s1, m s1 = (s1, eventsOf (m s), snd (m s)).

(** ** Properties *)

(** *** Floating-point order *)

Lemma SFcompare_opp (x y : spec_float) (c : comparison) :
  SFcompare x y = Some c -> SFcompare y x = Some (CompOpp c).
Proof.
  destruct x as [sx| sx | |sx mx ex], y as [sy|sy| |sy my ey]; cbn;
    try discriminate; intros [= <-]; try (destruct sx; try destruct sy; reflexivity).
  f_equal.
  rewrite (Z.compare_antisym ex ey).
  change (PosDef.Pos.compare_cont Eq my mx) with (Pos.compare my mx).
  change (PosDef.Pos.compare_cont Eq mx my) with (Pos.compare mx my).
  rewrite (Pos.compare_antisym mx my).
  destruct sx, sy, (ex ?= ey)%Z, (mx ?= my)%positive; reflexivity.
Qed.

Lemma SFcompare_some (x y : spec_float) :
  x <> S754_nan -> y <> S754_nan -> exists c, SFcompare x y = Some c.
Proof. destruct x, y; cbn; intros; try congruence; eauto. Qed.

Lemma isNaN_Prim2SF (a : float) : isNaN a = false -> Prim2SF a <> S754_nan.
Proof.
  unfold isNaN, PrimFloat.is_nan. rewrite FloatAxioms.eqb_spec.
  intros H E. rewrite E in H. discriminate.
Qed.

(** For numbers, "not [a <= b]" is [a > b]. *)
Lemma not_le_gt (a b : float) :
  isNaN a = false -> isNaN b = false -> le a b = false -> gt a b = true.
Proof.
  intros Ha Hb. unfold le, gt. rewrite leb_spec, ltb_spec. unfold SFleb, SFltb.
  destruct (SFcompare_some _ _ (isNaN_Prim2SF _ Ha) (isNaN_Prim2SF _ Hb)) as [c Hc].
  rewrite Hc, (SFcompare_opp _ _ _ Hc). destruct c; cbn; congruence.
Qed.

(** For numbers, "not [a > b]" is [a <= b]. *)
Lemma not_gt_le (a b : float) :
  isNaN a = false -> isNaN b = false -> gt a b = false -> le a b = true.
Proof.
  intros Ha Hb Hgt. destruct (le a b) eqn:Hle; [reflexivity|].
  rewrite (not_le_gt a b Ha Hb Hle) in Hgt. discriminate.
Qed.

(** *** Running a handler *)

Lemma preserves_ret {A} (a : A) : preserves (ret a).
Proof. intros s. reflexivity. Qed.

Lemma preserves_throw {A} (e : Error) : preserves (@throw A e).
Proof. intros s. reflexivity. Qed.

Lemma preserves_await {A} (r : result A) : preserves (await r).
Proof. intros s. reflexivity. Qed.

Lemma preserves_emit (e : Event) : preserves (emit e).
Proof. intros s. reflexivity. Qed.

Lemma preserves_sendMessage to m : preserves (sendMessage to m).
Proof. intros s. reflexivity. Qed.

Lemma preserves_bind {A B} (m : M A) (k : A -> M B) :
  preserves m -> (forall a, preserves (k a)) -> preserves (bind m k).
Proof.
  intros Hm Hk s. unfold bind. specialize (Hm s).
  destruct (m s) as [[s1 ev1] [a|e]]; cbn in Hm; subst s1; [|reflexivity].
  specialize (Hk a s). destruct (k a s) as [[s2 ev2] r]. exact Hk.
Qed.

Lemma preserves_tryCatch {A} (m : M A) (h : Error -> M A) :
  preserves m -> (forall e, preserves (h e)) -> preserves (tryCatch m h).
Proof.
  intros Hm Hh s. unfold tryCatch. specialize (Hm s).
  destruct (m s) as [[s1 ev1] [a|e]]; cbn in Hm; subst s1; [reflexivity|].
  specialize (Hh e s). destruct (h e s) as [[s2 ev2] r]. exact Hh.
Qed.

Lemma preserves_when (b : bool) (m : M unit) : preserves m -> preserves (when b m).
Proof. destruct b; [trivial | intros _; apply preserves_ret]. Qed.

Lemma safe_ret {A} (a : A) : safe (ret a).
Proof. intros s. eexists. reflexivity. Qed.

Lemma safe_emit (e : Event) : safe (emit e).
Proof. intros s. eexists. reflexivity. Qed.

Lemma safe_sendMessage to m : safe (sendMessage to m).
Proof. intros s. eexists. reflexivity. Qed.

Lemma safe_bind {A B} (m : M A) (k : A -> M B) :
  safe m -> (forall a, safe (k a)) -> safe (bind m k).
Proof.
  intros Hm Hk s. unfold bind. destruct (Hm s) as [a Ha].
  destruct (m s) as [[s1 ev1] r]; cbn in Ha; subst r.
  destruct (Hk a s1) as [b Hb]. destruct (k a s1) as [[s2 ev2] r]. eauto.
Qed.

Lemma safe_tryCatch {A} (m : M A) (h : Error -> M A) :
  (forall e, safe (h e)) -> safe (tryCatch m h).
Proof.
  intros Hh s. unfold tryCatch.
  destruct (m s) as [[s1 ev1] [a|e]]; [eexists; reflexivity|].
  destruct (Hh e s1) as [b Hb]. destruct (h e s1) as [[s2 ev2] r]. eauto.
Qed.

Lemma safe_deletePending phone : safe (deletePending phone).
Proof. intros s. eexists. reflexivity. Qed.

Lemma avoids_ret {A} P (a : A) : avoids P (ret a).
Proof. intros s. constructor. Qed.

Lemma avoids_throw {A} P (e : Error) : avoids P (@throw A e).
Proof. intros s. constructor. Qed.

Lemma avoids_await {A} P (r : result A) : avoids P (await r).
Proof. intros s. constructor. Qed.

Lemma avoids_emit P (e : Event) : P e = false -> avoids P (emit e).
Proof. intros H s. repeat constructor. exact H. Qed.

Lemma avoids_bind {A B} P (m : M A) (k : A -> M B) :
  avoids P m -> (forall a, avoids P (k a)) -> avoids P (bind m k).
Proof.
  intros Hm Hk s. unfold bind. specialize (Hm s).
  destruct (m s) as [[s1 ev1] [a|e]]; cbn in *; [|exact Hm].
  specialize (Hk a s1). destruct (k a s1) as [[s2 ev2] r]. cbn in *.
  apply Forall_app; split; assumption.
Qed.

Lemma avoids_tryCatch {A} P (m : M A) (h : Error -> M A) :
  avoids P m -> (forall e, avoids P (h e)) -> avoids P (tryCatch m h).
Proof.
  intros Hm Hh s. unfold tryCatch. specialize (Hm s).
  destruct (m s) as [[s1 ev1] [a|e]]; cbn in *; [exact Hm|].
  specialize (Hh e s1). destruct (h e s1) as [[s2 ev2] r]. cbn in *.
  apply Forall_app; split; assumption.
Qed.

Lemma avoids_when P (b : bool) (m : M unit) : avoids P m -> avoids P (when b m).
Proof. destruct b; [trivial | intros _; apply avoids_ret]. Qed.

Lemma avoids_count {A} (m : M A) s :
  avoids isDispatch m -> dispatchCount (eventsOf (m s)) = 0%nat.
Proof.
  intros H. specialize (H s). unfold dispatchCount.
  induction H as [|e l He _ IH]; cbn; [reflexivity|]. rewrite He. exact IH.
Qed.

Create HintDb handler.
#[export] Hint Resolve preserves_ret preserves_throw preserves_await preserves_emit
  preserves_sendMessage preserves_when safe_ret safe_emit safe_sendMessage
  safe_deletePending : handler.

Ltac frame :=
  repeat first
    [ apply preserves_bind; [|intros ?]
    | apply preserves_tryCatch; [|intros ?]
    | apply safe_tryCatch; intros ?
    | apply safe_bind; [|intros ?]
    | apply preserves_when
    | apply avoids_bind; [|intros ?]
    | apply avoids_tryCatch; [|intros ?]
    | apply avoids_when
    | apply avoids_emit; reflexivity
    | apply avoids_ret | apply avoids_throw | apply avoids_await
    | solve [auto with handler]
    | match goal with
      | |- preserves (if ?b then _ else _) => destruct b
      | |- preserves (match ?x with _ => _ end) => destruct x
      | |- safe (if ?b then _ else _) => destruct b
      | |- safe (match ?x with _ => _ end) => destruct x
      | |- avoids _ (if ?b then _ else _) => destruct b
      | |- avoids _ (match ?x with _ => _ end) => destruct x
      end ].

Lemma deposit_preserves c a : preserves (Connections.deposit c a).
Proof. unfold Connections.deposit. frame. Qed.

Lemma deposit_safe c a : safe (Connections.deposit c a).
Proof. unfold Connections.deposit. frame. Qed.

Lemma deposit_avoids P c a :
  (forall n, P (EvApprove n) = false) -> (forall n, P (EvDepositTx n) = false) ->
  avoids P (Connections.deposit c a).
Proof.
  intros H1 H2. unfold Connections.deposit.
  repeat first [ apply avoids_emit; auto | progress frame ].
Qed.

(** Break the innermost test the goal is stuck on. *)
Ltac plain x :=
  lazymatch x with
  | context [match _ with _ => _ end] => fail
  | context [if _ then _ else _] => fail
  | _ => idtac
  end.

Ltac crunch :=
  repeat (cbn in *;
          match goal with
          | H : existsb _ _ = true |- _ => discriminate H
          | |- context [match ?x with _ => _ end] => plain x; destruct x eqn:?
          | |- context [if ?b then _ else _] => plain b; destruct b eqn:?
          end).

(** The deposit helper resolves to [undefined] whatever the chain answers;
    it sends nothing. *)
Lemma deposit_undefined c a s :
  exists chainEvents,
    Connections.deposit c a s = (s, chainEvents, Ok None) /\
    Forall (fun e => isSend e = false) chainEvents.
Proof.
  unfold Connections.deposit, tryCatch, bind, await, when, emit, throw, ret.
  crunch; eexists; (split; [reflexivity|]); repeat constructor.
Qed.

Lemma float_differ (a b : float) : PrimFloat.Leibniz.eqb a b = false -> a <> b.
Proof. intros H E. apply FloatAxioms.Leibniz.eqb_spec in E. congruence. Qed.

Section Properties.
Variable parseFloatStr : string -> float.
Variable isConfirmation : string -> result bool.
Variable isCancellation : string -> result bool.
Variable validateAmount : JsVal -> bool.
Variable parseSendParameters : list string -> SendParams.
Variable handleOtherwise : World -> Z -> string -> string -> string -> M unit.

Local Abbreviation parseFloat := (Js.parseFloat parseFloatStr).
Local Abbreviation prepare := (TransactionHandler.handleSendTransaction parseFloatStr).
Local Abbreviation execute := (TransactionHandler.executePendingTransaction parseFloatStr).
Local Abbreviation confirm :=
  (CommandHandler.handleTransactionConfirmation parseFloatStr isConfirmation isCancellation).
Local Abbreviation handleMessage :=
  (CommandHandler.handleMessage parseFloatStr isConfirmation isCancellation handleOtherwise).
Local Abbreviation handleSend :=
  (CommandHandler.handleSendTransaction parseFloatStr validateAmount parseSendParameters).

Lemma executePendingTransaction_preserves w from phone d op :
  preserves (execute w from phone d op).
Proof. unfold TransactionHandler.executePendingTransaction, TransactionHandler.requireWallet,
         TransactionHandler.updateUserBalance. frame. Qed.

Lemma executePendingTransaction_safe w from phone d op :
  safe (execute w from phone d op).
Proof. unfold TransactionHandler.executePendingTransaction. frame. Qed.

Lemma executeUSDCDeposit_preserves w from phone a z :
  preserves (CommandHandler.executeUSDCDeposit w from phone a z).
Proof.
  unfold CommandHandler.executeUSDCDeposit, Connections.getZAPBalance.
  pose proof (deposit_preserves (chain w) a). frame.
Qed.

Lemma executeUSDCDeposit_safe w from phone a z :
  safe (CommandHandler.executeUSDCDeposit w from phone a z).
Proof. unfold CommandHandler.executeUSDCDeposit. frame. Qed.

Lemma executeUSDCSwap_preserves w from phone a z :
  preserves (CommandHandler.executeUSDCSwap w from phone a z).
Proof. unfold CommandHandler.executeUSDCSwap. frame. Qed.

Lemma executeUSDCSwap_safe w from phone a z :
  safe (CommandHandler.executeUSDCSwap w from phone a z).
Proof. unfold CommandHandler.executeUSDCSwap. frame. Qed.

Local Abbreviation dispatch := (CommandHandler.dispatch parseFloatStr).

Lemma dispatch_preserves w from phone tx : preserves (dispatch w from phone tx).
Proof.
  destruct tx; cbn;
    auto using executePendingTransaction_preserves, executeUSDCDeposit_preserves,
      executeUSDCSwap_preserves.
Qed.

Lemma dispatch_safe w from phone tx : safe (dispatch w from phone tx).
Proof.
  destruct tx; cbn;
    auto using executePendingTransaction_safe, executeUSDCDeposit_safe,
      executeUSDCSwap_safe.
Qed.

(** A dispatch returns normally, in the state it started from. *)
Lemma dispatch_run w from phone tx s :
  dispatch w from phone tx s = (s, eventsOf (dispatch w from phone tx s), Ok tt).
Proof.
  pose proof (dispatch_preserves w from phone tx s) as Hs.
  destruct (dispatch_safe w from phone tx s) as [[] Ha].
  destruct (dispatch w from phone tx s) as [[s1 ev] r]; cbn in *. congruence.
Qed.

Lemma confirm_safe w from phone text : safe (confirm w from phone text).
Proof. unfold CommandHandler.handleTransactionConfirmation. frame. Qed.

(** The confirmation handler, case by case. *)
Lemma confirm_none w from phone text s :
  pendingTransactions s !! phone = None ->
  confirm w from phone text s
  = (s, [EvCall HTransactionConfirmation; EvSend from NoPendingFound], Ok tt).
Proof.
  intros H. unfold CommandHandler.handleTransactionConfirmation, tryCatch, bind, getPending.
  cbn. rewrite H. reflexivity.
Qed.

Lemma confirm_yes w from phone text s tx :
  pendingTransactions s !! phone = Some tx ->
  isConfirmation text = Ok true ->
  confirm w from phone text s
  = (forget phone s,
     EvCall HTransactionConfirmation :: eventsOf (dispatch w from phone tx (forget phone s)),
     Ok tt).
Proof.
  intros H Hy. unfold CommandHandler.handleTransactionConfirmation, tryCatch, bind, getPending.
  cbn. rewrite H, Hy. cbn. fold (forget phone s).
  rewrite (dispatch_run w from phone tx (forget phone s)). reflexivity.
Qed.

Lemma confirm_no w from phone text s tx :
  pendingTransactions s !! phone = Some tx ->
  isConfirmation text = Ok false ->
  isCancellation text = Ok true ->
  confirm w from phone text s
  = (forget phone s,
     [EvCall HTransactionConfirmation; EvSend from (CommandHandler.cancelledMessage tx)],
     Ok tt).
Proof.
  intros H Hy Hn. unfold CommandHandler.handleTransactionConfirmation, tryCatch, bind, getPending.
  cbn. rewrite H, Hy. cbn. rewrite Hn. reflexivity.
Qed.

Lemma confirm_other w from phone text s tx :
  pendingTransactions s !! phone = Some tx ->
  isConfirmation text = Ok false ->
  isCancellation text = Ok false ->
  confirm w from phone text s
  = (s, [EvCall HTransactionConfirmation; EvSend from (CommandHandler.repromptMessage tx)],
     Ok tt).
Proof.
  intros H Hy Hn. unfold CommandHandler.handleTransactionConfirmation, tryCatch, bind, getPending.
  cbn. rewrite H, Hy. cbn. rewrite Hn. reflexivity.
Qed.

Lemma confirm_error w from phone text s tx e :
  pendingTransactions s !! phone = Some tx ->
  isConfirmation text = Throw e \/
  (isConfirmation text = Ok false /\ isCancellation text = Throw e) ->
  confirm w from phone text s
  = (forget phone s, [EvCall HTransactionConfirmation; EvSend from (ErrorReply e)], Ok tt).
Proof.
  intros H [Hy | [Hy Hn]];
    unfold CommandHandler.handleTransactionConfirmation, tryCatch, bind, getPending;
    cbn; rewrite H, Hy; cbn; [|rewrite Hn]; reflexivity.
Qed.

(** Each executor is entered once and enters no other. *)
Lemma dispatch_count w from phone tx s :
  dispatchCount (eventsOf (dispatch w from phone tx s)) = 1%nat.
Proof.
  assert (Hd : forall h (m : M unit), isDispatch (EvCall h) = true -> avoids isDispatch m ->
               dispatchCount (eventsOf ((emit (EvCall h);;; m) s)) = 1%nat).
  { intros h m Hh Hm. pose proof (avoids_count m s Hm) as H0.
    unfold bind, emit. destruct (m s) as [[s1 ev] r]. cbn in *.
    unfold dispatchCount in *. cbn. rewrite Hh. cbn. rewrite H0. reflexivity. }
  destruct tx as [d op ts | a z ts | a z ts]; cbn.
  - apply Hd; [reflexivity|].
    unfold TransactionHandler.requireWallet, TransactionHandler.updateUserBalance,
      sendMessage. frame.
  - apply Hd; [reflexivity|]. unfold Connections.getZAPBalance, sendMessage.
    pose proof (deposit_avoids isDispatch (chain w) a
                  (fun _ => eq_refl) (fun _ => eq_refl)). frame.
  - apply Hd; [reflexivity|]. unfold sendMessage. frame.
Qed.

Lemma dispatch_not_otherwise w from phone tx :
  avoids isOtherwise (dispatch w from phone tx).
Proof.
  destruct tx as [d op ts | a z ts | a z ts]; cbn.
  - unfold TransactionHandler.executePendingTransaction, TransactionHandler.requireWallet,
      TransactionHandler.updateUserBalance, sendMessage. frame.
  - unfold CommandHandler.executeUSDCDeposit, Connections.getZAPBalance, sendMessage.
    pose proof (deposit_avoids isOtherwise (chain w) a
                  (fun _ => eq_refl) (fun _ => eq_refl)). frame.
  - unfold CommandHandler.executeUSDCSwap, sendMessage. frame.
Qed.

(** With a pending record the message handler is the confirmation handler,
    whatever the time and whatever the rest of the router would do. *)
Lemma handleMessage_pending w now from text s tx :
  pendingTransactions s !! CommandHandler.extractPhoneNumber from = Some tx ->
  handleMessage w now from text s
  = confirm w from (CommandHandler.extractPhoneNumber from) text s.
Proof.
  intros H. unfold CommandHandler.handleMessage.
  set (phone := CommandHandler.extractPhoneNumber from) in *. clearbody phone.
  unfold tryCatch, bind, getPending.
  cbn -[CommandHandler.handleTransactionConfirmation]. rewrite H.
  destruct (confirm_safe w from phone text s) as [[] Ha].
  destruct (confirm w from phone text s) as [[s1 ev] res]. cbn in Ha. subst res.
  reflexivity.
Qed.

(** Without one it hands the message to the rest of the router. *)
Lemma handleMessage_no_pending w now from text s :
  pendingTransactions s !! CommandHandler.extractPhoneNumber from = None ->
  handleMessage w now from text s
  = tryCatch
      (emit (EvCall HOtherwise);;;
       handleOtherwise w now from (CommandHandler.extractPhoneNumber from) text)
      (fun error => sendMessage from (EnhancedError error)) s.
Proof.
  intros H. unfold CommandHandler.handleMessage, tryCatch, bind, getPending.
  cbn. rewrite H.
  destruct (handleOtherwise w now from (CommandHandler.extractPhoneNumber from) text s)
    as [[s1 ev] [a|e]]; reflexivity.
Qed.

(** The age of the record plays no part: the reply is handled the same at
    any time. *)
Lemma confirmation_ignores_age w now now' from text s tx :
  pendingTransactions s !! CommandHandler.extractPhoneNumber from = Some tx ->
  handleMessage w now from text s = handleMessage w now' from text s.
Proof.
  intros H. rewrite (handleMessage_pending w now from text s tx H).
  rewrite (handleMessage_pending w now' from text s tx H). reflexivity.
Qed.

(** C8: with a pending transaction, a reply that is neither a confirmation
    nor a cancellation changes nothing in the state (the pending record,
    the conversation states and the claim links stay as they were) and
    sends the re-prompt for the record's type, nothing else. *)
Theorem unrecognised_reply_only_reprompts w from phone text s tx :
  pendingTransactions s !! phone = Some tx ->
  isConfirmation text = Ok false ->
  isCancellation text = Ok false ->
  stateOf (confirm w from phone text s) = s /\
  eventsOf (confirm w from phone text s)
  = [EvCall HTransactionConfirmation; EvSend from (CommandHandler.repromptMessage tx)] /\
  dispatchCount (eventsOf (confirm w from phone text s)) = 0%nat.
Proof.
  intros H Hy Hn. rewrite (confirm_other w from phone text s tx H Hy Hn).
  repeat split.
Qed.

(** *** Two confirmations that overlap *)

Lemma oblivious_ret {A} (a : A) : oblivious (ret a).
Proof. intros s s1. reflexivity. Qed.

Lemma oblivious_throw {A} (e : Error) : oblivious (@throw A e).
Proof. intros s s1. reflexivity. Qed.

Lemma oblivious_await {A} (r : result A) : oblivious (await r).
Proof. intros s s1. reflexivity. Qed.

Lemma oblivious_emit (e : Event) : oblivious (emit e).
Proof. intros s s1. reflexivity. Qed.

Lemma oblivious_sendMessage to m : oblivious (sendMessage to m).
Proof. intros s s1. reflexivity. Qed.

Lemma oblivious_bind {A B} (m : M A) (k : A -> M B) :
  oblivious m -> (forall a, oblivious (k a)) -> oblivious (bind m k).
Proof.
  intros Hm Hk s s1. unfold bind.
  pose proof (Hm s s) as H0. pose proof (Hm s s1) as H1.
  destruct (m s) as [[s' ev] r]. cbn in H0, H1. rewrite H1. injection H0 as ->.
  destruct r as [a|e]; [|reflexivity].
  pose proof (Hk a s s) as K0. pose proof (Hk a s s1) as K1.
  destruct (k a s) as [[s2 ev2] r2]. cbn in K0, K1. rewrite K1. reflexivity.
Qed.

Lemma oblivious_tryCatch {A} (m : M A) (h : Error -> M A) :
  oblivious m -> (forall e, oblivious (h e)) -> oblivious (tryCatch m h).
Proof.
  intros Hm Hh s s1. unfold tryCatch.
  pose proof (Hm s s) as H0. pose proof (Hm s s1) as H1.
  destruct (m s) as [[s' ev] r]. cbn in H0, H1. rewrite H1. injection H0 as ->.
  destruct r as [a|e]; [reflexivity|].
  pose proof (Hh e s s) as K0. pose proof (Hh e s s1) as K1.
  destruct (h e s) as [[s2 ev2] r2]. cbn in K0, K1. rewrite K1. reflexivity.
Qed.

Lemma oblivious_when (b : bool) (m : M unit) : oblivious m -> oblivious (when b m).
Proof. destruct b; [trivial | intros _; apply oblivious_ret]. Qed.

Ltac blind :=
  repeat first
    [ apply oblivious_bind; [|intros ?]
    | apply oblivious_tryCatch; [|intros ?]
    | apply oblivious_when
    | apply oblivious_ret | apply oblivious_throw | apply oblivious_await
    | apply oblivious_emit | apply oblivious_sendMessage
    | assumption
    | match goal with
      | |- oblivious (if ?b then _ else _) => destruct b
      | |- oblivious (match ?x with _ => _ end) => destruct x
      end ].

(** No executor reads or writes the store. *)
Lemma dispatch_oblivious w from phone tx : oblivious (dispatch w from phone tx).
Proof.
  destruct tx as [d op ts | a z ts | a z ts]; cbn.
  - unfold TransactionHandler.executePendingTransaction, TransactionHandler.requireWallet,
      TransactionHandler.updateUserBalance. blind.
  - unfold CommandHandler.executeUSDCDeposit, Connections.getZAPBalance.
    assert (oblivious (Connections.deposit (chain w) a))
      by (unfold Connections.deposit; blind).
    blind.
  - unfold CommandHandler.executeUSDCSwap. blind.
Qed.

(** So the awaited executor is the trace of [dispatch], handed out, and its
    [catch] is never entered. *)
Lemma awaitDispatch_run w from phone tx s :
  Overlap.awaitDispatch parseFloatStr w from phone tx s
  = Overlap.handOut (eventsOf (dispatch w from phone tx s)) Overlap.Finished.
Proof.
  unfold Overlap.awaitDispatch. rewrite (dispatch_run w from phone tx s). reflexivity.
Qed.

Lemma handOut_alone events : forall s,
  Overlap.alone (Overlap.handOut events Overlap.Finished) s = (s, events).
Proof.
  induction events as [|e events IH]; intros s; cbn; [reflexivity|].
  rewrite IH. reflexivity.
Qed.

(** Run with nothing in between, the task is the handler. *)
Lemma confirmation_alone w from phone text s :
  Overlap.alone
    (Overlap.handleTransactionConfirmation parseFloatStr isConfirmation isCancellation
       w from phone text) s
  = (stateOf (confirm w from phone text s), eventsOf (confirm w from phone text s)).
Proof.
  cbn [Overlap.alone Overlap.handleTransactionConfirmation].
  destruct (pendingTransactions s !! phone) as [tx|] eqn:H.
  - destruct (isConfirmation text) as [[|]|e] eqn:Hy.
    + rewrite (confirm_yes w from phone text s tx H Hy), awaitDispatch_run, handOut_alone.
      reflexivity.
    + destruct (isCancellation text) as [[|]|e] eqn:Hn.
      * rewrite (confirm_no w from phone text s tx H Hy Hn). reflexivity.
      * rewrite (confirm_other w from phone text s tx H Hy Hn). reflexivity.
      * rewrite (confirm_error w from phone text s tx e H (or_intror (conj Hy Hn))).
        reflexivity.
    + rewrite (confirm_error w from phone text s tx e H (or_introl Hy)). reflexivity.
  - rewrite (confirm_none w from phone text s H). reflexivity.
Qed.

Lemma handOut_says s0 events : Overlap.keepsSaying s0 (Overlap.handOut events Overlap.Finished) events.
Proof.
  induction events as [|e events IH]; cbn; [constructor|].
  apply (Overlap.says_more s0 _ [e] _ events eq_refl IH).
Qed.

Lemma reply_says s0 to m : Overlap.keepsSaying s0 (Overlap.reply to m) [EvSend to m].
Proof. apply (Overlap.says_more s0 _ [EvSend to m] _ [] eq_refl). constructor. Qed.

(** Without a record the handler changes nothing and answers that nothing
    is pending, whenever it is resumed. *)
Lemma no_record_says w from phone text s0 :
  pendingTransactions s0 !! phone = None ->
  Overlap.keepsSaying s0
    (Overlap.handleTransactionConfirmation parseFloatStr isConfirmation isCancellation
       w from phone text)
    [EvCall HTransactionConfirmation; EvSend from NoPendingFound].
Proof.
  intros H.
  apply (Overlap.says_more s0 _ [EvCall HTransactionConfirmation] (Overlap.reply from NoPendingFound)
           [EvSend from NoPendingFound]); [|apply reply_says].
  cbn. rewrite H. reflexivity.
Qed.

Lemma saidBy_hear who who' ev r :
  Overlap.saidBy who (Overlap.hear who' ev r)
  = (if Overlap.isWho who (who', EvCall HOtherwise) then ev else []) ++ Overlap.saidBy who r.
Proof.
  unfold Overlap.saidBy, Overlap.hear. cbn [Overlap.heard].
  rewrite List.filter_app, List.map_app. f_equal.
  induction ev as [|e ev IH]; [destruct who, who'; reflexivity|].
  destruct who, who'; cbn in *; congruence.
Qed.

Lemma said_hear who ev r : Overlap.said (Overlap.hear who ev r) = ev ++ Overlap.said r.
Proof.
  unfold Overlap.said, Overlap.hear. cbn [Overlap.heard].
  rewrite List.map_app, List.map_map. cbn. rewrite List.map_id. reflexivity.
Qed.

Lemma dispatchCount_app l1 l2 :
  dispatchCount (l1 ++ l2) = (dispatchCount l1 + dispatchCount l2)%nat.
Proof. unfold dispatchCount. rewrite List.filter_app, List.length_app. reflexivity. Qed.

(** Two tasks that leave the store alone, under any schedule: the store
    stays, each has said a first part of what it has to say and keeps the
    rest for later, and nothing else was said. *)
Lemma interleave_says s0 schedule : forall a b evA evB,
  Overlap.keepsSaying s0 a evA ->
  Overlap.keepsSaying s0 b evB ->
  let r := Overlap.interleave schedule a b s0 in
  Overlap.store r = s0 /\
  dispatchCount (Overlap.said r)
  = (dispatchCount (Overlap.saidBy Overlap.First r)
     + dispatchCount (Overlap.saidBy Overlap.Second r))%nat /\
  exists restA restB,
    Overlap.saidBy Overlap.First r ++ restA = evA /\
    Overlap.saidBy Overlap.Second r ++ restB = evB /\
    Overlap.keepsSaying s0 (Overlap.first r) restA /\
    Overlap.keepsSaying s0 (Overlap.second r) restB.
Proof.
  induction schedule as [|who schedule IH]; intros a b evA evB Ha Hb; cbn zeta.
  - cbn. split; [reflexivity|]. split; [reflexivity|]. exists evA, evB. auto.
  - destruct who.
    + cbn [Overlap.interleave].
      destruct Ha as [|body ev t events Hbody Ht];
        [destruct b; apply IH; assumption || constructor|].
      rewrite Hbody.
      destruct (IH t b events evB Ht Hb) as (Hs & Hc & restA & restB & HA & HB & HrA & HrB).
      cbn zeta in *. rewrite saidBy_hear, saidBy_hear, said_hear. cbn [Overlap.isWho fst].
      cbn [Overlap.hear Overlap.store Overlap.first Overlap.second app].
      split; [exact Hs|]. split.
      * rewrite !dispatchCount_app, Hc. lia.
      * exists restA, restB. rewrite <- List.app_assoc, HA. auto.
    + destruct Hb as [|body ev t events Hbody Ht].
      { cbn [Overlap.interleave]. destruct a; apply IH; assumption || constructor. }
      assert (Hstep : Overlap.interleave (Overlap.Second :: schedule) a (Overlap.Segment body) s0
                      = Overlap.hear Overlap.Second ev (Overlap.interleave schedule a t s0)).
      { cbn. destruct a; rewrite Hbody; reflexivity. }
      rewrite Hstep.
      destruct (IH a t evA events Ha Ht) as (Hs & Hc & restA & restB & HA & HB & HrA & HrB).
      cbn zeta in *. rewrite saidBy_hear, saidBy_hear, said_hear. cbn [Overlap.isWho fst].
      cbn [Overlap.hear Overlap.store Overlap.first Overlap.second app].
      split; [exact Hs|]. split.
      * rewrite !dispatchCount_app, Hc. lia.
      * exists restA, restB. rewrite <- List.app_assoc, HB. auto.
Qed.

Lemma says_finished s0 events : Overlap.keepsSaying s0 Overlap.Finished events -> events = [].
Proof. inversion 1. reflexivity. Qed.

(** C2: two confirmation replies of a user whose handlers overlap.  The
    handler of the first reply starts first; from there the two are resumed
    in any order, one segment at a time, for as long as the schedule goes.
    The first segment of the first handler has deleted the record before it
    awaits anything, so whenever the second handler starts it finds no
    record: it enters no executor and has nothing to say but that nothing
    is pending.  An executor is entered at most once in all, and exactly
    once when both handlers have finished. *)
Theorem second_confirmation_not_dispatched w1 w2 from phone text1 text2 s tx schedule :
  pendingTransactions s !! phone = Some tx ->
  isConfirmation text1 = Ok true ->
  let r :=
    Overlap.interleave (Overlap.First :: schedule)
      (Overlap.handleTransactionConfirmation parseFloatStr isConfirmation isCancellation
         w1 from phone text1)
      (Overlap.handleTransactionConfirmation parseFloatStr isConfirmation isCancellation
         w2 from phone text2) s in
  Overlap.store r = forget phone s /\
  (dispatchCount (Overlap.said r) <= 1)%nat /\
  dispatchCount (Overlap.saidBy Overlap.Second r) = 0%nat /\
  (exists rest,
     Overlap.saidBy Overlap.Second r ++ rest
     = [EvCall HTransactionConfirmation; EvSend from NoPendingFound]) /\
  (Overlap.bothFinished r ->
     dispatchCount (Overlap.said r) = 1%nat /\
     Overlap.saidBy Overlap.Second r
     = [EvCall HTransactionConfirmation; EvSend from NoPendingFound]).
Proof.
  intros H Hy r. subst r.
  cbn [Overlap.interleave Overlap.handleTransactionConfirmation].
  rewrite H, Hy.
  fold (Overlap.handleTransactionConfirmation parseFloatStr isConfirmation isCancellation
          w2 from phone text2).
  rewrite awaitDispatch_run.
  set (s0 := forget phone s).
  set (events := eventsOf (dispatch w1 from phone tx s0)).
  assert (Hgone : pendingTransactions s0 !! phone = None) by apply lookup_delete_eq.
  destruct (interleave_says s0 schedule _ _ _ _ (handOut_says s0 events)
              (no_record_says w2 from phone text2 s0 Hgone))
    as (Hs & Hc & restA & restB & HA & HB & HrA & HrB).
  cbn zeta in *.
  set (r := Overlap.interleave schedule _ _ s0) in *.
  rewrite said_hear, saidBy_hear. cbn [Overlap.isWho fst Overlap.hear Overlap.store].
  change ([] ++ Overlap.saidBy Overlap.Second r) with (Overlap.saidBy Overlap.Second r).
  rewrite dispatchCount_app.
  change (dispatchCount [EvCall HTransactionConfirmation]) with 0%nat.
  pose proof (dispatch_count w1 from phone tx s0) as Hone. fold events in Hone.
  assert (H2 : dispatchCount (Overlap.saidBy Overlap.Second r) = 0%nat).
  { apply (f_equal dispatchCount) in HB. rewrite dispatchCount_app in HB.
    change (dispatchCount [EvCall HTransactionConfirmation; EvSend from NoPendingFound])
      with 0%nat in HB. lia. }
  assert (H1 : (dispatchCount (Overlap.saidBy Overlap.First r) + dispatchCount restA = 1)%nat).
  { rewrite <- dispatchCount_app, HA. exact Hone. }
  split; [exact Hs|]. split; [lia|].
  split; [exact H2|]. split; [exists restB; exact HB|].
  intros [Hf1 Hf2]. cbn [Overlap.hear Overlap.first Overlap.second] in Hf1, Hf2.
  rewrite Hf1 in HrA. rewrite Hf2 in HrB.
  apply says_finished in HrA, HrB. subst restA restB.
  rewrite List.app_nil_r in HB. split; [|exact HB].
  change (dispatchCount []) with 0%nat in H1. lia.
Qed.

(** C9: while a pending transaction exists for the sender, a text message
    is handled by the confirmation handler and by nothing else: neither the
    stateful flows nor the command parser run, no conversation state and no
    claim link changes, nobody else's pending record changes, and the
    sender's record either stays as it is (the reply was not recognised) or
    is deleted (confirmation, cancellation or an error). *)
Theorem pending_reply_routed_to_confirmation w now from text s tx :
  pendingTransactions s !! CommandHandler.extractPhoneNumber from = Some tx ->
  let phone := CommandHandler.extractPhoneNumber from in
  let r := handleMessage w now from text s in
  r = confirm w from phone text s /\
  Forall (fun e => isOtherwise e = false) (eventsOf r) /\
  userStates (stateOf r) = userStates s /\
  claimLinks (stateOf r) = claimLinks s /\
  (forall other, other <> phone ->
     pendingTransactions (stateOf r) !! other = pendingTransactions s !! other) /\
  (stateOf r = s \/ stateOf r = forget phone s) /\
  (stateOf r = s <->
     isConfirmation text = Ok false /\ isCancellation text = Ok false).
Proof.
  intros H phone r.
  assert (Hr : r = confirm w from phone text s)
    by exact (handleMessage_pending w now from text s tx H).
  change (CommandHandler.extractPhoneNumber from) with phone in H. clearbody phone.
  split; [exact Hr|]. rewrite Hr. clear Hr r.
  assert (Hne : forget phone s <> s).
  { intros E. apply (f_equal (fun x => pendingTransactions x !! phone)) in E.
    cbn in E. rewrite lookup_delete_eq, H in E. discriminate. }
  assert (Hother : forall other, other <> phone ->
            pendingTransactions (forget phone s) !! other = pendingTransactions s !! other).
  { intros other Ho. cbn. apply lookup_delete_ne. congruence. }
  assert (Hgone : forall ev,
            isConfirmation text <> Ok false \/ isCancellation text <> Ok false ->
            Forall (fun e => isOtherwise e = false) ev ->
            confirm w from phone text s = (forget phone s, ev, Ok tt) ->
            Forall (fun e => isOtherwise e = false) (eventsOf (confirm w from phone text s)) /\
            userStates (stateOf (confirm w from phone text s)) = userStates s /\
            claimLinks (stateOf (confirm w from phone text s)) = claimLinks s /\
            (forall other, other <> phone ->
               pendingTransactions (stateOf (confirm w from phone text s)) !! other
               = pendingTransactions s !! other) /\
            (stateOf (confirm w from phone text s) = s \/
             stateOf (confirm w from phone text s) = forget phone s) /\
            (stateOf (confirm w from phone text s) = s <->
               isConfirmation text = Ok false /\ isCancellation text = Ok false)).
  { intros ev Hno Hev E. rewrite E. cbn [stateOf eventsOf fst snd].
    repeat split; auto; try contradiction.
    intros [F1 F2]; destruct Hno; contradiction. }
  destruct (isConfirmation text) as [[|]|e] eqn:Hy.
  - eapply Hgone; [left; discriminate| |exact (confirm_yes w from phone text s tx H Hy)].
    constructor; [reflexivity|]. apply dispatch_not_otherwise.
  - destruct (isCancellation text) as [[|]|e] eqn:Hn.
    + eapply Hgone; [right; discriminate| |exact (confirm_no w from phone text s tx H Hy Hn)].
      repeat constructor.
    + rewrite (confirm_other w from phone text s tx H Hy Hn). cbn [stateOf eventsOf fst snd].
      repeat split; auto; repeat constructor.
    + eapply Hgone; [right; discriminate|
        |exact (confirm_error w from phone text s tx e H (or_intror (conj Hy Hn)))].
      repeat constructor.
  - eapply Hgone; [left; discriminate|
      |exact (confirm_error w from phone text s tx e H (or_introl Hy))].
    repeat constructor.
Qed.

(** The executor of a confirmed deposit: progress message, the chain calls
    of the helper, then the failure message for the type error. *)
Lemma executeUSDCDeposit_trace w from phone amount zapTokens s chainEvents :
  Connections.deposit (chain w) amount s = (s, chainEvents, Ok None) ->
  CommandHandler.executeUSDCDeposit w from phone amount zapTokens s
  = (s,
     [EvCall HExecuteUSDCDeposit; EvSend from ProcessingDeposit] ++ chainEvents
     ++ [EvSend from (DepositFailed (TypeError "success"))],
     Ok tt).
Proof.
  intros Hd.
  unfold CommandHandler.executeUSDCDeposit, tryCatch, bind, sendMessage, emit.
  cbn. rewrite Hd. cbn. rewrite <- app_assoc. reflexivity.
Qed.

(** The same through the confirmation handler: every confirmed deposit. *)
Lemma confirmed_deposit_through_registry w from phone text s amount zapTokens ts :
  pendingTransactions s !! phone = Some (UsdcDeposit amount zapTokens ts) ->
  isConfirmation text = Ok true ->
  exists chainEvents,
    Forall (fun e => isSend e = false) chainEvents /\
    eventsOf (confirm w from phone text s)
    = [EvCall HTransactionConfirmation; EvCall HExecuteUSDCDeposit;
       EvSend from ProcessingDeposit] ++ chainEvents
      ++ [EvSend from (DepositFailed (TypeError "success"))].
Proof.
  intros H Hy. rewrite (confirm_yes w from phone text s _ H Hy).
  destruct (deposit_undefined (chain w) amount (forget phone s)) as (ev & Hd & Hev).
  exists ev. split; [exact Hev|]. cbn [eventsOf fst snd CommandHandler.dispatch].
  rewrite (executeUSDCDeposit_trace w from phone amount zapTokens _ ev Hd). reflexivity.
Qed.

(** C10: the deposit helper resolves to [undefined] on success and on
    failure alike, and the executor of a confirmed USDC deposit, which reads
    [success] off that value, ends by telling the user that the deposit
    failed, whatever happened on chain: the trace is the progress message,
    the chain calls of the helper (none of them a message), and the failure
    message carrying the type error; no success message is sent. *)
Theorem confirmed_deposit_reports_failure w from phone amount zapTokens s :
  exists chainEvents,
    Connections.deposit (chain w) amount s = (s, chainEvents, Ok None) /\
    Forall (fun e => isSend e = false) chainEvents /\
    CommandHandler.executeUSDCDeposit w from phone amount zapTokens s
    = (s,
       [EvCall HExecuteUSDCDeposit; EvSend from ProcessingDeposit] ++ chainEvents
       ++ [EvSend from (DepositFailed (TypeError "success"))],
       Ok tt).
Proof.
  destruct (deposit_undefined (chain w) amount s) as (ev & Hd & Hev).
  exists ev. repeat split; auto using executeUSDCDeposit_trace.
Qed.

(** What the executor of a send does once the wallet read at execution
    time cannot afford the total. *)
Lemma execute_aborts w from phone d op s wallet :
  getUserWallet w phone = Ok (Some wallet) ->
  truthy (balance wallet) = true ->
  gt (td_totalCost d) (parseFloat (balance wallet)) = true ->
  execute w from phone d op s
  = (s, [EvCall HExecutePendingTransaction; EvSend from (ExecutionFailed BalanceChanged)],
     Ok tt).
Proof.
  intros Hw Ht Hgt.
  unfold TransactionHandler.executePendingTransaction, TransactionHandler.requireWallet,
    tryCatch, bind, await.
  cbn. rewrite Hw. cbn. rewrite Ht. cbn. rewrite Hgt. reflexivity.
Qed.

(** Funds move in an execution only past the affordability test. *)
Lemma execute_moves_funds w from phone d op s :
  existsb movesFunds (eventsOf (execute w from phone d op s)) = true ->
  exists wallet,
    getUserWallet w phone = Ok (Some wallet) /\
    truthy (balance wallet) = true /\
    gt (td_totalCost d) (parseFloat (balance wallet)) = false.
Proof.
  unfold TransactionHandler.executePendingTransaction, TransactionHandler.requireWallet,
    tryCatch, bind, await.
  cbn. destruct (getUserWallet w phone) as [[wallet|]|e]; cbn; try discriminate.
  destruct (truthy (balance wallet)) eqn:Ht; cbn; try discriminate.
  destruct (gt (td_totalCost d) (parseFloat (balance wallet))) eqn:Hgt; cbn;
    try discriminate.
  intros _. exists wallet. auto.
Qed.

Local Abbreviation requestOf := (CommandHandler.requestOf parseSendParameters).

(** The preparer refuses an amount that is missing, not a number or not
    positive before it asks anything of the outside. *)
Lemma prepare_rejects_bad_amount w now from phone sp s :
  isNaN (parseFloat (amount sp)) || le (parseFloat (amount sp)) 0 = true ->
  exists e,
    prepare w now from phone sp s = (s, [EvSend from (PreparationFailed e)], Ok tt) /\
    (e = MissingParameters \/ e = InvalidAmount).
Proof.
  intros Hbad. unfold TransactionHandler.handleSendTransaction, tryCatch, bind.
  cbn. destruct (truthy (amount sp)); cbn.
  - rewrite Hbad. cbn. eauto.
  - eauto.
Qed.

(** The command handler turns a request away when its validator refuses
    the amount, before the preparer is called. *)
Lemma refused_amount_not_prepared w now from phone parameters sp s :
  requestOf parameters = CommandHandler.Prepare sp ->
  validateAmount (amount sp) = false ->
  exists m,
    handleSend w now from phone parameters s = (s, [EvSend from m], Ok tt) /\
    (findUserByPhone w phone = Ok true -> isValidationError m = true).
Proof.
  intros Hreq Hv.
  unfold CommandHandler.handleSendTransaction, tryCatch, bind, await.
  cbn -[TransactionHandler.handleSendTransaction].
  destruct (findUserByPhone w phone) as [[|]|e]; cbn -[TransactionHandler.handleSendTransaction].
  - rewrite Hreq. destruct (valid sp); cbn -[TransactionHandler.handleSendTransaction].
    + rewrite Hv. cbn. eexists. split; reflexivity.
    + eexists. split; reflexivity.
  - eexists. split; [reflexivity|]. discriminate.
  - eexists. split; [reflexivity|]. discriminate.
Qed.

(** And what its validator lets through, the preparer tests again. *)
Lemma bad_amount_not_prepared w now from phone parameters sp s :
  requestOf parameters = CommandHandler.Prepare sp ->
  isNaN (parseFloat (amount sp)) || le (parseFloat (amount sp)) 0 = true ->
  exists m,
    handleSend w now from phone parameters s = (s, [EvSend from m], Ok tt) /\
    (findUserByPhone w phone = Ok true -> isValidationError m = true).
Proof.
  intros Hreq Hbad.
  destruct (validateAmount (amount sp)) eqn:Hv;
    [|exact (refused_amount_not_prepared w now from phone parameters sp s Hreq Hv)].
  unfold CommandHandler.handleSendTransaction, tryCatch, bind, await.
  cbn -[TransactionHandler.handleSendTransaction].
  destruct (findUserByPhone w phone) as [[|]|e]; cbn -[TransactionHandler.handleSendTransaction].
  - rewrite Hreq. destruct (valid sp); cbn -[TransactionHandler.handleSendTransaction].
    + rewrite Hv. cbn -[TransactionHandler.handleSendTransaction].
      destruct (prepare_rejects_bad_amount w now from phone sp s Hbad) as (e & He & Hk).
      rewrite He. exists (PreparationFailed e). split; [reflexivity|].
      intros _. destruct Hk; subst e; reflexivity.
    + eexists. split; reflexivity.
  - eexists. split; [reflexivity|]. discriminate.
  - eexists. split; [reflexivity|]. discriminate.
Qed.

(** C5 as the code has it: a request whose amount plus estimated cost
    exceeds the cached balance (the amount being valid, the wallet found
    and the oracle answering) is refused with an insufficient-balance
    error, and nothing is stored.  The message shows the cached balance
    and, next to it, the amount asked for (when the amount alone exceeds
    the balance) or the total needed (amount plus estimated cost). *)
Theorem unaffordable_request_rejected w now from phone sp s wallet g :
  let sendAmount := parseFloat (amount sp) in
  let currentBalance := parseFloat (balance wallet) in
  let totalCost := (sendAmount + parseFloat (estimatedCost g))%float in
  truthy (amount sp) = true ->
  isNaN sendAmount = false ->
  le sendAmount 0 = false ->
  getUserWallet w phone = Ok (Some wallet) ->
  truthy (balance wallet) = true ->
  (forall rp, exists found, getUserWallet w rp = Ok found) ->
  (forall target, estimateGas w (address wallet) target sendAmount = Ok g) ->
  gt totalCost currentBalance = true ->
  exists e,
    prepare w now from phone sp s = (s, [EvSend from (PreparationFailed e)], Ok tt) /\
    isInsufficientBalance e = true /\
    In currentBalance (shownNumbers e) /\
    (e = InsufficientBalance currentBalance sendAmount /\
     gt sendAmount currentBalance = true \/
     e = InsufficientForGas totalCost currentBalance /\
     gt sendAmount currentBalance = false).
Proof.
  intros sendAmount currentBalance totalCost Ht Hnan Hpos Hw Hbal Hres Hgas Hgt.
  subst sendAmount currentBalance totalCost.
  unfold TransactionHandler.handleSendTransaction, TransactionHandler.requireWallet,
    tryCatch, bind, await.
  cbn. rewrite Ht. cbn. rewrite Hnan, Hpos. cbn. rewrite Hw. cbn. rewrite Hbal. cbn.
  destruct (recipientPhone sp) as [rp|]; cbn;
    [ destruct (nonEmpty rp && negb (truthyS (recipientAddress sp))); cbn;
      [ destruct (Hres rp) as [found Hf]; rewrite Hf; cbn; destruct found; cbn | ] | ];
    (destruct (gt (parseFloat (amount sp)) (parseFloat (balance wallet))) eqn:Hg; cbn;
     [ | rewrite Hgas; cbn; rewrite Hgt; cbn ]);
    eexists; (split; [reflexivity|]); cbn; auto 6.
Qed.

(** C7: a request to a phone number that resolves to no wallet (and gives
    no address), once it passes the checks, is stored as a pending record
    of kind EscrowCreate that keeps the unresolved number and the validated
    amount; when the user confirms and the balance read then covers the
    total, the executor calls the claim-link creation for the sender with
    that number, that amount and the display name, and makes no direct
    transfer. *)
Theorem unresolved_recipient_becomes_escrow w now from phone sp s wallet g rp :
  let sendAmount := parseFloat (amount sp) in
  let totalCost := (sendAmount + parseFloat (estimatedCost g))%float in
  truthy (amount sp) = true ->
  isNaN sendAmount = false ->
  le sendAmount 0 = false ->
  getUserWallet w phone = Ok (Some wallet) ->
  truthy (balance wallet) = true ->
  recipientPhone sp = Some rp ->
  nonEmpty rp = true ->
  truthyS (recipientAddress sp) = false ->
  getUserWallet w rp = Ok None ->
  gt sendAmount (parseFloat (balance wallet)) = false ->
  estimateGas w (address wallet) (Some TransactionHandler.claimEscrowAddress) sendAmount
  = Ok g ->
  gt totalCost (parseFloat (balance wallet)) = false ->
  let s1 := stateOf (prepare w now from phone sp s) in
  exists data,
    pendingTransactions s1 !! phone = Some (SendTransaction data sp now) /\
    kindOf (SendTransaction data sp now) = EscrowCreate /\
    td_recipientPhone data = Some rp /\
    td_amount data = sendAmount /\
    td_totalCost data = totalCost /\
    forall w' from' text wallet',
      isConfirmation text = Ok true ->
      getUserWallet w' phone = Ok (Some wallet') ->
      truthy (balance wallet') = true ->
      gt totalCost (parseFloat (balance wallet')) = false ->
      exists rest,
        eventsOf (confirm w' from' phone text s1)
        = EvCall HTransactionConfirmation :: EvCall HExecutePendingTransaction
          :: EvCreateClaimLink phone (Some rp) sendAmount
               (TransactionHandler.displayName sp)
          :: rest /\
        Forall (fun e => isDirectTransfer e = false) rest.
Proof.
  intros sendAmount totalCost Ht Hnan Hpos Hw Hbal Hrp Hne Hra Hnone Hg Hgas Hgt s1.
  subst sendAmount totalCost.
  assert (Hs1 : exists data,
            s1 = {| userStates := userStates s;
                    pendingTransactions :=
                      <[phone := SendTransaction data sp now]> (pendingTransactions s);
                    claimLinks := claimLinks s |} /\
            td_shouldCreateClaimLink data = true /\
            td_recipientPhone data = Some rp /\
            td_amount data = parseFloat (amount sp) /\
            td_totalCost data
            = (parseFloat (amount sp) + parseFloat (estimatedCost g))%float).
  { subst s1.
    unfold TransactionHandler.handleSendTransaction, TransactionHandler.requireWallet,
      tryCatch, bind, await.
    cbn. rewrite Ht. cbn. rewrite Hnan, Hpos. cbn. rewrite Hw. cbn. rewrite Hbal. cbn.
    rewrite Hrp. cbn. rewrite Hne, Hra. cbn. rewrite Hnone. cbn. rewrite Hg. cbn.
    rewrite Hgas. cbn. rewrite Hgt. cbn.
    eexists. split; [reflexivity|]. cbn. auto. }
  destruct Hs1 as (data & Es1 & Hclaim & Hdrp & Hamt & Htot).
  exists data. clearbody s1. subst s1. cbn [pendingTransactions].
  split; [apply lookup_insert_eq|].
  split; [cbn; rewrite Hclaim; reflexivity|].
  repeat (split; [assumption|]).
  intros w' from' text wallet' Hy Hw' Hbal' Hgt'.
  erewrite confirm_yes; [|apply lookup_insert_eq|exact Hy].
  cbn [eventsOf fst snd CommandHandler.dispatch].
  unfold TransactionHandler.executePendingTransaction, TransactionHandler.requireWallet,
    TransactionHandler.updateUserBalance, tryCatch, bind, await.
  cbn. rewrite Hw'. cbn. rewrite Hbal'. cbn. rewrite Htot, Hgt'. cbn.
  rewrite Hclaim, Hdrp, Hamt. cbn.
  destruct (createClaimLink w' phone (Some rp) (parseFloat (amount sp))
              (TransactionHandler.displayName sp)) as [tx|e]; cbn.
  - destruct (tx_success tx); cbn; eexists; (split; [reflexivity|]); repeat constructor.
  - eexists; (split; [reflexivity|]); repeat constructor.
Qed.

End Properties.

(** C6: a request whose amount is not a number, not strictly positive or
    outside the range from 0.000001 to 1,000,000 is turned away with one
    message, a validation error for a registered user, and leaves the store
    as it was: no pending transaction, no conversation state, no claim link
    is written.  The preparer itself refuses an amount that is missing, not
    a number or not above zero, whoever calls it; the command handler turns
    such a request away whatever its validator answers; and with the
    validator of the command parser as the spec has it (a positive number
    inside the range) it turns an amount outside the range away as well,
    before the preparer is called. *)
Theorem invalid_amount_writes_nothing parseFloatStr validateAmount parseSendParameters
    w now from phone parameters sp s :
  let n := Js.parseFloat parseFloatStr (amount sp) in
  let handleSend validator :=
    CommandHandler.handleSendTransaction parseFloatStr validator parseSendParameters in
  (isNaN n || le n 0 = true ->
   exists e,
     TransactionHandler.handleSendTransaction parseFloatStr w now from phone sp s
     = (s, [EvSend from (PreparationFailed e)], Ok tt) /\
     isValidationError (PreparationFailed e) = true) /\
  (CommandHandler.requestOf parseSendParameters parameters = CommandHandler.Prepare sp ->
   isNaN n || le n 0 = true ->
   exists m,
     handleSend validateAmount w now from phone parameters s = (s, [EvSend from m], Ok tt) /\
     (findUserByPhone w phone = Ok true -> isValidationError m = true)) /\
  (CommandHandler.requestOf parseSendParameters parameters = CommandHandler.Prepare sp ->
   amountRejected n = true ->
   exists m,
     handleSend (CommandParser.validateAmount parseFloatStr) w now from phone parameters s
     = (s, [EvSend from m], Ok tt) /\
     (findUserByPhone w phone = Ok true -> isValidationError m = true)).
Proof.
  intros n handleSend. split; [|split].
  - intros Hbad.
    destruct (prepare_rejects_bad_amount parseFloatStr w now from phone sp s Hbad)
      as (e & He & Hk).
    exists e. split; [exact He|]. destruct Hk; subst e; reflexivity.
  - intros Hreq Hbad. exact (bad_amount_not_prepared _ _ _ w now from phone _ sp s Hreq Hbad).
  - intros Hreq Hbad.
    destruct (isNaN n || le n 0) eqn:Hlow.
    + exact (bad_amount_not_prepared _ _ _ w now from phone _ sp s Hreq Hlow).
    + apply (refused_amount_not_prepared _ _ _ w now from phone _ sp s Hreq).
      unfold amountRejected in Hbad. fold n in Hbad. rewrite Hlow in Hbad. cbn in Hbad.
      unfold CommandParser.validateAmount. fold n.
      destruct (inRange n); [discriminate|]. apply andb_false_r.
Qed.

(** *** The claim escrow *)

(** A redemption that succeeds pays once and leaves the link Claimed. *)
Lemma successful_claim_settles w now token addr s s1 ev receipt :
  Claims.validateAndClaim w now token addr s = (s1, ev, Ok receipt) ->
  exists link,
    claimLinks s !! token = Some link /\
    cl_status link = Pending /\
    claimLinks s1 !! token = Some (Claims.withStatus Claimed link) /\
    ev = [EvTransfer addr (Claims.netAmount (cl_amount link) (payoutGasCost w))].
Proof.
  unfold Claims.validateAndClaim.
  destruct (claimLinks s !! token) as [link|] eqn:Hl; [|discriminate].
  destruct (cl_status link) eqn:Hs; destruct (cl_expiresAt link <? now); try discriminate.
  cbn. intros [= <- <- <-]. exists link. cbn. rewrite lookup_insert_eq. auto.
Qed.

(** A settled link answers by its status, and nothing else happens. *)
Lemma settled_claim_fails s token link w now addr :
  claimLinks s !! token = Some link ->
  cl_status link <> Pending ->
  Claims.validateAndClaim w now token addr s
  = (s, [], Throw (ClaimError (settledAnswer now link))).
Proof.
  intros Hl Hs. unfold Claims.validateAndClaim, settledAnswer. rewrite Hl.
  destruct (cl_status link); [contradiction| |]; [reflexivity|].
  destruct (cl_expiresAt link <? now); reflexivity.
Qed.

(** After a successful redemption no second one succeeds. *)
Lemma claim_at_most_once w now token addr s s1 ev receipt :
  Claims.validateAndClaim w now token addr s = (s1, ev, Ok receipt) ->
  forall w' now' addr',
    Claims.validateAndClaim w' now' token addr' s1
    = (s1, [], Throw (ClaimError AlreadyClaimed)).
Proof.
  intros H w' now' addr'.
  destruct (successful_claim_settles _ _ _ _ _ _ _ _ H) as (link & _ & _ & Hl & _).
  apply (settled_claim_fails s1 token _ _ _ _ Hl). cbn. discriminate.
Qed.

(** What the claim flow tells a user with a wallet who presents a settled
    token: that the claim could not be made; nothing is transferred. *)
Lemma claim_flow_on_settled_token w now from phone token s link wallet :
  claimLinks s !! token = Some link ->
  cl_status link <> Pending ->
  validateUserWallet w phone = Ok true ->
  getUserWallet w phone = Ok (Some wallet) ->
  CommandHandler.handleClaimFlow w now from phone token s
  = (s, [EvSend from (UnableToClaim (ClaimError (settledAnswer now link)))], Ok tt).
Proof.
  intros Hl Hs Hv Hw.
  unfold CommandHandler.handleClaimFlow, tryCatch, bind, await.
  cbn -[Claims.validateAndClaim]. rewrite Hv. cbn -[Claims.validateAndClaim].
  rewrite Hw. cbn -[Claims.validateAndClaim].
  rewrite (settled_claim_fails s token link w now (address wallet) Hl Hs).
  unfold settledAnswer.
  destruct (cl_status link); [contradiction| |]; [reflexivity|].
  destruct (cl_expiresAt link <? now); reflexivity.
Qed.

(** A redemption either leaves the store as it was or settles the link of
    its own token. *)
Lemma claim_store w now token addr s :
  stateOf (Claims.validateAndClaim w now token addr s) = s \/
  exists link,
    claimLinks s !! token = Some link /\ cl_status link = Pending /\
    claimLinks (stateOf (Claims.validateAndClaim w now token addr s))
    = <[token := Claims.withStatus Claimed link]> (claimLinks s).
Proof.
  unfold Claims.validateAndClaim.
  destruct (claimLinks s !! token) as [link|] eqn:Hl; [|left; reflexivity].
  destruct (cl_status link) eqn:Hs; destruct (cl_expiresAt link <? now);
    try (left; reflexivity).
  right. exists link. repeat split; assumption || reflexivity.
Qed.

(** The claim flow touches the store only through the redemption. *)
Lemma claim_flow_store w now from phone token s :
  stateOf (CommandHandler.handleClaimFlow w now from phone token s) = s \/
  exists addr,
    stateOf (CommandHandler.handleClaimFlow w now from phone token s)
    = stateOf (Claims.validateAndClaim w now token addr s).
Proof.
  unfold CommandHandler.handleClaimFlow, tryCatch, bind, await.
  cbn -[Claims.validateAndClaim].
  destruct (validateUserWallet w phone) as [[|]|e]; cbn -[Claims.validateAndClaim].
  - destruct (getUserWallet w phone) as [[wallet|]|e]; cbn -[Claims.validateAndClaim].
    + right. exists (address wallet).
      destruct (Claims.validateAndClaim w now token (address wallet) s) as [[s1 ev] [r|e]];
        cbn; [reflexivity|].
      destruct (includes "Amount too small" (messageOf e)); [reflexivity|].
      destruct (includes "gas fees" (messageOf e)); reflexivity.
    + left. reflexivity.
    + left. destruct (includes "Amount too small" (messageOf e)); [reflexivity|].
      destruct (includes "gas fees" (messageOf e)); reflexivity.
  - left. reflexivity.
  - left. destruct (includes "Amount too small" (messageOf e)); [reflexivity|].
    destruct (includes "gas fees" (messageOf e)); reflexivity.
Qed.

(** A settled link is never written again: not by a redemption of any
    token, not by the claim flow, not by the sweep. *)
Lemma claim_keeps_settled w now token' addr s token link :
  claimLinks s !! token = Some link ->
  cl_status link <> Pending ->
  claimLinks (stateOf (Claims.validateAndClaim w now token' addr s)) !! token = Some link.
Proof.
  intros Hl Hs.
  destruct (claim_store w now token' addr s) as [-> | (link' & Hl' & Hs' & ->)];
    [assumption|].
  destruct (decide (token' = token)) as [-> | Hne].
  - rewrite Hl in Hl'. injection Hl' as <-. contradiction.
  - rewrite lookup_insert_ne by assumption. assumption.
Qed.

Lemma sweep_keeps_settled now s token link :
  claimLinks s !! token = Some link ->
  cl_status link <> Pending ->
  claimLinks (stateOf (Claims.sweepExpired now s)) !! token = Some link.
Proof.
  intros Hl Hs. cbn. rewrite lookup_fmap, Hl. cbn. unfold Claims.sweepable.
  destruct (cl_status link); [contradiction| |]; reflexivity.
Qed.

Lemma escrow_keeps_settled calls : forall s token link,
  claimLinks s !! token = Some link ->
  cl_status link <> Pending ->
  claimLinks (escrowHistory calls s) !! token = Some link.
Proof.
  induction calls as [|call calls IH]; intros s token link Hl Hs; [assumption|].
  cbn. apply IH; [|assumption].
  destruct call as [w now token' addr | w now from phone token' | now]; cbn.
  - apply claim_keeps_settled; assumption.
  - destruct (claim_flow_store w now from phone token' s) as [-> | [addr ->]];
      [assumption|].
    apply claim_keeps_settled; assumption.
  - apply sweep_keeps_settled; assumption.
Qed.

(** The sweep refunds a Pending link that is past its expiry. *)
Lemma sweep_refunds now s token link :
  claimLinks s !! token = Some link ->
  Claims.sweepable now link = true ->
  claimLinks (stateOf (Claims.sweepExpired now s)) !! token
  = Some (Claims.withStatus Refunded link).
Proof.
  intros Hl Hs. cbn. rewrite lookup_fmap, Hl. cbn. rewrite Hs. reflexivity.
Qed.

(** A settled token is refused, by the redemption and by the claim flow. *)
Lemma settled_token_refused s token link w now addr :
  claimLinks s !! token = Some link ->
  cl_status link <> Pending ->
  refusedWith (settledAnswer now link) w now token addr s.
Proof.
  intros Hl Hs. split; [apply settled_claim_fails; assumption|].
  intros from phone.
  unfold CommandHandler.handleClaimFlow, tryCatch, bind, await.
  cbn -[Claims.validateAndClaim].
  destruct (validateUserWallet w phone) as [[|]|e]; cbn -[Claims.validateAndClaim].
  - destruct (getUserWallet w phone) as [[wallet|]|e]; cbn -[Claims.validateAndClaim].
    + rewrite (settled_claim_fails s token link w now (address wallet) Hl Hs).
      unfold settledAnswer.
      destruct (cl_status link); [contradiction| |]; [split; reflexivity|].
      destruct (cl_expiresAt link <? now); split; reflexivity.
    + split; reflexivity.
    + destruct (includes "Amount too small" (messageOf e)); [split; reflexivity|].
      destruct (includes "gas fees" (messageOf e)); split; reflexivity.
  - split; reflexivity.
  - destruct (includes "Amount too small" (messageOf e)); [split; reflexivity|].
    destruct (includes "gas fees" (messageOf e)); split; reflexivity.
Qed.

(** C1 as the escrow has it.  Once a redemption of a token has succeeded,
    whatever reaches the escrow afterwards (redemptions of this or other
    tokens, claim flows, sweeps, at any times), every further redemption of
    the token is refused with AlreadyClaimed: the store is left as it was
    and nothing is transferred, by the redemption or by the claim flow.
    Once the sweep has refunded the link of a token (it was Pending and
    past its expiry), every redemption from then on is refused in the same
    way, with Expired. *)
Theorem settled_claim_never_pays_again s token :
  (forall w0 now0 addr0 s1 ev receipt,
     Claims.validateAndClaim w0 now0 token addr0 s = (s1, ev, Ok receipt) ->
     forall later w now addr,
       refusedWith AlreadyClaimed w now token addr (escrowHistory later s1)) /\
  (forall link swept,
     claimLinks s !! token = Some link ->
     Claims.sweepable swept link = true ->
     forall later w now addr,
       swept <= now ->
       refusedWith Expired w now token addr
         (escrowHistory later (stateOf (Claims.sweepExpired swept s)))).
Proof.
  split.
  - intros w0 now0 addr0 s1 ev receipt H later w now addr.
    destruct (successful_claim_settles _ _ _ _ _ _ _ _ H) as (link & _ & _ & Hl & _).
    apply (settled_token_refused _ token (Claims.withStatus Claimed link));
      [|cbn; discriminate].
    apply escrow_keeps_settled; [assumption | cbn; discriminate].
  - intros link swept Hl Hsw later w now addr Hnow.
    assert (Hk : settledAnswer now (Claims.withStatus Refunded link) = Expired).
    { unfold settledAnswer, Claims.sweepable in *. cbn.
      destruct (cl_status link); try discriminate.
      apply Z.ltb_lt in Hsw. rewrite (proj2 (Z.ltb_lt _ _)) by lia. reflexivity. }
    rewrite <- Hk.
    apply settled_token_refused; [|cbn; discriminate].
    apply escrow_keeps_settled; [|cbn; discriminate].
    apply sweep_refunds; assumption.
Qed.

(** *** The scenarios, run *)

Ltac run := vm_compute; reflexivity.

(** C1, against the claim as worded, at scenario 3: the link of token "T"
    holds 0.1 and expires after three days; nobody redeems it, the sweep
    refunds it to the sender, and a claim four days after its creation
    answers Expired, not AlreadyClaimed.  A link that was redeemed answers
    AlreadyClaimed at the same time. *)
Lemma refunded_token_answers_expired :
  let w := Scenario.world "1.0" in
  let held := Scenario.withClaim "T" Scenario.heldLink in
  let fourDays := 4 * 24 * 60 * 60 * 1000 in
  let swept := Claims.sweepExpired (Claims.threeDays + 1) held in
  let once := Claims.validateAndClaim w 1000 "T" "0xB0B" held in
  eventsOf swept = [EvTransfer "911" 0.1%float] /\
  (cl_status <$> claimLinks (stateOf swept) !! "T") = Some Refunded /\
  Claims.validateAndClaim w fourDays "T" "0xB0B" (stateOf swept)
  = (stateOf swept, [], Throw (ClaimError Expired)) /\
  ~ refusedWith AlreadyClaimed w fourDays "T" "0xB0B" (stateOf swept) /\
  Claims.validateAndClaim w fourDays "T" "0xB0B" (stateOf once)
  = (stateOf once, [], Throw (ClaimError AlreadyClaimed)).
Proof.
  cbv zeta. split; [run|]. split; [run|]. split; [run|]. split; [|run].
  intros [H _].
  assert (He : Claims.validateAndClaim (Scenario.world "1.0") (4 * 24 * 60 * 60 * 1000)
                 "T" "0xB0B"
                 (stateOf (Claims.sweepExpired (Claims.threeDays + 1)
                             (Scenario.withClaim "T" Scenario.heldLink)))
               = (stateOf (Claims.sweepExpired (Claims.threeDays + 1)
                             (Scenario.withClaim "T" Scenario.heldLink)),
                  [], Throw (ClaimError Expired))) by run.
  rewrite He in H. discriminate.
Qed.

Lemma settled_claim_witness :
  let w := Scenario.world "1.0" in
  let held := Scenario.withClaim "T" Scenario.heldLink in
  let once := stateOf (Claims.validateAndClaim w 1000 "T" "0xB0B" held) in
  let swept := stateOf (Claims.sweepExpired (Claims.threeDays + 1) held) in
  let fourDays := 4 * 24 * 60 * 60 * 1000 in
  refusedWith AlreadyClaimed w fourDays "T" "0xB0B"
    (escrowHistory [Sweep fourDays; ClaimFlow w fourDays "922@c.us" "922" "T"] once) /\
  refusedWith Expired w fourDays "T" "0xB0B"
    (escrowHistory [Redeem w fourDays "T" "0xC0C"] swept).
Proof.
  cbv zeta. split.
  - eapply (proj1 (settled_claim_never_pays_again
                     (Scenario.withClaim "T" Scenario.heldLink) "T")
              (Scenario.world "1.0") 1000 "0xB0B").
    vm_compute. reflexivity.
  - apply (proj2 (settled_claim_never_pays_again
                    (Scenario.withClaim "T" Scenario.heldLink) "T")
             Scenario.heldLink (Claims.threeDays + 1)).
    + vm_compute. reflexivity.
    + vm_compute. reflexivity.
    + vm_compute. discriminate.
Defined.


(** C3, at a stale record: a send is prepared at time 0 and the "yes"
    arrives six minutes later, past the five-minute window.  The record is
    still there, the message is routed to the confirmation handler and the
    send is dispatched: the claim link is created.  Without a record the
    same message goes to the command router. *)
Lemma stale_pending_still_dispatched :
  let w := Scenario.world "1.0" in
  let from := "911@s.whatsapp.net" in
  let handle :=
    CommandHandler.handleMessage Scenario.parseDecimal Scenario.isYes Scenario.isNo
      Scenario.idle w (stalenessWindow + 60000) from "yes" in
  let prepared :=
    stateOf (TransactionHandler.handleSendTransaction Scenario.parseDecimal w 0 from "911"
               (Scenario.sendTo "0.1" "922") Scenario.empty) in
  (timestampOf <$> pendingTransactions prepared !! "911") = Some 0 /\
  stalenessWindow < (stalenessWindow + 60000) - 0 /\
  dispatchCount (eventsOf (handle prepared)) = 1%nat /\
  existsb movesFunds (eventsOf (handle prepared)) = true /\
  eventsOf (handle Scenario.empty) = [EvCall HOtherwise].
Proof. cbv zeta. repeat split; run. Qed.

(** C4, at a balance that is no number.  A send of 0.5 to a number
    without a wallet is prepared against a balance of 1.0 (total cost
    0.5001) and then confirmed.  The executor reads the wallet again: with
    a balance of 0.3 by then it stops with the balance-changed error and
    nothing moves.  With the balance "[object Object]", which is what
    [currentBalance.toString()] stores when the balance comes as an object,
    the balance parses to NaN and does not cover the total, the test
    [totalCost > balance] is false all the same, and the claim link is
    created for 0.5. *)
Lemma unparsable_balance_passes_revalidation :
  let from := "911@s.whatsapp.net" in
  let total := (0.5 + 0.0001)%float in
  let prepared :=
    stateOf (TransactionHandler.handleSendTransaction Scenario.parseDecimal
               (Scenario.world "1.0") 0 from "911" (Scenario.sendTo "0.5" "922")
               Scenario.empty) in
  let confirmAt balance :=
    CommandHandler.handleTransactionConfirmation Scenario.parseDecimal Scenario.isYes
      Scenario.isNo (Scenario.world balance) from "911" "yes" prepared in
  let unparsable := Js.parseFloat Scenario.parseDecimal (JStr "[object Object]") in
  (exists data,
     pendingTransactions prepared !! "911"
     = Some (SendTransaction data (Scenario.sendTo "0.5" "922") 0) /\
     td_totalCost data = total /\ td_shouldCreateClaimLink data = true) /\
  confirmAt "0.3"
  = (forget "911" prepared,
     [EvCall HTransactionConfirmation; EvCall HExecutePendingTransaction;
      EvSend from (ExecutionFailed BalanceChanged)],
     Ok tt) /\
  truthy (JStr "[object Object]") = true /\
  isNaN unparsable = true /\
  le total unparsable = false /\
  confirmAt "[object Object]"
  = (forget "911" prepared,
     [EvCall HTransactionConfirmation; EvCall HExecutePendingTransaction;
      EvCreateClaimLink "911" (Some "922") 0.5 "Unknown";
      EvSend from (ClaimLinkCreated 0.5 (Some "922") (Some "https://claim/1"));
      EvUpdateUserBalance "911";
      EvLogTransaction "911" (Some "922") 0.5 true (Some "0xabc")],
     Ok tt) /\
  existsb movesFunds (eventsOf (confirmAt "[object Object]")) = true.
Proof.
  cbv zeta. split.
  { eexists. split; [run|]. split; run. }
  split; [run|]. split; [run|]. split; [run|]. split; [run|]. split; run.
Qed.

(** C5, against the claim as worded: with a cached balance of 0.5, a
    request for 0.5 and an estimated cost of 0.0001, the refusal shows the
    total needed and the balance; the shortfall (the total less the
    balance) is not among the numbers shown. *)
Lemma shortfall_not_shown :
  let total := (0.5 + 0.0001)%float in
  let shortfall := (total - 0.5)%float in
  gt total 0.5 = true /\
  TransactionHandler.handleSendTransaction Scenario.parseDecimal (Scenario.world "0.5") 0
    "911@s.whatsapp.net" "911" (Scenario.sendTo "0.5" "922") Scenario.empty
  = (Scenario.empty,
     [EvSend "911@s.whatsapp.net" (PreparationFailed (InsufficientForGas total 0.5))],
     Ok tt) /\
  ~ In shortfall (shownNumbers (InsufficientForGas total 0.5)).
Proof.
  cbv zeta. split; [run|]. split; [run|].
  cbn. intros [H|[H|[]]]; revert H; apply float_differ; run.
Qed.

(** C10 on a chain where every call succeeds: the deposit transaction is
    sent and confirmed, and the user is told that the deposit failed. *)
Lemma deposit_on_chain_yet_reported_failed :
  CommandHandler.executeUSDCDeposit (Scenario.world "1.0") "911@s.whatsapp.net" "911" 1 1
    Scenario.empty
  = (Scenario.empty,
     [EvCall HExecuteUSDCDeposit;
      EvSend "911@s.whatsapp.net" ProcessingDeposit;
      EvApprove 1000000;
      EvDepositTx 1000000;
      EvSend "911@s.whatsapp.net" (DepositFailed (TypeError "success"))],
     Ok tt).
Proof. run. Qed.

Lemma unrecognised_reply_witness :
  let s := Scenario.withPending "911" (UsdcDeposit 1 1 0) in
  let r :=
    CommandHandler.handleTransactionConfirmation Scenario.parseDecimal Scenario.isYes
      Scenario.isNo (Scenario.world "1.0") "911@s.whatsapp.net" "911" "maybe" s in
  stateOf r = s /\
  eventsOf r
  = [EvCall HTransactionConfirmation; EvSend "911@s.whatsapp.net" RepromptDeposit] /\
  dispatchCount (eventsOf r) = 0%nat.
Proof.
  cbv zeta.
  apply (unrecognised_reply_only_reprompts Scenario.parseDecimal Scenario.isYes Scenario.isNo
           (Scenario.world "1.0") "911@s.whatsapp.net" "911" "maybe"
           (Scenario.withPending "911" (UsdcDeposit 1 1 0)) (UsdcDeposit 1 1 0));
    run.
Defined.

Lemma second_confirmation_witness :
  let yes w :=
    Overlap.handleTransactionConfirmation Scenario.parseDecimal Scenario.isYes Scenario.isNo
      w "911@s.whatsapp.net" "911" "yes" in
  let r :=
    Overlap.interleave
      [Overlap.First; Overlap.Second; Overlap.First; Overlap.Second; Overlap.First;
       Overlap.First; Overlap.First]
      (yes (Scenario.world "1.0")) (yes (Scenario.world "0.5"))
      (Scenario.withPending "911" (UsdcSwap 1 1 0)) in
  Overlap.heard r
  = [(Overlap.First, EvCall HTransactionConfirmation);
     (Overlap.Second, EvCall HTransactionConfirmation);
     (Overlap.First, EvCall HExecuteUSDCSwap);
     (Overlap.Second, EvSend "911@s.whatsapp.net" NoPendingFound);
     (Overlap.First, EvSend "911@s.whatsapp.net" (ProcessingSwap 1));
     (Overlap.First, EvSwap 1);
     (Overlap.First, EvSend "911@s.whatsapp.net" (SwapSuccessful 1 (Some "0x5a")))] /\
  Overlap.bothFinished r /\
  Overlap.store r = forget "911" (Scenario.withPending "911" (UsdcSwap 1 1 0)) /\
  (dispatchCount (Overlap.said r) <= 1)%nat /\
  dispatchCount (Overlap.saidBy Overlap.Second r) = 0%nat /\
  (exists rest,
     Overlap.saidBy Overlap.Second r ++ rest
     = [EvCall HTransactionConfirmation; EvSend "911@s.whatsapp.net" NoPendingFound]) /\
  (Overlap.bothFinished r ->
     dispatchCount (Overlap.said r) = 1%nat /\
     Overlap.saidBy Overlap.Second r
     = [EvCall HTransactionConfirmation; EvSend "911@s.whatsapp.net" NoPendingFound]).
Proof.
  cbv zeta. split; [run|]. split; [split; run|].
  apply (second_confirmation_not_dispatched Scenario.parseDecimal Scenario.isYes Scenario.isNo
           (Scenario.world "1.0") (Scenario.world "0.5") "911@s.whatsapp.net" "911"
           "yes" "yes" (Scenario.withPending "911" (UsdcSwap 1 1 0)) (UsdcSwap 1 1 0));
    run.
Defined.

Lemma pending_reply_witness :
  let s := Scenario.withPending "911" (UsdcSwap 1 1 0) in
  let r :=
    CommandHandler.handleMessage Scenario.parseDecimal Scenario.isYes Scenario.isNo
      Scenario.idle (Scenario.world "1.0") 1000 "911@s.whatsapp.net" "send 1 to 0xB0B" s in
  r = CommandHandler.handleTransactionConfirmation Scenario.parseDecimal Scenario.isYes
        Scenario.isNo (Scenario.world "1.0") "911@s.whatsapp.net" "911"
        "send 1 to 0xB0B" s /\
  Forall (fun e => isOtherwise e = false) (eventsOf r) /\
  userStates (stateOf r) = userStates s.
Proof.
  cbv zeta.
  destruct (pending_reply_routed_to_confirmation Scenario.parseDecimal Scenario.isYes
              Scenario.isNo Scenario.idle (Scenario.world "1.0") 1000 "911@s.whatsapp.net"
              "send 1 to 0xB0B" (Scenario.withPending "911" (UsdcSwap 1 1 0))
              (UsdcSwap 1 1 0))
    as (Hr & Hev & Hus & _); [run|].
  repeat split; assumption.
Defined.

Lemma unaffordable_request_witness :
  exists e,
    TransactionHandler.handleSendTransaction Scenario.parseDecimal (Scenario.world "0.5") 0
      "911@s.whatsapp.net" "911" (Scenario.sendTo "0.5" "922") Scenario.empty
    = (Scenario.empty, [EvSend "911@s.whatsapp.net" (PreparationFailed e)], Ok tt) /\
    isInsufficientBalance e = true.
Proof.
  destruct (unaffordable_request_rejected Scenario.parseDecimal (Scenario.world "0.5") 0
              "911@s.whatsapp.net" "911" (Scenario.sendTo "0.5" "922") Scenario.empty
              {| address := "0xA11CE"; balance := JStr "0.5" |}
              {| estimatedCost := JStr "0.0001" |})
    as (e & He & Hi & _); try run.
  - intros rp. eexists. reflexivity.
  - exists e. split; assumption.
Defined.

Lemma invalid_amount_witness :
  let handleSend :=
    CommandHandler.handleSendTransaction Scenario.parseDecimal
      (Scenario.validateAmount Scenario.parseDecimal) Scenario.noArgs in
  (exists e,
     TransactionHandler.handleSendTransaction Scenario.parseDecimal (Scenario.world "1.0") 0
       "911@s.whatsapp.net" "911" (Scenario.sendTo "abc" "922") Scenario.empty
     = (Scenario.empty, [EvSend "911@s.whatsapp.net" (PreparationFailed e)], Ok tt) /\
     isValidationError (PreparationFailed e) = true) /\
  (exists m,
     CommandHandler.handleSendTransaction Scenario.parseDecimal (fun _ => true)
       Scenario.noArgs (Scenario.world "1.0") 0 "911@s.whatsapp.net" "911"
       (Scenario.request "abc" "922") Scenario.empty
     = (Scenario.empty, [EvSend "911@s.whatsapp.net" m], Ok tt) /\
     isValidationError m = true) /\
  (exists m,
     handleSend (Scenario.world "1.0") 0 "911@s.whatsapp.net" "911"
       (Scenario.request "2000000" "922") Scenario.empty
     = (Scenario.empty, [EvSend "911@s.whatsapp.net" m], Ok tt) /\
     isValidationError m = true).
Proof.
  cbv zeta. split; [|split].
  - apply (proj1 (invalid_amount_writes_nothing Scenario.parseDecimal (fun _ => true)
                    Scenario.noArgs (Scenario.world "1.0") 0 "911@s.whatsapp.net" "911"
                    (Scenario.request "abc" "922") (Scenario.sendTo "abc" "922")
                    Scenario.empty)).
    run.
  - destruct (proj1 (proj2 (invalid_amount_writes_nothing Scenario.parseDecimal
                              (fun _ => true) Scenario.noArgs (Scenario.world "1.0") 0
                              "911@s.whatsapp.net" "911" (Scenario.request "abc" "922")
                              (Scenario.sendTo "abc" "922") Scenario.empty)))
      as (m & Hm & Hv); [run | run |].
    exists m. split; [exact Hm|]. apply Hv. run.
  - destruct (proj2 (proj2 (invalid_amount_writes_nothing Scenario.parseDecimal
                              (fun _ => true) Scenario.noArgs (Scenario.world "1.0") 0
                              "911@s.whatsapp.net" "911" (Scenario.request "2000000" "922")
                              (Scenario.sendTo "2000000" "922") Scenario.empty)))
      as (m & Hm & Hv); [run | run |].
    exists m. split; [exact Hm|]. apply Hv. run.
Defined.

Lemma unresolved_recipient_witness :
  let from := "911@s.whatsapp.net" in
  let prepared :=
    stateOf (TransactionHandler.handleSendTransaction Scenario.parseDecimal
               (Scenario.world "1.0") 0 from "911" (Scenario.sendTo "0.1" "922")
               Scenario.empty) in
  exists data,
    pendingTransactions prepared !! "911"
    = Some (SendTransaction data (Scenario.sendTo "0.1" "922") 0) /\
    kindOf (SendTransaction data (Scenario.sendTo "0.1" "922") 0) = EscrowCreate /\
    td_recipientPhone data = Some "922".
Proof.
  cbv zeta.
  destruct (unresolved_recipient_becomes_escrow Scenario.parseDecimal Scenario.isYes
              Scenario.isNo (Scenario.world "1.0") 0 "911@s.whatsapp.net" "911"
              (Scenario.sendTo "0.1" "922") Scenario.empty
              {| address := "0xA11CE"; balance := JStr "1.0" |}
              {| estimatedCost := JStr "0.0001" |} "922")
    as (data & Hp & Hk & Hr & _); try run.
  exists data. repeat split; assumption.
Defined.

(** ** Further properties of the preparer, the registry and the executors *)

Section Engine.
Variable parseFloatStr : string -> float.
Variable isConfirmation : string -> result bool.
Variable isCancellation : string -> result bool.
Variable validateAmount : JsVal -> bool.
Variable parseSendParameters : list string -> SendParams.

Local Abbreviation parseFloat := (Js.parseFloat parseFloatStr).
Local Abbreviation prepare := (TransactionHandler.handleSendTransaction parseFloatStr).
Local Abbreviation execute := (TransactionHandler.executePendingTransaction parseFloatStr).
Local Abbreviation confirm :=
  (CommandHandler.handleTransactionConfirmation parseFloatStr isConfirmation isCancellation).
Local Abbreviation handleSend :=
  (CommandHandler.handleSendTransaction parseFloatStr validateAmount parseSendParameters).

(** X1: whatever the request and whatever the outside answers, the preparer
    returns normally, sends exactly one message, and writes nothing but the
    sender's own pending record: the conversation states, the claim links
    and everybody else's pending records are as before.  Either the state
    is untouched and the message is a failure, or the message is the
    confirmation summary and the sender's record is the new one, stamped
    with the current time and keeping the request as it came. *)
Theorem prepare_writes_own_record_only w now from phone sp s :
  let r := prepare w now from phone sp s in
  snd r = Ok tt /\
  userStates (stateOf r) = userStates s /\
  claimLinks (stateOf r) = claimLinks s /\
  (forall other, other <> phone ->
     pendingTransactions (stateOf r) !! other = pendingTransactions s !! other) /\
  ((stateOf r = s /\ exists e, eventsOf r = [EvSend from (PreparationFailed e)]) \/
   (exists data to fee,
      pendingTransactions (stateOf r) !! phone = Some (SendTransaction data sp now) /\
      eventsOf r
      = [EvSend from (SendConfirmation (td_amount data) to fee (td_totalCost data)
                        (td_shouldCreateClaimLink data))])).
Proof.
  cbv zeta.
  unfold TransactionHandler.handleSendTransaction, TransactionHandler.requireWallet,
    tryCatch, bind, await, sendMessage, emit, setPending, throw, ret.
  crunch;
    (split; [reflexivity|]); (split; [reflexivity|]); (split; [reflexivity|]);
    (split; [try reflexivity; intros other Ho; cbn; apply lookup_insert_ne; congruence|]);
    first [ left; split; [reflexivity|]; eexists; reflexivity
          | right; do 3 eexists; split; [apply lookup_insert_eq|reflexivity] ].
Qed.

(** What has happened when the preparer asks the user to confirm. *)
Lemma asked_to_confirm w now from phone sp s amt to fee total claim :
  In (EvSend from (SendConfirmation amt to fee total claim))
     (eventsOf (prepare w now from phone sp s)) ->
  exists wallet data,
    getUserWallet w phone = Ok (Some wallet) /\
    truthy (balance wallet) = true /\
    amt = parseFloat (amount sp) /\
    isNaN amt = false /\ le amt 0 = false /\
    gt amt (parseFloat (balance wallet)) = false /\
    total = (amt + fee)%float /\
    gt total (parseFloat (balance wallet)) = false /\
    pendingTransactions (stateOf (prepare w now from phone sp s)) !! phone
    = Some (SendTransaction data sp now) /\
    td_from data = address wallet /\ td_phone data = phone /\
    td_amount data = amt /\ td_totalCost data = total /\
    td_shouldCreateClaimLink data = claim.
Proof.
  unfold TransactionHandler.handleSendTransaction, TransactionHandler.requireWallet,
    tryCatch, bind, await, sendMessage, emit, setPending, throw, ret.
  destruct (truthy (amount sp)) eqn:Ht; cbn; [|intros [H|[]]; discriminate].
  destruct (isNaN (parseFloat (amount sp))) eqn:Hn; cbn; [intros [H|[]]; discriminate|].
  destruct (le (parseFloat (amount sp)) 0) eqn:Hp; cbn; [intros [H|[]]; discriminate|].
  destruct (getUserWallet w phone) as [[wallet|]|e] eqn:Hw; cbn;
    try (intros [H|[]]; discriminate).
  destruct (truthy (balance wallet)) eqn:Hb; cbn; [|intros [H|[]]; discriminate].
  crunch; intros [H|[]]; try discriminate; injection H as <- <- <- <- <-;
    do 2 eexists; cbn [stateOf fst pendingTransactions]; rewrite ?lookup_insert_eq;
    repeat (split; [first [reflexivity|eassumption]|]); reflexivity.
Qed.

(** X2: whenever the preparer asks the user to confirm, the sender's wallet
    was found with a balance, the amount is a number above zero, the total
    in the record is the amount plus the estimated fee, neither of the two
    "exceeds" tests fired ([amount > balance] and [total > balance] were
    false), which for a balance and a total that are numbers means that
    the balance covers the amount and the total, and that record is the
    one stored for the sender. *)
Theorem confirmation_asked_only_when_affordable w now from phone sp s amt to fee total claim :
  In (EvSend from (SendConfirmation amt to fee total claim))
     (eventsOf (prepare w now from phone sp s)) ->
  exists wallet data,
    let cached := parseFloat (balance wallet) in
    getUserWallet w phone = Ok (Some wallet) /\
    truthy (balance wallet) = true /\
    amt = parseFloat (amount sp) /\
    isNaN amt = false /\ le amt 0 = false /\
    total = (amt + fee)%float /\
    gt amt cached = false /\
    gt total cached = false /\
    (isNaN cached = false -> le amt cached = true) /\
    (isNaN cached = false -> isNaN total = false -> le total cached = true) /\
    pendingTransactions (stateOf (prepare w now from phone sp s)) !! phone
    = Some (SendTransaction data sp now) /\
    td_from data = address wallet /\ td_phone data = phone /\
    td_amount data = amt /\ td_totalCost data = total /\
    td_shouldCreateClaimLink data = claim.
Proof.
  intros H.
  destruct (asked_to_confirm w now from phone sp s amt to fee total claim H)
    as (wallet & data & Hw & Hb & Ha & Hn & Hp & Hg1 & Ht & Hg2 & Hrec).
  exists wallet, data. cbv zeta.
  repeat (split; [assumption|]).
  split; [intros Hc; apply not_gt_le; assumption|].
  split; [intros Hc Hnt; apply not_gt_le; assumption|].
  exact Hrec.
Qed.

(** X3: when the recipient's phone number resolves to a wallet (and the
    request gives no address), the record stored is a direct transfer to
    that wallet's address: no claim link is planned and the phone number is
    not kept in the transaction data. *)
Theorem known_recipient_is_direct_transfer w now from phone sp s wallet g rp rw :
  let sendAmount := parseFloat (amount sp) in
  let totalCost := (sendAmount + parseFloat (estimatedCost g))%float in
  truthy (amount sp) = true ->
  isNaN sendAmount = false ->
  le sendAmount 0 = false ->
  getUserWallet w phone = Ok (Some wallet) ->
  truthy (balance wallet) = true ->
  recipientPhone sp = Some rp ->
  nonEmpty rp = true ->
  truthyS (recipientAddress sp) = false ->
  getUserWallet w rp = Ok (Some rw) ->
  gt sendAmount (parseFloat (balance wallet)) = false ->
  estimateGas w (address wallet) (Some (address rw)) sendAmount = Ok g ->
  gt totalCost (parseFloat (balance wallet)) = false ->
  exists data,
    pendingTransactions (stateOf (prepare w now from phone sp s)) !! phone
    = Some (SendTransaction data sp now) /\
    kindOf (SendTransaction data sp now) = DirectTransfer /\
    td_to data = Some (address rw) /\
    td_recipientPhone data = None /\
    td_amount data = sendAmount /\
    td_totalCost data = totalCost.
Proof.
  intros sendAmount totalCost Ht Hnan Hpos Hw Hbal Hrp Hne Hra Hsome Hg Hgas Hgt.
  subst sendAmount totalCost.
  unfold TransactionHandler.handleSendTransaction, TransactionHandler.requireWallet,
    tryCatch, bind, await.
  cbn. rewrite Ht. cbn. rewrite Hnan, Hpos. cbn. rewrite Hw. cbn. rewrite Hbal. cbn.
  rewrite Hrp. cbn. rewrite Hne, Hra. cbn. rewrite Hsome. cbn. rewrite Hg. cbn.
  rewrite Hgas. cbn. rewrite Hgt. cbn.
  eexists. split; [apply lookup_insert_eq|]. cbn. auto 6.
Qed.

(** X4: a failure of the gas oracle ends the preparation: the handler
    returns normally with the store as it was, so no record is stored, and
    the one message sent is the preparation failure that carries the
    oracle's error; no confirmation is asked. *)
Theorem oracle_failure_ends_preparation w now from phone sp s wallet e :
  truthy (amount sp) = true ->
  isNaN (parseFloat (amount sp)) = false ->
  le (parseFloat (amount sp)) 0 = false ->
  getUserWallet w phone = Ok (Some wallet) ->
  truthy (balance wallet) = true ->
  (forall rp, exists found, getUserWallet w rp = Ok found) ->
  gt (parseFloat (amount sp)) (parseFloat (balance wallet)) = false ->
  (forall target, estimateGas w (address wallet) target (parseFloat (amount sp)) = Throw e) ->
  prepare w now from phone sp s = (s, [EvSend from (PreparationFailed e)], Ok tt).
Proof.
  intros Ht Hnan Hpos Hw Hbal Hres Hg Hgas.
  unfold TransactionHandler.handleSendTransaction, TransactionHandler.requireWallet,
    tryCatch, bind, await.
  cbn. rewrite Ht. cbn. rewrite Hnan, Hpos. cbn. rewrite Hw. cbn. rewrite Hbal. cbn.
  destruct (recipientPhone sp) as [rp|]; cbn;
    [ destruct (nonEmpty rp && negb (truthyS (recipientAddress sp))); cbn;
      [ destruct (Hres rp) as [found Hf]; rewrite Hf; cbn; destruct found; cbn | ] | ];
    rewrite Hg; cbn; rewrite Hgas; reflexivity.
Qed.

(** X5: a direct transfer is submitted exactly once, to the stored
    address for the stored amount.  When the submission throws, it is not
    retried: the user is told that the transaction failed (the thrown
    error is replaced by a fixed text) and neither the balance refresh nor
    the transaction log runs.  When it returns, the success message with
    the hash is sent whatever the result says, then the balance is
    refreshed, then the transfer is logged. *)
Theorem direct_transfer_submitted_once w from phone d op s wallet provider outcome :
  getUserWallet w phone = Ok (Some wallet) ->
  truthy (balance wallet) = true ->
  gt (td_totalCost d) (parseFloat (balance wallet)) = false ->
  td_shouldCreateClaimLink d = false ->
  getWalletProvider w phone = Ok provider ->
  sendTransaction w provider (td_to d) (td_amount d) = outcome ->
  execute w from phone d op s
  = (s,
     [EvCall HExecutePendingTransaction;
      EvSendTransaction provider (td_to d) (td_amount d)]
     ++ match outcome with
        | Ok tx =>
            [EvSend from (TransactionSuccessful (td_amount d) (td_to d) (tx_hash tx));
             EvUpdateUserBalance phone;
             EvLogTransaction phone (orS (td_to d) (td_recipientPhone d)) (td_amount d)
               false (orS (tx_hash tx) (tx_ephemeralAddress tx))]
        | Throw _ => [EvSend from (ExecutionFailed TransactionFailed)]
        end,
     Ok tt).
Proof.
  intros Hw Hb Hgt Hc Hp Hs.
  unfold TransactionHandler.executePendingTransaction, TransactionHandler.requireWallet,
    TransactionHandler.updateUserBalance, tryCatch, bind, await.
  cbn. rewrite Hw. cbn. rewrite Hb. cbn. rewrite Hgt. cbn. rewrite Hc. cbn.
  rewrite Hp. cbn. rewrite Hs. destruct outcome as [tx|e]; reflexivity.
Qed.

(** X6: when the claim service answers without success, the user is told
    that the claim link could not be created, with the service's reason;
    no link is announced, and neither the balance refresh nor the log
    runs. *)
Theorem refused_claim_link_reported w from phone d op s wallet tx :
  getUserWallet w phone = Ok (Some wallet) ->
  truthy (balance wallet) = true ->
  gt (td_totalCost d) (parseFloat (balance wallet)) = false ->
  td_shouldCreateClaimLink d = true ->
  createClaimLink w phone (td_recipientPhone d) (td_amount d)
    (TransactionHandler.displayName op) = Ok tx ->
  tx_success tx = false ->
  execute w from phone d op s
  = (s,
     [EvCall HExecutePendingTransaction;
      EvCreateClaimLink phone (td_recipientPhone d) (td_amount d)
        (TransactionHandler.displayName op);
      EvSend from (ExecutionFailed (ClaimLinkFailed (tx_error tx)))],
     Ok tt).
Proof.
  intros Hw Hb Hgt Hc Hl Hs.
  unfold TransactionHandler.executePendingTransaction, TransactionHandler.requireWallet,
    tryCatch, bind, await.
  cbn. rewrite Hw. cbn. rewrite Hb. cbn. rewrite Hgt. cbn. rewrite Hc. cbn.
  rewrite Hl. cbn. rewrite Hs. reflexivity.
Qed.

(** X7: the confirmation handler moves funds only for a confirmation of an
    existing record: if its trace has a transfer, a claim-link creation, an
    approval, a deposit or a swap, then the sender had a pending record and
    the reply was recognised as affirmative. *)
Theorem funds_move_only_on_confirmation w from phone text s :
  existsb movesFunds (eventsOf (confirm w from phone text s)) = true ->
  isConfirmation text = Ok true /\
  exists tx, pendingTransactions s !! phone = Some tx.
Proof.
  destruct (pendingTransactions s !! phone) as [tx|] eqn:H.
  - destruct (isConfirmation text) as [[|]|e] eqn:Hy.
    + eauto.
    + destruct (isCancellation text) as [[|]|e] eqn:Hn.
      * rewrite (confirm_no parseFloatStr isConfirmation isCancellation
                   w from phone text s tx H Hy Hn). discriminate.
      * rewrite (confirm_other parseFloatStr isConfirmation isCancellation
                   w from phone text s tx H Hy Hn). discriminate.
      * rewrite (confirm_error parseFloatStr isConfirmation isCancellation
                   w from phone text s tx e H (or_intror (conj Hy Hn))). discriminate.
    + rewrite (confirm_error parseFloatStr isConfirmation isCancellation
                 w from phone text s tx e H (or_introl Hy)). discriminate.
  - rewrite (confirm_none parseFloatStr isConfirmation isCancellation
               w from phone text s H). discriminate.
Qed.

(** X8: a cancellation deletes the sender's record and answers with the
    cancellation text for the record's type; no executor is entered and no
    funds move.  A later confirmation then finds nothing to confirm. *)
Theorem cancellation_consumes_record w w' from phone text text' s tx :
  pendingTransactions s !! phone = Some tx ->
  isConfirmation text = Ok false ->
  isCancellation text = Ok true ->
  let r := confirm w from phone text s in
  stateOf r = forget phone s /\
  eventsOf r
  = [EvCall HTransactionConfirmation; EvSend from (CommandHandler.cancelledMessage tx)] /\
  dispatchCount (eventsOf r) = 0%nat /\
  eventsOf (confirm w' from phone text' (stateOf r))
  = [EvCall HTransactionConfirmation; EvSend from NoPendingFound].
Proof.
  intros H Hy Hn r. subst r.
  rewrite (confirm_no parseFloatStr isConfirmation isCancellation
             w from phone text s tx H Hy Hn).
  cbn [stateOf eventsOf fst snd]. repeat split.
  rewrite (confirm_none parseFloatStr isConfirmation isCancellation);
    [reflexivity | apply lookup_delete_eq].
Qed.

(** X9: a request that names the recipient by address only, through the
    direct parameters of a parsed command, loses the address on the way:
    the command handler passes it on as [recipient], the preparer reads
    [recipientAddress].  The gas is estimated for no destination, the
    confirmation shows the name (or nothing) in place of the address, and
    the record stored is a direct transfer with no destination and no
    phone number; only the request kept beside it still has the address. *)
Theorem address_only_request_has_no_destination w now from phone parameters s wallet g addr :
  let sendAmount := parseFloat (CommandHandler.p_amount parameters) in
  let total := (sendAmount + parseFloat (estimatedCost g))%float in
  findUserByPhone w phone = Ok true ->
  truthy (CommandHandler.p_amount parameters) = true ->
  CommandHandler.p_recipient parameters = Some addr ->
  nonEmpty addr = true ->
  truthyS (CommandHandler.p_recipientPhone parameters) = false ->
  validateAmount (CommandHandler.p_amount parameters) = true ->
  isNaN sendAmount = false ->
  le sendAmount 0 = false ->
  getUserWallet w phone = Ok (Some wallet) ->
  truthy (balance wallet) = true ->
  gt sendAmount (parseFloat (balance wallet)) = false ->
  estimateGas w (address wallet) None sendAmount = Ok g ->
  gt total (parseFloat (balance wallet)) = false ->
  let r := handleSend w now from phone parameters s in
  exists data sp,
    pendingTransactions (stateOf r) !! phone = Some (SendTransaction data sp now) /\
    recipient sp = Some addr /\
    td_to data = None /\
    td_recipientPhone data = None /\
    td_shouldCreateClaimLink data = false /\
    td_amount data = sendAmount /\
    eventsOf r
    = [EvSend from
         (SendConfirmation sendAmount
            (orS (CommandHandler.p_name parameters)
               (CommandHandler.p_recipientPhone parameters))
            (parseFloat (estimatedCost g)) total false)].
Proof.
  intros sendAmount total Hu Ha Hr Hne Hp Hv Hnan Hpos Hw Hb Hg Hgas Hgt.
  subst sendAmount total. cbv zeta.
  unfold CommandHandler.handleSendTransaction, CommandHandler.requestOf.
  rewrite Ha, Hr. change (truthyS (Some addr)) with (nonEmpty addr). rewrite Hne.
  cbn [andb orb].
  unfold tryCatch, bind, await. rewrite Hu. cbn [negb valid amount]. rewrite Hv. cbn [negb].
  unfold TransactionHandler.handleSendTransaction, TransactionHandler.requireWallet,
    tryCatch, bind, await.
  cbn. rewrite Ha. cbn. rewrite Hnan, Hpos. cbn. rewrite Hw. cbn. rewrite Hb. cbn.
  destruct (CommandHandler.p_recipientPhone parameters) as [rp|] eqn:Hrp; cbn;
    [ change (nonEmpty rp = false) in Hp; rewrite Hp; cbn | ];
    rewrite Hg; cbn; rewrite Hgas; cbn; rewrite Hgt; cbn;
    do 2 eexists; (split; [apply lookup_insert_eq|]); cbn; rewrite ?Hr; auto 10.
Qed.

(** X10: the swap executor reports what the swap service answers: on an
    answer without success the user gets the failure text with the
    service's error, on success the success text with the transaction hash;
    the swap is asked for once and the state is not touched. *)
Theorem swap_outcome_reported w from phone amt expected s res :
  swapUSDCtoWETH w amt = Ok res ->
  CommandHandler.executeUSDCSwap w from phone amt expected s
  = (s,
     [EvCall HExecuteUSDCSwap; EvSend from (ProcessingSwap amt); EvSwap amt;
      EvSend from (if sw_success res
                   then SwapSuccessful amt (sw_transactionHash res)
                   else SwapFailed (SwapError (sw_error res)))],
     Ok tt).
Proof.
  intros H. unfold CommandHandler.executeUSDCSwap, tryCatch, bind, await.
  cbn. rewrite H. cbn. destruct (sw_success res); reflexivity.
Qed.

End Engine.

(** ** The conversation flows *)

Lemma keeps_ret {St Ev A B} (view : St -> B) (a : A) : keeps view (@runRet St Ev A a).
Proof. intros s. reflexivity. Qed.

Lemma keeps_throw {St Ev A B} (view : St -> B) (e : Error) :
  keeps view (@runThrow St Ev A e).
Proof. intros s. reflexivity. Qed.

Lemma keeps_await {St Ev A B} (view : St -> B) (r : result A) :
  keeps view (@runAwait St Ev A r).
Proof. intros s. reflexivity. Qed.

Lemma keeps_emit {St Ev B} (view : St -> B) (e : Ev) : keeps view (@runEmit St Ev e).
Proof. intros s. reflexivity. Qed.

Lemma keeps_modify {St Ev B} (view : St -> B) (f : St -> St) :
  (forall s, view (f s) = view s) -> keeps view (@runModify St Ev f).
Proof. intros H s. apply H. Qed.

Lemma keeps_bind {St Ev A A' B} (view : St -> B) (m : Run St Ev A) (k : A -> Run St Ev A') :
  keeps view m -> (forall a, keeps view (k a)) -> keeps view (runBind m k).
Proof.
  intros Hm Hk s. unfold runBind. specialize (Hm s).
  destruct (m s) as [[s1 ev1] [a|e]]; cbn in *; [|exact Hm].
  specialize (Hk a s1). destruct (k a s1) as [[s2 ev2] r]. cbn in *. congruence.
Qed.

Lemma keeps_try {St Ev A B} (view : St -> B) (m : Run St Ev A) (h : Error -> Run St Ev A) :
  keeps view m -> (forall e, keeps view (h e)) -> keeps view (runTry m h).
Proof.
  intros Hm Hh s. unfold runTry. specialize (Hm s).
  destruct (m s) as [[s1 ev1] [a|e]]; cbn in *; [exact Hm|].
  specialize (Hh e s1). destruct (h e s1) as [[s2 ev2] r]. cbn in *. congruence.
Qed.

Lemma keeps_core {A B} (view : Flows.Session -> B) (m : M A) :
  (forall x, view {| Flows.base := stateOf (m (Flows.base x));
                     Flows.contactTargets := Flows.contactTargets x |} = view x) ->
  keeps view (Flows.core m).
Proof.
  intros H x. unfold Flows.core. specialize (H x).
  destruct (m (Flows.base x)) as [[s1 ev] r]. exact H.
Qed.

Lemma quiet_ret {St Ev A} (P : Ev -> bool) (a : A) : quiet P (@runRet St Ev A a).
Proof. intros s. reflexivity. Qed.

Lemma quiet_throw {St Ev A} (P : Ev -> bool) (e : Error) : quiet P (@runThrow St Ev A e).
Proof. intros s. reflexivity. Qed.

Lemma quiet_await {St Ev A} (P : Ev -> bool) (r : result A) : quiet P (@runAwait St Ev A r).
Proof. intros s. reflexivity. Qed.

Lemma quiet_modify {St Ev} (P : Ev -> bool) (f : St -> St) : quiet P (@runModify St Ev f).
Proof. intros s. reflexivity. Qed.

Lemma quiet_emit {St Ev} (P : Ev -> bool) (e : Ev) :
  P e = false -> quiet P (@runEmit St Ev e).
Proof. intros H s. cbn. rewrite H. reflexivity. Qed.

Lemma quiet_bind {St Ev A A'} (P : Ev -> bool) (m : Run St Ev A) (k : A -> Run St Ev A') :
  quiet P m -> (forall a, quiet P (k a)) -> quiet P (runBind m k).
Proof.
  intros Hm Hk s. unfold runBind. specialize (Hm s).
  destruct (m s) as [[s1 ev1] [a|e]]; cbn in *; [|exact Hm].
  specialize (Hk a s1). destruct (k a s1) as [[s2 ev2] r]. cbn in *.
  rewrite existsb_app, Hm, Hk. reflexivity.
Qed.

Lemma quiet_try {St Ev A} (P : Ev -> bool) (m : Run St Ev A) (h : Error -> Run St Ev A) :
  quiet P m -> (forall e, quiet P (h e)) -> quiet P (runTry m h).
Proof.
  intros Hm Hh s. unfold runTry. specialize (Hm s).
  destruct (m s) as [[s1 ev1] [a|e]]; cbn in *; [exact Hm|].
  specialize (Hh e s1). destruct (h e s1) as [[s2 ev2] r]. cbn in *.
  rewrite existsb_app, Hm, Hh. reflexivity.
Qed.

Lemma quiet_core {A} (P : Flows.Action -> bool) (m : M A) :
  (forall e, P (Flows.Core e) = false) -> quiet P (Flows.core m).
Proof.
  intros H x. unfold Flows.core. destruct (m (Flows.base x)) as [[s1 ev] r]. cbn.
  induction ev as [|e ev IH]; [reflexivity|]. cbn. rewrite H. exact IH.
Qed.

(** What a computation that lets no error escape leaves of a [try]. *)
Lemma settled_try {St Ev} (m : Run St Ev unit) (h : Error -> Run St Ev unit) s :
  snd (m s) = Ok tt -> runTry m h s = m s.
Proof.
  intros H. unfold runTry. destruct (m s) as [[s1 ev1] r]. cbn in H. subst r. reflexivity.
Qed.

Ltac keep :=
  repeat first
    [ apply keeps_bind; [|intros ?]
    | apply keeps_try; [|intros ?]
    | apply keeps_ret | apply keeps_throw | apply keeps_await | apply keeps_emit
    | apply keeps_modify; intros ?; reflexivity
    | apply keeps_core; intros ?; reflexivity
    | match goal with
      | |- keeps _ (if ?b then _ else _) => destruct b
      | |- keeps _ (match ?x with _ => _ end) => destruct x
      end ].

Ltac hush :=
  repeat first
    [ apply quiet_bind; [|intros ?]
    | apply quiet_try; [|intros ?]
    | apply quiet_ret | apply quiet_throw | apply quiet_await | apply quiet_modify
    | apply quiet_emit; reflexivity
    | apply quiet_core; intros ?; reflexivity
    | match goal with
      | |- quiet _ (if ?b then _ else _) => destruct b
      | |- quiet _ (match ?x with _ => _ end) => destruct x
      end ].

(** Tests of a name against a literal. *)
Ltac names :=
  repeat match goal with
  | |- context [bool_decide (?a = ?b)] =>
      first [ rewrite (bool_decide_eq_true_2 (a = b)) by reflexivity
            | rewrite (bool_decide_eq_false_2 (a = b)) by discriminate ]
  end.

Ltac handlers :=
  unfold Flows.handlePrivateKeyInput, Flows.handleSwapTokens, Flows.handleDepositUSDC,
    Flows.handleGreeting, Flows.handleExploreDeFiMenu, Flows.handleDepositConfirmation,
    Flows.handleSwapConfirmation, Flows.missingMethod, Flows.requireUser, Flows.replyError,
    Flows.checkBalances, Flows.deleteFlow, Flows.setFlow, Flows.setContactFlow, Flows.say.

Section Conversation.
Variable parseFloatStr : string -> float.
Variable validateAmount : JsVal -> bool.
Variable parseSendParameters : list string -> SendParams.
Variable trim : string -> string.
Variable toLowerCase : string -> string.
Variable toInteger : float -> float.

Local Abbreviation parseFloat := (Js.parseFloat parseFloatStr).
Local Abbreviation handleSend :=
  (CommandHandler.handleSendTransaction parseFloatStr validateAmount parseSendParameters).
Local Abbreviation resume :=
  (Flows.resume parseFloatStr validateAmount parseSendParameters trim toLowerCase toInteger).
Local Abbreviation handleStatefulMessage :=
  (Flows.handleStatefulMessage parseFloatStr validateAmount parseSendParameters trim
     toLowerCase toInteger).
Local Abbreviation handleDepositConfirmation :=
  (Flows.handleDepositConfirmation parseFloatStr toInteger).
Local Abbreviation handleSwapConfirmation := (Flows.handleSwapConfirmation parseFloatStr).
Local Abbreviation handleGreeting := (Flows.handleGreeting parseFloatStr).
Local Abbreviation handleAdminCommand := (Flows.handleAdminCommand trim toLowerCase).
Local Abbreviation onError :=
  (fun (from phone : string) (error : Error) =>
     runBind (Flows.deleteFlow phone) (fun _ => Flows.replyError from error)).

Lemma handleSend_safe w now from phone parameters : safe (handleSend w now from phone parameters).
Proof. unfold CommandHandler.handleSendTransaction. frame. Qed.

(** A handler of the engine that cannot throw, run on the session. *)
Lemma core_safe_run (m : M unit) x :
  safe m ->
  Flows.core m x
  = ({| Flows.base := stateOf (m (Flows.base x));
        Flows.contactTargets := Flows.contactTargets x |},
     map Flows.Core (eventsOf (m (Flows.base x))), Ok tt).
Proof.
  intros Hs. unfold Flows.core. destruct (Hs (Flows.base x)) as [[] Ha].
  destruct (m (Flows.base x)) as [[s1 ev] r]. cbn in *. subst r. reflexivity.
Qed.

Lemma stateful_cancel w x now from phone text sess :
  toLowerCase (trim text) = "cancel" ->
  handleStatefulMessage w x now from phone text sess
  = (Flows.forgetFlow phone sess, [Flows.Say from Flows.OperationCancelled], Ok tt).
Proof.
  intros Hc. unfold Flows.handleStatefulMessage, runTry, runBind, Flows.getFlow.
  cbn -[Flows.resume]. rewrite (bool_decide_eq_true_2 _ Hc). reflexivity.
Qed.

Lemma stateful_none w x now from phone text sess :
  toLowerCase (trim text) <> "cancel" ->
  userStates (Flows.base sess) !! phone = None ->
  handleStatefulMessage w x now from phone text sess
  = (sess, [Flows.Say from Flows.NoActiveAction], Ok tt).
Proof.
  intros Hc He. unfold Flows.handleStatefulMessage, runTry, runBind, Flows.getFlow.
  cbn -[Flows.resume]. rewrite (bool_decide_eq_false_2 _ Hc), He. reflexivity.
Qed.

Lemma stateful_stale w x now from phone text sess entry :
  toLowerCase (trim text) <> "cancel" ->
  userStates (Flows.base sess) !! phone = Some entry ->
  Flows.fiveMinutes < now - us_timestamp entry ->
  handleStatefulMessage w x now from phone text sess
  = (Flows.forgetFlow phone sess, [Flows.Say from Flows.OperationTimedOut], Ok tt).
Proof.
  intros Hc He Hold. unfold Flows.handleStatefulMessage, runTry, runBind, Flows.getFlow.
  cbn -[Flows.resume]. rewrite (bool_decide_eq_false_2 _ Hc), He. cbn -[Flows.resume].
  destruct (Z.ltb_spec Flows.fiveMinutes (now - us_timestamp entry)); [reflexivity|lia].
Qed.

Lemma stateful_fresh w x now from phone text sess entry :
  toLowerCase (trim text) <> "cancel" ->
  userStates (Flows.base sess) !! phone = Some entry ->
  now - us_timestamp entry <= Flows.fiveMinutes ->
  handleStatefulMessage w x now from phone text sess
  = runTry (resume w x now from phone text (trim text) entry
              (Flows.contactTargets sess !! phone))
      (onError from phone) sess.
Proof.
  intros Hc He Hin. unfold Flows.handleStatefulMessage, runTry, runBind, Flows.getFlow.
  cbn -[Flows.resume]. rewrite (bool_decide_eq_false_2 _ Hc), He. cbn -[Flows.resume].
  destruct (Z.ltb_spec Flows.fiveMinutes (now - us_timestamp entry)); [lia|].
  destruct (Flows.resume _ _ _ _ _ _ _ _ _ _ _ _ _ _ _ _) as [[s1 ev1] [[]|e]]; reflexivity.
Qed.

(** X11: the word "cancel" (trimmed, in any case) ends whatever flow the
    user is in, before the state is even looked at: the entry is deleted,
    also when it is absent or long expired, the user is told so, and no
    pending record is touched. *)
Theorem cancel_ends_any_flow w x now from phone text sess :
  toLowerCase (trim text) = "cancel" ->
  let r := handleStatefulMessage w x now from phone text sess in
  r = (Flows.forgetFlow phone sess, [Flows.Say from Flows.OperationCancelled], Ok tt) /\
  userStates (Flows.base (finalOf r)) !! phone = None /\
  pendingOf (finalOf r) = pendingOf sess.
Proof.
  intros Hc r. subst r. rewrite (stateful_cancel _ _ _ _ _ _ _ Hc).
  repeat split. apply lookup_delete_eq.
Qed.


(** X13: in a state that waits for an amount, a reply that does not parse
    as a number above zero changes nothing: the entry stays as it is, with
    its old time stamp, no pending record is written, and the user is asked
    again for a valid amount. *)
Theorem invalid_amount_keeps_waiting w x now from phone text sess entry :
  toLowerCase (trim text) <> "cancel" ->
  userStates (Flows.base sess) !! phone = Some entry ->
  now - us_timestamp entry <= Flows.fiveMinutes ->
  In (us_state entry) amountStates ->
  Flows.validAmount (parseFloatStr (trim text)) = false ->
  exists reply,
    handleStatefulMessage w x now from phone text sess
    = (sess, [Flows.Say from reply], Ok tt) /\
    In reply [Flows.InvalidEthAmount; Flows.InvalidUsdcDepositAmount;
              Flows.InvalidUsdcSwapAmount].
Proof.
  intros Hc He Hf Hin Hv. rewrite (stateful_fresh _ _ _ _ _ _ _ _ Hc He Hf).
  unfold Flows.resume. destruct entry as [st rp ts]. cbn [us_state] in *.
  cbn in Hin.
  destruct Hin as [<-|[<-|[<-|[<-|[<-|[]]]]]]; names; cbn [orb]; rewrite Hv;
    rewrite ?(bool_decide_eq_false_2 _ Hc);
    eexists; (split; [reflexivity|]); cbn; tauto.
Qed.

Lemma resume_keeps_pending w x now from phone text msg entry target :
  Flows.validAmount (parseFloatStr msg) = false \/ ~ In (us_state entry) amountStates ->
  keeps pendingOf (resume w x now from phone text msg entry target).
Proof.
  intros H. unfold Flows.resume.
  destruct (Flows.validAmount (parseFloatStr msg)) eqn:Hv.
  - destruct H as [H|H]; [discriminate|].
    repeat match goal with
    | |- context [bool_decide (us_state ?e = ?n)] =>
        let Hn := fresh "Hn" in
        destruct (bool_decide_reflect (us_state e = n)) as [Hn|Hn];
        [ try (exfalso; apply H; rewrite Hn; cbn; tauto) | ]; cbn [orb]; cbv iota
    end; handlers; keep.
  - handlers; keep.
Qed.

Lemma onError_keeps_pending from phone e : keeps pendingOf (onError from phone e).
Proof. handlers; keep. Qed.

(** X14: a reply in a conversation writes or deletes a pending record only
    when the sender is in a live state that waits for an amount and the
    reply parses as a number above zero.  Every other reply (a cancel, a
    reply without a state or after the expiry, a menu choice, a private
    key, a contact, an invalid amount) leaves all pending records as they
    are. *)
Theorem pending_changes_only_after_valid_amount w x now from phone text sess :
  pendingOf (finalOf (handleStatefulMessage w x now from phone text sess)) <> pendingOf sess ->
  exists entry,
    userStates (Flows.base sess) !! phone = Some entry /\
    now - us_timestamp entry <= Flows.fiveMinutes /\
    In (us_state entry) amountStates /\
    Flows.validAmount (parseFloatStr (trim text)) = true.
Proof.
  intros Hne.
  destruct (decide (toLowerCase (trim text) = "cancel")) as [Hc|Hc].
  { rewrite (stateful_cancel _ _ _ _ _ _ _ Hc) in Hne. contradiction. }
  destruct (userStates (Flows.base sess) !! phone) as [entry|] eqn:He.
  2:{ rewrite (stateful_none _ _ _ _ _ _ _ Hc He) in Hne. contradiction. }
  destruct (Z.lt_ge_cases Flows.fiveMinutes (now - us_timestamp entry)) as [Hold|Hin].
  { rewrite (stateful_stale _ _ _ _ _ _ _ _ Hc He Hold) in Hne. contradiction. }
  exists entry. split; [reflexivity|]. split; [exact Hin|].
  rewrite (stateful_fresh _ _ _ _ _ _ _ _ Hc He Hin) in Hne.
  destruct (in_dec String.string_dec (us_state entry) amountStates) as [Hs|Hs];
    destruct (Flows.validAmount (parseFloatStr (trim text))) eqn:Hv;
    try (split; [assumption|reflexivity]);
    exfalso; apply Hne;
    (apply keeps_try; [apply resume_keeps_pending; auto | intros e; apply onError_keeps_pending]).
Qed.

Lemma forget_idemp phone sess :
  Flows.forgetFlow phone (Flows.forgetFlow phone sess) = Flows.forgetFlow phone sess.
Proof.
  unfold Flows.forgetFlow, Flows.withUserStates. cbn. rewrite !delete_delete_eq. reflexivity.
Qed.

(** X15: the choices 3 (balance) and 4 (history) of the DeFi menu call
    methods the transaction handler does not have: the user gets an error
    reply instead of a balance or a history, and the menu state is gone. *)
Theorem defi_balance_and_history_fail w x now from phone text sess entry :
  toLowerCase (trim text) <> "cancel" ->
  userStates (Flows.base sess) !! phone = Some entry ->
  now - us_timestamp entry <= Flows.fiveMinutes ->
  us_state entry = "AWAITING_DEFI_SELECTION" ->
  trim (trim text) = "3" \/ trim (trim text) = "4" ->
  exists e,
    handleStatefulMessage w x now from phone text sess
    = (Flows.forgetFlow phone sess, [Flows.Core (EvSend from (ErrorReply e))], Ok tt).
Proof.
  intros Hc He Hf Hs Hsel. rewrite (stateful_fresh _ _ _ _ _ _ _ _ Hc He Hf).
  unfold Flows.resume. rewrite Hs. names.
  destruct Hsel as [-> | ->]; names; eexists;
    unfold runTry, runBind, Flows.deleteFlow, runModify, Flows.missingMethod, runThrow,
      Flows.replyError;
    cbn -[Flows.forgetFlow]; rewrite forget_idemp; reflexivity.
Qed.

Lemma forget_after_contact phone u t b ct :
  Flows.forgetFlow phone
    {| Flows.base := Flows.withUserStates (insert phone u) b;
       Flows.contactTargets := <[phone := t]> ct |}
  = Flows.forgetFlow phone {| Flows.base := b; Flows.contactTargets := ct |}.
Proof.
  unfold Flows.forgetFlow, Flows.withUserStates. cbn. rewrite !delete_insert_eq. reflexivity.
Qed.

Lemma forget_after_flow phone u b ct :
  Flows.forgetFlow phone
    {| Flows.base := Flows.withUserStates (insert phone u) b;
       Flows.contactTargets := delete phone ct |}
  = Flows.forgetFlow phone {| Flows.base := b; Flows.contactTargets := ct |}.
Proof.
  unfold Flows.forgetFlow, Flows.withUserStates. cbn.
  rewrite delete_insert_eq, delete_delete_eq. reflexivity.
Qed.

(** What a valid amount does in the three states that wait for an amount to
    send. *)
Lemma resume_sends w x now from phone text msg entry target sess :
  Flows.validAmount (parseFloatStr msg) = true ->
  In (us_state entry) sendAmountStates ->
  runTry (resume w x now from phone text msg entry target) (onError from phone) sess
  = Flows.core
      (handleSend w now from phone
         {| CommandHandler.p_amount := JNum (parseFloatStr msg);
            CommandHandler.p_recipient :=
              if bool_decide (us_state entry = "AWAITING_AMOUNT_FOR_CONTACT")
              then target ≫= Flows.targetAddress else None;
            CommandHandler.p_recipientPhone :=
              if bool_decide (us_state entry = "AWAITING_AMOUNT_FOR_CONTACT")
              then Flows.contactPhone <$> target else us_recipientPhone entry;
            CommandHandler.p_name :=
              if bool_decide (us_state entry = "AWAITING_AMOUNT_FOR_CONTACT")
              then Flows.contactName <$> target else us_recipientPhone entry;
            CommandHandler.p_args := None;
            CommandHandler.p_intent := None |})
      (Flows.forgetFlow phone sess).
Proof.
  intros Hv Hin. rewrite settled_try.
  - unfold Flows.resume. destruct entry as [st rp ts]. cbn [us_state us_recipientPhone] in *.
    cbn in Hin. destruct Hin as [<-|[<-|[<-|[]]]]; names; cbn [orb]; rewrite Hv;
      unfold runBind, Flows.deleteFlow, runModify;
      rewrite (core_safe_run _ _ (handleSend_safe _ _ _ _ _)); reflexivity.
  - unfold Flows.resume. destruct entry as [st rp ts]. cbn [us_state us_recipientPhone] in *.
    cbn in Hin. destruct Hin as [<-|[<-|[<-|[]]]]; names; cbn [orb]; rewrite Hv;
      unfold runBind, Flows.deleteFlow, runModify;
      rewrite (core_safe_run _ _ (handleSend_safe _ _ _ _ _)); reflexivity.
Qed.

(** X16: sharing a contact and then answering with an amount is a send
    request to that contact.  When the first number of the card is a
    registered user, the request names that user's wallet address and the
    number; when it is not, the request names the number alone (the escrow
    route).  In both cases the conversation state is consumed first, and
    the numbers after the first are not looked at. *)
Theorem shared_contact_then_amount w x t0 now from p rest text sess found :
  let phone := CommandHandler.extractPhoneNumber from in
  let number := Flows.stripPlus p in
  Flows.findUserRow x number = Ok found ->
  toLowerCase (trim text) <> "cancel" ->
  now - t0 <= Flows.fiveMinutes ->
  Flows.validAmount (parseFloatStr (trim text)) = true ->
  handleStatefulMessage w x now from phone text
    (finalOf (Flows.handleSharedContact x t0 from (p :: rest) sess))
  = Flows.core
      (handleSend w now from phone
         {| CommandHandler.p_amount := JNum (parseFloatStr (trim text));
            CommandHandler.p_recipient := found ≫= Flows.wallet_address;
            CommandHandler.p_recipientPhone := Some number;
            CommandHandler.p_name := Some number;
            CommandHandler.p_args := None;
            CommandHandler.p_intent := None |})
      (Flows.forgetFlow phone sess).
Proof.
  intros phone number Hrow Hc Hf Hv. subst phone number.
  unfold Flows.handleSharedContact, runTry, runBind, runAwait, Flows.say, runEmit,
    Flows.setContactFlow, Flows.setFlow, runModify.
  rewrite Hrow. destruct found as [row|]; cbn [finalOf fst].
  - erewrite stateful_fresh; [| exact Hc | apply lookup_insert_eq | exact Hf].
    rewrite resume_sends; [| exact Hv | cbn; tauto].
    cbn [Flows.contactTargets Flows.flow us_state us_recipientPhone].
    rewrite lookup_insert_eq, forget_after_contact. names. reflexivity.
  - erewrite stateful_fresh; [| exact Hc | apply lookup_insert_eq | exact Hf].
    rewrite resume_sends; [| exact Hv | cbn; tauto].
    cbn [Flows.contactTargets us_state us_recipientPhone].
    rewrite forget_after_flow. names. reflexivity.
Qed.

(** X17: for a user with a wallet, the deposit confirmation always shows
    current holdings of zero, whatever the chain holds and whether or not
    it answers: [checkBalances] returns nothing and the ZAP balance reader
    is not exported.  The record stored is a deposit of the amount for the
    same number of tokens, stamped with the current time. *)
Theorem deposit_confirmation_shows_no_holdings w x now from phone amt sess wallet :
  getUserWallet w phone = Ok (Some wallet) ->
  let r := handleDepositConfirmation w x now from phone amt sess in
  traceOf r
  = [Flows.Say from
       (Flows.DepositConfirmation 0 0 amt amt (0 - amt)%float (0 + amt * 1e18)%float)] /\
  pendingOf (finalOf r) = <[phone := UsdcDeposit amt amt now]> (pendingOf sess) /\
  userStates (Flows.base (finalOf r)) = userStates (Flows.base sess) /\
  snd r = Ok tt.
Proof.
  intros Hw r. subst r.
  unfold Flows.handleDepositConfirmation, Flows.checkBalances, runTry, runBind, runAwait.
  rewrite Hw.
  destruct (Flows.vaultUsdcBalanceOf (Flows.vault x)) as [u|e1];
    destruct (Flows.zappoBalanceOf (Flows.vault x)) as [z|e2]; cbn; repeat split.
Qed.

(** X18: the swap confirmation never throws, and it stores a pending swap
    only after a quote that succeeded: then the record holds the amount and
    the quoted output, and the user is shown the confirmation; in every
    other case the session is exactly as before. *)
Theorem swap_pending_needs_quote w x now from phone amt sess :
  let r := handleSwapConfirmation w x now from phone amt sess in
  snd r = Ok tt /\
  (finalOf r = sess \/
   exists q,
     Flows.getSwapQuote x amt = Ok q /\ Flows.sq_success q = true /\
     pendingOf (finalOf r)
     = <[phone := UsdcSwap amt (parseFloat (Flows.sq_amountOut q)) now]> (pendingOf sess) /\
     userStates (Flows.base (finalOf r)) = userStates (Flows.base sess)).
Proof.
  cbv zeta. destruct sess as [b ct].
  unfold Flows.handleSwapConfirmation, runTry, runBind, runAwait.
  destruct (getUserWallet w phone) as [[wallet|]|e]; cbn;
    try (split; [reflexivity|left; reflexivity]).
  destruct (Flows.getSwapQuote x amt) as [q|e] eqn:Hq; cbn;
    try (split; [reflexivity|left; reflexivity]).
  destruct (Flows.sq_success q) eqn:Hs; cbn;
    try (split; [reflexivity|left; reflexivity]).
  destruct (Flows.getTokenBalances x) as [tb|e]; cbn;
    (split; [reflexivity|right; exists q; repeat split; first [reflexivity|assumption]]).
Qed.

Lemma resume_quiet_import w x now from phone text msg entry target :
  us_state entry <> "IMPORTING_WALLET" ->
  quiet isImport (resume w x now from phone text msg entry target).
Proof.
  intros H. unfold Flows.resume. rewrite (bool_decide_eq_false_2 _ H).
  handlers; hush.
Qed.

Lemma in_existsb {A} (P : A -> bool) (a : A) (l : list A) :
  In a l -> P a = true -> existsb P l = true.
Proof. intros Hin Hp. apply existsb_exists. exists a. auto. Qed.

(** X19: a wallet import is requested only for the sender, with the reply
    exactly as it was typed (not trimmed), when the sender is in a live
    import state and the reply is 0x followed by 64 hex digits. *)
Theorem import_only_for_wellformed_key w x now from phone text sess p k :
  In (Flows.ImportWallet p k)
     (traceOf (handleStatefulMessage w x now from phone text sess)) ->
  p = phone /\ k = text /\ Flows.isPrivateKey text = true /\
  exists entry,
    userStates (Flows.base sess) !! phone = Some entry /\
    us_state entry = "IMPORTING_WALLET" /\
    now - us_timestamp entry <= Flows.fiveMinutes.
Proof.
  intros Hin.
  destruct (decide (toLowerCase (trim text) = "cancel")) as [Hc|Hc].
  { rewrite (stateful_cancel _ _ _ _ _ _ _ Hc) in Hin.
    destruct Hin as [H|[]]. discriminate. }
  destruct (userStates (Flows.base sess) !! phone) as [entry|] eqn:He.
  2:{ rewrite (stateful_none _ _ _ _ _ _ _ Hc He) in Hin.
      destruct Hin as [H|[]]. discriminate. }
  destruct (Z.lt_ge_cases Flows.fiveMinutes (now - us_timestamp entry)) as [Hold|Hf].
  { rewrite (stateful_stale _ _ _ _ _ _ _ _ Hc He Hold) in Hin.
    destruct Hin as [H|[]]. discriminate. }
  rewrite (stateful_fresh _ _ _ _ _ _ _ _ Hc He Hf) in Hin.
  destruct (decide (us_state entry = "IMPORTING_WALLET")) as [Hs|Hs].
  - revert Hin. unfold Flows.resume. rewrite (bool_decide_eq_true_2 _ Hs).
    unfold Flows.handlePrivateKeyInput, runTry, runBind, runAwait, Flows.say, runEmit,
      Flows.deleteFlow, runModify.
    destruct (Flows.isPrivateKey text) eqn:Hk; cbn.
    + destruct (Flows.importWallet x phone text) as [res|e]; cbn;
        [destruct (Flows.ir_success res); cbn|];
        intros Hin; repeat (destruct Hin as [Hin|Hin]; try discriminate Hin);
        try contradiction; injection Hin as <- <-; eauto 8.
    + intros [H|[]]. discriminate.
  - exfalso.
    assert (Hq : quiet isImport
                   (runTry (resume w x now from phone text (trim text) entry
                              (Flows.contactTargets sess !! phone))
                      (onError from phone))).
    { apply quiet_try; [apply resume_quiet_import; exact Hs | intros e; handlers; hush]. }
    exact (eq_true_false_abs _ (in_existsb isImport _ _ Hin eq_refl) (Hq sess)).
Qed.

(** X20: an administrator command never throws, and it changes the memory
    only when the one administrator sends /reset: then every conversation
    state and every pending record, of every user, is gone, and the reply
    tells how many there were.  From anybody else, and for any other
    command, the memory is exactly as before. *)
Theorem only_admin_reset_clears x from phone text sess :
  let r := handleAdminCommand x from phone text sess in
  snd r = Ok tt /\
  (finalOf r = sess \/
   (phone = "919489042245" /\ trim (toLowerCase text) = "/reset" /\
    userStates (Flows.base (finalOf r)) = ∅ /\
    pendingOf (finalOf r) = ∅ /\
    Flows.contactTargets (finalOf r) = ∅ /\
    traceOf r
    = [Flows.Say from
         (Flows.AdminReset (size (userStates (Flows.base sess))) (size (pendingOf sess)))])).
Proof.
  cbv zeta. unfold Flows.handleAdminCommand.
  destruct (bool_decide_reflect (phone ∈ Flows.adminNumbers)) as [Ha|Ha]; cbn [negb];
    [|split; [reflexivity|left; reflexivity]].
  apply list_elem_of_singleton in Ha.
  destruct (bool_decide_reflect (trim (toLowerCase text) = "/status")) as [Hs|Hs];
    [split; [reflexivity|left; reflexivity]|].
  destruct (bool_decide_reflect (trim (toLowerCase text) = "/reset")) as [Hr|Hr];
    [|split; [reflexivity|left; reflexivity]].
  split; [reflexivity|right]. repeat split; assumption.
Qed.

(** X21: [withdraw] submits either nothing (the token balance is zero or
    cannot be read) or one withdrawal of the whole token balance, never a
    part of it; and whatever happens it returns nothing, so that a caller
    cannot tell a withdrawal from a failure. *)
Theorem withdraw_all_or_nothing c sess :
  exists submitted,
    Flows.withdraw c sess = (sess, submitted, Ok None) /\
    (submitted = [] /\ (Flows.zappoBalanceOf c = Ok 0 \/
                        exists e, Flows.zappoBalanceOf c = Throw e) \/
     exists balance,
       Flows.zappoBalanceOf c = Ok balance /\ balance <> 0 /\
       submitted = [Flows.WithdrawTx balance]).
Proof.
  unfold Flows.withdraw, runTry, runBind, runAwait.
  destruct (Flows.zappoBalanceOf c) as [b|e] eqn:Hb; cbn.
  - destruct (Z.eqb_spec b 0) as [->|Hz]; cbn.
    + eexists. split; [reflexivity|]. left. auto.
    + destruct (Flows.zappoWithdraw c b) as [h|e]; cbn;
        [destruct (Flows.withdrawWait c) as [[]|e]; cbn|];
        (eexists; split; [reflexivity|]; right; exists b; auto).
  - eexists. split; [reflexivity|]. left. eauto.
Qed.

Lemma handleSend_start w now from phone parameters s :
  findUserByPhone w phone = Ok true ->
  CommandHandler.requestOf parseSendParameters parameters = CommandHandler.StartFlow ->
  stateOf (handleSend w now from phone parameters s)
  = Flows.withUserStates
      (insert phone {| us_state := "AWAITING_CONTACT_FOR_SEND";
                       us_recipientPhone := None;
                       us_timestamp := now |}) s.
Proof.
  intros H Hreq. unfold CommandHandler.handleSendTransaction, tryCatch, bind, await.
  cbn -[TransactionHandler.handleSendTransaction]. rewrite H.
  cbn -[TransactionHandler.handleSendTransaction]. rewrite Hreq. reflexivity.
Qed.

(** X22: the step-by-step send.  After a bare send request, a reply naming
    the contact and a second reply with a valid amount, the handler
    prepares a send of that amount to the number as it was typed (trimmed),
    with no address: the request the one-line command would have made.
    The conversation state written on the way is consumed. *)
Theorem step_by_step_send w x t0 t1 t2 from phone parameters contact text sess :
  findUserByPhone w phone = Ok true ->
  CommandHandler.requestOf parseSendParameters parameters = CommandHandler.StartFlow ->
  toLowerCase (trim contact) <> "cancel" ->
  toLowerCase (trim text) <> "cancel" ->
  t1 - t0 <= Flows.fiveMinutes ->
  t2 - t1 <= Flows.fiveMinutes ->
  Flows.validAmount (parseFloatStr (trim text)) = true ->
  let asked :=
    {| Flows.base := stateOf (handleSend w t0 from phone parameters (Flows.base sess));
       Flows.contactTargets := delete phone (Flows.contactTargets sess) |} in
  let named := finalOf (handleStatefulMessage w x t1 from phone contact asked) in
  userStates (Flows.base named) !! phone
  = Some {| us_state := "AWAITING_AMOUNT_FOR_SEND";
            us_recipientPhone := Some (trim contact);
            us_timestamp := t1 |} /\
  handleStatefulMessage w x t2 from phone text named
  = Flows.core
      (handleSend w t2 from phone
         {| CommandHandler.p_amount := JNum (parseFloatStr (trim text));
            CommandHandler.p_recipient := None;
            CommandHandler.p_recipientPhone := Some (trim contact);
            CommandHandler.p_name := Some (trim contact);
            CommandHandler.p_args := None;
            CommandHandler.p_intent := None |})
      (Flows.forgetFlow phone sess).
Proof.
  intros Hu Hreq Hc1 Hc2 Hf1 Hf2 Hv asked named.
  assert (Hn : named
               = {| Flows.base :=
                      Flows.withUserStates
                        (insert phone {| us_state := "AWAITING_AMOUNT_FOR_SEND";
                                         us_recipientPhone := Some (trim contact);
                                         us_timestamp := t1 |})
                        (Flows.base asked);
                    Flows.contactTargets := delete phone (Flows.contactTargets asked) |}).
  { subst named asked. rewrite (handleSend_start _ _ _ _ _ _ Hu Hreq).
    erewrite stateful_fresh; [| exact Hc1 | apply lookup_insert_eq | exact Hf1].
    unfold Flows.resume. cbn [us_state]. names. reflexivity. }
  rewrite Hn. clear Hn named. subst asked. rewrite (handleSend_start _ _ _ _ _ _ Hu Hreq).
  cbn [Flows.base Flows.contactTargets].
  split; [apply lookup_insert_eq|].
  erewrite stateful_fresh; [| exact Hc2 | apply lookup_insert_eq | exact Hf2].
  rewrite resume_sends; [| exact Hv | cbn; tauto].
  cbn [us_state us_recipientPhone]. names.
  rewrite !forget_after_flow. reflexivity.
Qed.

End Conversation.

(** X23: [deposit] of connections.js submits to the chain in one of three
    ways only.  Nothing, when the amount cannot be converted, the USDC
    balance cannot be read or is below the amount, or the allowance cannot
    be read.  An approval alone, when the allowance is below the amount and
    the approval fails: the deposit is then not submitted.  Or the deposit
    of the converted amount, once, preceded by an approval of exactly that
    amount when, and only when, the allowance is below it.  Whatever
    happens the call returns nothing and leaves the handler's state
    alone. *)
Theorem deposit_submits_in_order c amount s :
  exists submitted,
    Connections.deposit c amount s = (s, submitted, Ok None) /\
    (submitted = [] /\
     (forall wei balance allowance,
        parseUnits c amount = Ok wei -> usdcBalanceOf c = Ok balance ->
        usdcAllowance c = Ok allowance -> balance < wei) \/
     exists wei balance allowance,
       parseUnits c amount = Ok wei /\ usdcBalanceOf c = Ok balance /\
       usdcAllowance c = Ok allowance /\ wei <= balance /\
       (submitted = [EvApprove wei] /\ allowance < wei /\
        (exists e, usdcApprove c wei = Throw e) \/
        submitted
        = (if allowance <? wei then [EvApprove wei] else []) ++ [EvDepositTx wei])).
Proof.
  unfold Connections.deposit, tryCatch, bind, await, when, emit, throw, ret.
  destruct (parseUnits c amount) as [wei|e1]; cbn;
    [|eexists; split; [reflexivity|left; split; [reflexivity|discriminate]]].
  destruct (usdcBalanceOf c) as [balance|e2]; cbn;
    [|eexists; split; [reflexivity|left; split; [reflexivity|discriminate]]].
  destruct (Z.ltb_spec balance wei) as [Hlow|Hok]; cbn.
  { eexists; split; [reflexivity|left; split; [reflexivity|]].
    intros ? ? ? [= <-] [= <-] _. exact Hlow. }
  destruct (usdcAllowance c) as [allowance|e3]; cbn;
    [|eexists; split; [reflexivity|left; split; [reflexivity|discriminate]]].
  destruct (Z.ltb_spec allowance wei) as [Hneed|Hhave]; cbn.
  - destruct (usdcApprove c wei) as [[]|e4] eqn:Ha; cbn.
    + destruct (zappoDeposit c wei) as [hash|e5]; cbn;
        [destruct (depositWait c) as [[]|e6]; cbn|];
        (eexists; split; [reflexivity|right; exists wei, balance, allowance;
          repeat split; try assumption; right;
          rewrite (proj2 (Z.ltb_lt _ _) Hneed); reflexivity]).
    + eexists; split; [reflexivity|right; exists wei, balance, allowance].
      repeat split; try assumption. left. repeat split; eauto.
  - destruct (zappoDeposit c wei) as [hash|e5]; cbn;
      [destruct (depositWait c) as [[]|e6]; cbn|];
      (eexists; split; [reflexivity|right; exists wei, balance, allowance;
        repeat split; try assumption; right;
        rewrite (proj2 (Z.ltb_ge _ _) Hhave); reflexivity]).
Qed.

(** ** The vault contract *)

Lemma sumOf_insert_fresh (m : gmap Zappo.address Z) k v :
  m !! k = None -> Zappo.sumOf (<[k := v]> m) = v + Zappo.sumOf m.
Proof.
  intros H. unfold Zappo.sumOf. apply (map_fold_insert_L (fun _ v acc => v + acc)); [|exact H].
  intros. lia.
Qed.

Lemma sumOf_insert (m : gmap Zappo.address Z) k v :
  Zappo.sumOf (<[k := v]> m) = Zappo.sumOf m - Zappo.at_ m k + v.
Proof.
  unfold Zappo.at_. destruct (m !! k) as [old|] eqn:H; cbn.
  - rewrite <- (insert_delete_eq m k v).
    rewrite <- (insert_delete_id m k old H) at 2.
    rewrite !sumOf_insert_fresh by apply lookup_delete_eq. lia.
  - rewrite sumOf_insert_fresh by exact H. lia.
Qed.

Lemma sumOf_nonneg (m : gmap Zappo.address Z) :
  (forall a, 0 <= Zappo.at_ m a) -> 0 <= Zappo.sumOf m.
Proof.
  induction m as [|k v m Hk IH] using map_ind; intros H.
  - reflexivity.
  - rewrite sumOf_insert_fresh by exact Hk.
    pose proof (H k) as Hv. unfold Zappo.at_ in Hv. rewrite lookup_insert_eq in Hv. cbn in Hv.
    assert (0 <= Zappo.sumOf m); [|lia].
    apply IH. intros a. specialize (H a). unfold Zappo.at_ in *.
    destruct (decide (k = a)) as [<-|Hne].
    + rewrite Hk. reflexivity.
    + rewrite lookup_insert_ne in H by exact Hne. exact H.
Qed.

Lemma at_insert (m : gmap Zappo.address Z) k v a :
  Zappo.at_ (<[k := v]> m) a = if decide (k = a) then v else Zappo.at_ m a.
Proof.
  unfold Zappo.at_. destruct (decide (k = a)) as [->|H].
  - rewrite lookup_insert_eq. reflexivity.
  - rewrite lookup_insert_ne by exact H. reflexivity.
Qed.

Lemma calculateTier_range amount : 1 <= Zappo.calculateTier amount <= 5.
Proof. unfold Zappo.calculateTier. repeat case_match; lia. Qed.

Ltac txunfold H :=
  unfold Zappo.activateAave, Zappo.supplyToAave, Zappo.deposit, Zappo.withdrawFromAave,
    Zappo.withdraw, Zappo.updateAaveAPY, Zappo.emergencyWithdraw, Zappo.creditAave,
    Zappo.debitAave, Zappo.onlyOwner, Zappo.require, Zappo.call, Zappo.emit, Zappo.read,
    Zappo.write, Zappo.add, Zappo.sub, Zappo.mul, Zappo.txBind, Zappo.txRet, Zappo.revert
    in H.

(** One test of a transaction that has a known outcome. *)
Ltac txstep H :=
  match type of H with
  | context [if ?b then _ else _] =>
      lazymatch b with
      | context [if _ then _ else _] => fail
      | context [match _ with _ => _ end] => fail
      | _ => let E := fresh "E" in destruct b eqn:E
      end
  end;
  cbn beta iota in H; try discriminate H.

Ltac txrun H := txunfold H; cbn beta iota in H; repeat txstep H.

Ltac tests :=
  rewrite ?Z.leb_le, ?Z.leb_gt, ?Z.ltb_lt, ?Z.ltb_ge, ?andb_true_iff, ?andb_false_iff in *.

Lemma history_snoc calls c :
  Zappo.history (calls ++ [c]) = Zappo.step (Zappo.history calls) c.
Proof. unfold Zappo.history. rewrite fold_left_app. reflexivity. Qed.

Lemma step_keeps_positions st c : positionsAddUp st -> positionsAddUp (Zappo.step st c).
Proof.
  intros [Hsum Hpos]. destruct c as [env op]. unfold Zappo.step. cbn [fst snd].
  destruct op as [|n|n|n|n|n|];
    match goal with
    | |- positionsAddUp (Zappo.storageAfter (?m st) st) =>
        destruct (m st) as [st' effects v|why] eqn:Hm; cbn [Zappo.storageAfter];
        [|split; assumption]
    end;
    txrun Hm; injection Hm as <- <- <-; tests.
  all: unfold positionsAddUp; cbn; split;
    [ rewrite ?sumOf_insert; lia
    | intros a; rewrite ?at_insert; try case_decide; subst;
      first [ apply Hpos | pose proof (Hpos (Zappo.sender env)); lia ] ].
Qed.

Lemma step_keeps_tiers st c : tiersFollow st -> tiersFollow (Zappo.step st c).
Proof.
  intros Ht. destruct c as [env op]. unfold Zappo.step. cbn [fst snd].
  destruct op as [|n|n|n|n|n|];
    match goal with
    | |- tiersFollow (Zappo.storageAfter (?m st) st) =>
        destruct (m st) as [st' effects v|why] eqn:Hm; cbn [Zappo.storageAfter];
        [|assumption]
    end;
    txrun Hm; injection Hm as <- <- <-; tests.
  all: unfold tiersFollow; cbn; try exact Ht.
  all: intros a t; rewrite ?at_insert;
    destruct (decide (Zappo.sender env = a)) as [<-|Hne];
    [ rewrite lookup_insert_eq; intros [= <-]; rewrite ?decide_True by reflexivity;
      reflexivity
    | rewrite lookup_insert_ne by exact Hne; apply Ht ].
Qed.

Lemma history_positions calls : positionsAddUp (Zappo.history calls).
Proof.
  induction calls as [|c calls IH] using rev_ind.
  - split; [reflexivity|]. intros a. reflexivity.
  - rewrite history_snoc. apply step_keeps_positions. exact IH.
Qed.

(** X24: along every history of calls to the contract, from its
    construction, the total the contract records as lent out is the sum of
    the users' recorded positions, and no position is negative: the two
    subtractions of a withdrawal can never underflow on their own. *)
Theorem aave_total_is_sum_of_positions calls :
  Zappo.totalInAave (Zappo.history calls)
  = Zappo.sumOf (Zappo.userAaveBalance (Zappo.history calls)) /\
  forall a, 0 <= Zappo.at_ (Zappo.userAaveBalance (Zappo.history calls)) a.
Proof. exact (history_positions calls). Qed.

(** X25: along every history, a tier the contract has recorded for an
    account is the tier of the deposits it records for that account, a
    number from 1 to 5; an account it has recorded nothing for reads as
    tier 0. *)
Theorem tiers_follow_deposits calls a :
  let st := Zappo.history calls in
  match Zappo.userTiers st !! a with
  | Some t => t = Zappo.calculateTier (Zappo.at_ (Zappo.userDeposits st) a) /\ 1 <= t <= 5
  | None => Zappo.at_ (Zappo.userTiers st) a = 0
  end.
Proof.
  cbv zeta.
  assert (H : tiersFollow (Zappo.history calls)).
  { induction calls as [|c calls IH] using rev_ind.
    - intros b t. cbn. rewrite lookup_empty. discriminate.
    - rewrite history_snoc. apply step_keeps_tiers. exact IH. }
  destruct (Zappo.userTiers (Zappo.history calls) !! a) as [t|] eqn:Ht.
  - rewrite (H a t Ht). split; [reflexivity|apply calculateTier_range].
  - unfold Zappo.at_. rewrite Ht. reflexivity.
Qed.

Lemma withdrawFromAave_done env amount st st' effects txHash yieldEarned :
  Zappo.withdrawFromAave env amount st = Zappo.Done st' effects (txHash, yieldEarned) ->
  let payout :=
    Z.min (amount + amount * 200 / 10000) (Zappo.usdcBalanceOf env (Zappo.this env)) in
  List.filter Zappo.isCall effects
  = [Zappo.Called (Zappo.UsdcTransfer (Zappo.sender env) payout)] /\
  yieldEarned = Z.max 0 (payout - amount) /\
  Zappo.at_ (Zappo.userAaveBalance st') (Zappo.sender env)
  = Zappo.at_ (Zappo.userAaveBalance st) (Zappo.sender env) - amount /\
  Zappo.totalInAave st' = Zappo.totalInAave st - amount /\
  0 < amount <= Zappo.at_ (Zappo.userAaveBalance st) (Zappo.sender env).
Proof.
  intros H payout. subst payout. txrun H; injection H as <- <- <- <-; tests.
  all: cbn; rewrite ?at_insert, ?decide_True by reflexivity.
  all: assert (0 <= amount * 200 / 10000) by (apply Z.div_pos; lia).
  all: repeat split; try lia; try (repeat f_equal; lia).
Qed.

(** X26: a withdrawal from the lending position that goes through pays
    the caller once: the amount plus 2% of it, cut down to what the
    contract holds in USDC.  The yield it returns is what the payment
    exceeds the amount by, and zero when the payment is below it.  The
    position and the recorded total go down by the whole amount even when
    less is paid, and no ZAPPO token is burnt for it. *)
Theorem aave_withdrawal_pays_capped env amount st st' effects txHash yieldEarned :
  Zappo.withdrawFromAave env amount st = Zappo.Done st' effects (txHash, yieldEarned) ->
  let payout :=
    Z.min (amount + amount * 200 / 10000) (Zappo.usdcBalanceOf env (Zappo.this env)) in
  List.filter Zappo.isCall effects
  = [Zappo.Called (Zappo.UsdcTransfer (Zappo.sender env) payout)] /\
  yieldEarned = Z.max 0 (payout - amount) /\
  Zappo.at_ (Zappo.userAaveBalance st') (Zappo.sender env)
  = Zappo.at_ (Zappo.userAaveBalance st) (Zappo.sender env) - amount /\
  Zappo.totalInAave st' = Zappo.totalInAave st - amount /\
  0 < amount <= Zappo.at_ (Zappo.userAaveBalance st) (Zappo.sender env).
Proof. apply withdrawFromAave_done. Qed.

(** X27: a token withdrawal that goes through burns the whole token
    amount and then pays once: the amount, plus 1.5% when lending is
    active and the caller's position covers the amount, cut down to what
    the contract holds.  The payment can therefore be smaller than the
    tokens burnt, and the yield is announced in full whenever it is above
    zero, also when the cut left nothing of it.  The recorded total goes
    down by the tokens burnt and the caller's tier is set from the recorded
    deposits. *)
Theorem withdraw_burns_all_pays_at_most_balance env tokenAmount st st' effects txHash :
  Zappo.withdraw env tokenAmount st = Zappo.Done st' effects txHash ->
  let fromAave :=
    Zappo.aaveActive st
    && (tokenAmount <=? Zappo.at_ (Zappo.userAaveBalance st) (Zappo.sender env)) in
  let earnedYield := if fromAave then tokenAmount * 150 / 10000 else 0 in
  let payout :=
    Z.min (tokenAmount + earnedYield) (Zappo.usdcBalanceOf env (Zappo.this env)) in
  List.filter Zappo.isCall effects
  = [Zappo.Called (Zappo.Burn (Zappo.sender env) tokenAmount);
     Zappo.Called (Zappo.UsdcTransfer (Zappo.sender env) payout)] /\
  (In (Zappo.Emitted (Zappo.YieldEarned (Zappo.sender env) earnedYield)) effects
   <-> 0 < earnedYield) /\
  Zappo.totalDeposited st' = Zappo.totalDeposited st - tokenAmount /\
  Zappo.userTiers st' !! Zappo.sender env
  = Some (Zappo.calculateTier (Zappo.at_ (Zappo.userDeposits st') (Zappo.sender env))) /\
  0 < tokenAmount <= Zappo.balanceOf env (Zappo.sender env).
Proof.
  intros H fromAave earnedYield payout. subst fromAave earnedYield payout.
  txrun H; injection H as <- <- <-.
  all: rewrite ?E1, ?E2; cbn [andb]; tests.
  all: split; [cbn; repeat f_equal; lia|].
  all: split;
    [ split;
      [ intros Hin; cbn in Hin;
        repeat (destruct Hin as [Hin|Hin]; try discriminate Hin); try contradiction; lia
      | intros Hy; cbn; try lia; tauto ]
    | ].
  all: cbn; rewrite ?lookup_insert_eq; repeat split; try reflexivity; lia.
Qed.

Lemma hashesOf_push (m : gmap Zappo.address (list Z)) a h :
  Zappo.hashesOf (<[a := Zappo.hashesOf m a ++ [h]]> m) a = Zappo.hashesOf m a ++ [h].
Proof. unfold Zappo.hashesOf at 1. rewrite lookup_insert_eq. reflexivity. Qed.

(** X28: a deposit that goes through pulls the amount in USDC from the
    caller and mints the same number of tokens, and nothing else is called.
    What [getUserInfo] then reports for the caller is the deposit: the
    recorded deposits are up by the amount, the tier is the tier of the new
    total, there is one more transaction, and the latest transaction hash
    is the hash the deposit returned.  With lending active the caller's
    lending position is up by the amount as well. *)
Theorem deposit_is_recorded env view amount st st' effects txHash :
  Zappo.deposit env amount st = Zappo.Done st' effects txHash ->
  let who := Zappo.sender env in
  let before := Zappo.getUserInfo view who st in
  let after := Zappo.getUserInfo view who st' in
  List.filter Zappo.isCall effects
  = [Zappo.Called (Zappo.UsdcTransferFrom who (Zappo.this env) amount);
     Zappo.Called (Zappo.Mint who amount)] /\
  Zappo.totalDeposited_ after = Zappo.totalDeposited_ before + amount /\
  Zappo.tier after = Zappo.calculateTier (Zappo.totalDeposited_ after) /\
  Zappo.transactionCount after = Zappo.transactionCount before + 1 /\
  Zappo.latestTxHash after = txHash /\
  Zappo.aaveBalance after
  = Zappo.aaveBalance before + (if Zappo.aaveActive st then amount else 0) /\
  Zappo.totalDeposited st' = Zappo.totalDeposited st + amount /\
  0 < amount <= Zappo.usdcBalanceOf env who /\
  amount <= Zappo.usdcAllowance env who (Zappo.this env).
Proof.
  intros H who before after. subst who before after.
  txrun H; injection H as <- <- <-; tests.
  all: unfold Zappo.getUserInfo; cbn;
    rewrite ?at_insert, ?decide_True, ?hashesOf_push, ?length_app, ?last_last by reflexivity;
    cbn [length].
  all: repeat split; try reflexivity; try lia.
  all: destruct (Z.ltb_spec 0 (Z.of_nat (length (Zappo.hashesOf
         (Zappo.userTransactionHashes st) (Zappo.sender env)) + 1)%nat)); [reflexivity|lia].
Qed.

(** X29: a deposit made while lending is active can be taken back without
    giving up the tokens it minted.  After such a deposit the caller's
    lending position covers the amount, so a withdrawal of the amount from
    the lending position goes through (when the USDC transfer does and the
    2% fit a word): it pays the amount plus 2%, cut down to what the
    contract holds, and burns nothing, so that the tokens the deposit
    minted are still the caller's. *)
Theorem lending_withdrawal_keeps_tokens calls env later amount st1 effects1 txHash1 :
  let st := Zappo.history calls in
  let who := Zappo.sender env in
  let payout :=
    Z.min (amount + amount * 200 / 10000) (Zappo.usdcBalanceOf later (Zappo.this later)) in
  Zappo.aaveActive st = true ->
  Zappo.deposit env amount st = Zappo.Done st1 effects1 txHash1 ->
  Zappo.sender later = who ->
  amount + amount * 200 <= Zappo.maxUint ->
  Zappo.goesThrough later (Zappo.UsdcTransfer who payout) = true ->
  exists st2 effects2 txHash2,
    Zappo.withdrawFromAave later amount st1
    = Zappo.Done st2 effects2 (txHash2, Z.max 0 (payout - amount)) /\
    List.filter Zappo.isCall (effects1 ++ effects2)
    = [Zappo.Called (Zappo.UsdcTransferFrom who (Zappo.this env) amount);
       Zappo.Called (Zappo.Mint who amount);
       Zappo.Called (Zappo.UsdcTransfer who payout)] /\
    Zappo.at_ (Zappo.userAaveBalance st2) who = Zappo.at_ (Zappo.userAaveBalance st) who /\
    Zappo.totalInAave st2 = Zappo.totalInAave st.
Proof.
  intros st who payout Hact Hdep Hwho Hfit Hgo. subst who payout.
  destruct (history_positions calls) as [Hsum Hpos]. fold st in Hsum, Hpos.
  pose proof (Hpos (Zappo.sender env)) as Hp.
  assert (Htot : 0 <= Zappo.totalInAave st).
  { rewrite Hsum. apply sumOf_nonneg. exact Hpos. }
  txrun Hdep; injection Hdep as Hst Heff Hh; tests; try congruence.
  destruct (Zappo.withdrawFromAave later amount st1) as [st2 effects2 [txHash2 y]|why] eqn:H2;
    subst st1 effects1 txHash1.
  - exists st2, effects2, txHash2.
    destruct (withdrawFromAave_done _ _ _ _ _ _ _ H2) as (Hcalls & Hy & Hposn & Htotal & _).
    rewrite Hwho in *. subst y. split; [reflexivity|].
    rewrite List.filter_app, Hcalls, Hposn, Htotal. cbn.
    rewrite at_insert, decide_True by reflexivity. repeat split; lia.
  - exfalso. assert (0 <= amount * 200 / 10000) by (apply Z.div_pos; lia).
    assert (amount * 200 / 10000 <= amount * 200) by (apply Z.div_le_upper_bound; lia).
    txrun H2; cbn in *; rewrite ?Hwho, ?at_insert, ?decide_True in * by reflexivity;
      tests; try lia.
    all: first [rewrite Z.min_r in Hgo by lia | rewrite Z.min_l in Hgo by lia]; congruence.
Qed.

(** ** The function mapper *)

Lemma matchHere_starts_with_backslash s found :
  FunctionMapper.matchHere s = Some found -> exists rest, found = String "\" rest.
Proof.
  unfold FunctionMapper.matchHere. intros H.
  repeat (case_match; try discriminate). injection H as <-. eauto.
Qed.

Lemma firstMatch_starts_with_backslash s found :
  FunctionMapper.firstMatch s = Some found -> exists rest, found = String "\" rest.
Proof.
  induction s as [|c s IH].
  - cbn. discriminate.
  - change (FunctionMapper.firstMatch (String c s))
      with (match FunctionMapper.matchHere (String c s) with
            | Some m => Some m
            | None => FunctionMapper.firstMatch s
            end).
    destruct (FunctionMapper.matchHere (String c s)) as [m|] eqn:Hm.
    + intros [= ->]. exact (matchHere_starts_with_backslash _ _ Hm).
    + exact IH.
Qed.

Section Mapper.
Variable jsonParse : string -> result FunctionMapper.AiData.
Variable deliver : string -> FunctionMapper.Text -> result unit.
Variable handleBalanceCheck handleSendETH handleCreateWallet handleHelp :
  string -> FunctionMapper.AiData -> string -> Run unit (string * FunctionMapper.Text) unit.

(** X30: whatever the AI answers, [parseAIResponse] returns the general
    chat fallback that carries the answer as it is: the pattern it
    searches for begins with a backslash, so what it finds is never a JSON
    text, and what it does not find is not parsed.  [executeAIIntent]
    therefore never reaches the balance, send, wallet or help handlers: it
    sends the answer itself (a default text when the answer is empty or
    missing). *)
Theorem ai_answer_is_always_general_chat jid content userPhone :
  (forall rest, exists e, jsonParse (String "\" rest) = Throw e) ->
  FunctionMapper.parseAIResponse jsonParse content = FunctionMapper.generalChat content /\
  FunctionMapper.executeAIIntent jsonParse deliver handleBalanceCheck handleSendETH
    handleCreateWallet handleHelp jid content userPhone
  = runTry
      (FunctionMapper.send deliver jid
         (match content with
          | Some text =>
              if nonEmpty text then FunctionMapper.Reply text
              else FunctionMapper.DefaultReply
          | None => FunctionMapper.DefaultReply
          end))
      (fun _ => FunctionMapper.send deliver jid FunctionMapper.Hiccup).
Proof.
  intros Hjson.
  assert (Hp : FunctionMapper.parseAIResponse jsonParse content
               = FunctionMapper.generalChat content).
  { unfold FunctionMapper.parseAIResponse. destruct content as [text|]; [|reflexivity].
    destruct (FunctionMapper.firstMatch text) as [found|] eqn:Hf; [|reflexivity].
    destruct (firstMatch_starts_with_backslash _ _ Hf) as [rest ->].
    destruct (Hjson rest) as [e ->]. reflexivity. }
  split; [exact Hp|].
  unfold FunctionMapper.executeAIIntent. rewrite Hp. cbn [FunctionMapper.intent
    FunctionMapper.generalChat]. names. reflexivity.
Qed.

End Mapper.

(** ** The flows, the vault and the mapper at concrete inputs *)

Lemma confirmation_asked_witness :
  exists wallet data,
    getUserWallet (Scenario.world "1.0") "911" = Ok (Some wallet) /\
    le 0.5 (Js.parseFloat Scenario.parseDecimal (balance wallet)) = true /\
    le (0.5 + 0.0001) (Js.parseFloat Scenario.parseDecimal (balance wallet)) = true /\
    pendingTransactions
      (stateOf (TransactionHandler.handleSendTransaction Scenario.parseDecimal
                  (Scenario.world "1.0") 0 "911@s.whatsapp.net" "911"
                  (Scenario.sendTo "0.5" "922") Scenario.empty)) !! "911"
    = Some (SendTransaction data (Scenario.sendTo "0.5" "922") 0) /\
    td_shouldCreateClaimLink data = true.
Proof.
  destruct (confirmation_asked_only_when_affordable Scenario.parseDecimal
              (Scenario.world "1.0") 0 "911@s.whatsapp.net" "911"
              (Scenario.sendTo "0.5" "922") Scenario.empty 0.5 (Some "922") 0.0001
              (0.5 + 0.0001)%float true)
    as (wallet & data & Hw & _ & _ & _ & _ & _ & _ & _ & Hl1 & Hl2 & Hp & _ & _ & _ & _ & Hc).
  - vm_compute. left. reflexivity.
  - exists wallet, data. cbv zeta in Hl1, Hl2.
    assert (Hb : balance wallet = JStr "1.0").
    { vm_compute in Hw. injection Hw as <-. reflexivity. }
    rewrite Hb in *.
    split; [exact Hw|]. split; [apply Hl1; run|]. split; [apply Hl2; run|]. auto.
Defined.

Lemma known_recipient_witness :
  exists data,
    pendingTransactions
      (stateOf (TransactionHandler.handleSendTransaction Scenario.parseDecimal
                  (Cases.worldWith "1.0" Cases.twoWallets Cases.gasOk (Ok Scenario.okTx)
                     (Ok Scenario.okTx))
                  0 "911@s.whatsapp.net" "911" (Scenario.sendTo "0.1" "933")
                  Scenario.empty)) !! "911"
    = Some (SendTransaction data (Scenario.sendTo "0.1" "933") 0) /\
    td_to data = Some "0xC0FFEE" /\
    td_recipientPhone data = None.
Proof.
  destruct (known_recipient_is_direct_transfer Scenario.parseDecimal
              (Cases.worldWith "1.0" Cases.twoWallets Cases.gasOk (Ok Scenario.okTx)
                 (Ok Scenario.okTx))
              0 "911@s.whatsapp.net" "911" (Scenario.sendTo "0.1" "933") Scenario.empty
              {| address := "0xA11CE"; balance := JStr "1.0" |}
              {| estimatedCost := JStr "0.0001" |} "933"
              {| address := "0xC0FFEE"; balance := JStr "0.5" |})
    as (data & Hp & _ & Hto & Hrp & _); try run.
  exists data. auto.
Defined.

Lemma oracle_failure_witness :
  TransactionHandler.handleSendTransaction Scenario.parseDecimal
    (Cases.worldWith "1.0" Cases.twoWallets (Throw (External "gas oracle down"))
       (Ok Scenario.okTx) (Ok Scenario.okTx))
    0 "911@s.whatsapp.net" "911" (Scenario.sendTo "0.1" "933") Scenario.empty
  = (Scenario.empty,
     [EvSend "911@s.whatsapp.net" (PreparationFailed (External "gas oracle down"))],
     Ok tt).
Proof.
  apply (oracle_failure_ends_preparation Scenario.parseDecimal
           (Cases.worldWith "1.0" Cases.twoWallets (Throw (External "gas oracle down"))
              (Ok Scenario.okTx) (Ok Scenario.okTx))
           0 "911@s.whatsapp.net" "911" (Scenario.sendTo "0.1" "933") Scenario.empty
           {| address := "0xA11CE"; balance := JStr "1.0" |});
    try run.
  intros rp. eexists. reflexivity.
Defined.

Lemma direct_transfer_witness :
  TransactionHandler.executePendingTransaction Scenario.parseDecimal
    (Cases.worldWith "1.0" Cases.twoWallets Cases.gasOk (Ok Scenario.okTx)
       (Throw (External "nonce too low")))
    "911@s.whatsapp.net" "911" Cases.directData (Scenario.sendTo "0.1" "933")
    Scenario.empty
  = (Scenario.empty,
     [EvCall HExecutePendingTransaction;
      EvSendTransaction "911" (Some "0xC0FFEE") 0.1;
      EvSend "911@s.whatsapp.net" (ExecutionFailed TransactionFailed)],
     Ok tt).
Proof.
  apply (direct_transfer_submitted_once Scenario.parseDecimal
           (Cases.worldWith "1.0" Cases.twoWallets Cases.gasOk (Ok Scenario.okTx)
              (Throw (External "nonce too low")))
           "911@s.whatsapp.net" "911" Cases.directData (Scenario.sendTo "0.1" "933")
           Scenario.empty {| address := "0xA11CE"; balance := JStr "1.0" |} "911"
           (Throw (External "nonce too low"))); run.
Defined.

Lemma refused_claim_link_witness :
  TransactionHandler.executePendingTransaction Scenario.parseDecimal
    (Cases.worldWith "1.0" Cases.twoWallets Cases.gasOk (Ok Cases.refusedLink)
       (Ok Scenario.okTx))
    "911@s.whatsapp.net" "911" Cases.escrowData (Scenario.sendTo "0.1" "922")
    Scenario.empty
  = (Scenario.empty,
     [EvCall HExecutePendingTransaction;
      EvCreateClaimLink "911" (Some "922") 0.1
        (TransactionHandler.displayName (Scenario.sendTo "0.1" "922"));
      EvSend "911@s.whatsapp.net"
        (ExecutionFailed (ClaimLinkFailed (Some "escrow transfer failed")))],
     Ok tt).
Proof.
  apply (refused_claim_link_reported Scenario.parseDecimal
           (Cases.worldWith "1.0" Cases.twoWallets Cases.gasOk (Ok Cases.refusedLink)
              (Ok Scenario.okTx))
           "911@s.whatsapp.net" "911" Cases.escrowData (Scenario.sendTo "0.1" "922")
           Scenario.empty {| address := "0xA11CE"; balance := JStr "1.0" |}
           Cases.refusedLink); run.
Defined.

Lemma funds_move_witness :
  Scenario.isYes "yes" = Ok true /\
  exists tx,
    pendingTransactions
      (Scenario.withPending "911"
         (SendTransaction Cases.directData (Scenario.sendTo "0.1" "933") 0)) !! "911"
    = Some tx.
Proof.
  apply (funds_move_only_on_confirmation Scenario.parseDecimal Scenario.isYes Scenario.isNo
           (Cases.worldWith "1.0" Cases.twoWallets Cases.gasOk (Ok Scenario.okTx)
              (Ok Scenario.okTx))
           "911@s.whatsapp.net" "911" "yes"
           (Scenario.withPending "911"
              (SendTransaction Cases.directData (Scenario.sendTo "0.1" "933") 0))).
  run.
Defined.

Lemma cancellation_witness :
  let s := Scenario.withPending "911" (UsdcSwap 1 1 0) in
  let r :=
    CommandHandler.handleTransactionConfirmation Scenario.parseDecimal Scenario.isYes
      Scenario.isNo (Scenario.world "1.0") "911@s.whatsapp.net" "911" "no" s in
  stateOf r = forget "911" s /\
  eventsOf r
  = [EvCall HTransactionConfirmation;
     EvSend "911@s.whatsapp.net" (CommandHandler.cancelledMessage (UsdcSwap 1 1 0))] /\
  dispatchCount (eventsOf r) = 0%nat /\
  eventsOf (CommandHandler.handleTransactionConfirmation Scenario.parseDecimal
              Scenario.isYes Scenario.isNo (Scenario.world "1.0") "911@s.whatsapp.net"
              "911" "yes" (stateOf r))
  = [EvCall HTransactionConfirmation; EvSend "911@s.whatsapp.net" NoPendingFound].
Proof.
  apply (cancellation_consumes_record Scenario.parseDecimal Scenario.isYes Scenario.isNo
           (Scenario.world "1.0") (Scenario.world "1.0") "911@s.whatsapp.net" "911" "no"
           "yes" (Scenario.withPending "911" (UsdcSwap 1 1 0)) (UsdcSwap 1 1 0)); run.
Defined.

Lemma address_only_witness :
  exists data sp,
    pendingTransactions
      (stateOf (CommandHandler.handleSendTransaction Scenario.parseDecimal
                  (Scenario.validateAmount Scenario.parseDecimal) Scenario.noArgs
                  (Scenario.world "1.0") 7 "911@s.whatsapp.net" "911" Cases.toAddress
                  Scenario.empty)) !! "911"
    = Some (SendTransaction data sp 7) /\
    recipient sp = Some "0xB0B" /\
    td_to data = None /\
    td_recipientPhone data = None /\
    td_shouldCreateClaimLink data = false.
Proof.
  destruct (address_only_request_has_no_destination Scenario.parseDecimal
              (Scenario.validateAmount Scenario.parseDecimal) Scenario.noArgs
              (Scenario.world "1.0") 7 "911@s.whatsapp.net" "911" Cases.toAddress
              Scenario.empty {| address := "0xA11CE"; balance := JStr "1.0" |}
              {| estimatedCost := JStr "0.0001" |} "0xB0B")
    as (data & sp & Hp & Hr & Hto & Hrp & Hc & _); try run.
  exists data, sp. auto.
Defined.

Lemma swap_outcome_witness :
  CommandHandler.executeUSDCSwap (Scenario.world "1.0") "911@s.whatsapp.net" "911" 1 1
    Scenario.empty
  = (Scenario.empty,
     [EvCall HExecuteUSDCSwap; EvSend "911@s.whatsapp.net" (ProcessingSwap 1); EvSwap 1;
      EvSend "911@s.whatsapp.net" (SwapSuccessful 1 (Some "0x5a"))],
     Ok tt).
Proof.
  apply (swap_outcome_reported (Scenario.world "1.0") "911@s.whatsapp.net" "911" 1 1
           Scenario.empty
           {| sw_success := true; sw_error := ""; sw_amountOut := JUndefined;
              sw_transactionHash := Some "0x5a" |}).
  run.
Defined.

Lemma cancel_witness :
  let r :=
    Flows.handleStatefulMessage Scenario.parseDecimal
      (Scenario.validateAmount Scenario.parseDecimal) Scenario.noArgs Cases.trim
      Cases.toLowerCase Cases.whole (Scenario.world "1.0") Cases.services 9000000
      "911@s.whatsapp.net" "911" "  Cancel "
      (Cases.inFlow "911" (Flows.flow "AWAITING_SWAP_AMOUNT" 0)) in
  r = (Flows.forgetFlow "911" (Cases.inFlow "911" (Flows.flow "AWAITING_SWAP_AMOUNT" 0)),
       [Flows.Say "911@s.whatsapp.net" Flows.OperationCancelled], Ok tt) /\
  userStates (Flows.base (finalOf r)) !! "911" = None /\
  pendingOf (finalOf r)
  = pendingOf (Cases.inFlow "911" (Flows.flow "AWAITING_SWAP_AMOUNT" 0)).
Proof.
  apply (cancel_ends_any_flow Scenario.parseDecimal
           (Scenario.validateAmount Scenario.parseDecimal) Scenario.noArgs Cases.trim
           Cases.toLowerCase Cases.whole (Scenario.world "1.0") Cases.services 9000000
           "911@s.whatsapp.net" "911" "  Cancel "
           (Cases.inFlow "911" (Flows.flow "AWAITING_SWAP_AMOUNT" 0))).
  run.
Defined.


Lemma invalid_amount_witness_flow :
  exists reply,
    Flows.handleStatefulMessage Scenario.parseDecimal
      (Scenario.validateAmount Scenario.parseDecimal) Scenario.noArgs Cases.trim
      Cases.toLowerCase Cases.whole (Scenario.world "1.0") Cases.services 300000
      "911@s.whatsapp.net" "911" "a lot"
      (Cases.inFlow "911" (Flows.flow "AWAITING_SWAP_AMOUNT" 0))
    = (Cases.inFlow "911" (Flows.flow "AWAITING_SWAP_AMOUNT" 0),
       [Flows.Say "911@s.whatsapp.net" reply], Ok tt) /\
    In reply [Flows.InvalidEthAmount; Flows.InvalidUsdcDepositAmount;
              Flows.InvalidUsdcSwapAmount].
Proof.
  apply (invalid_amount_keeps_waiting Scenario.parseDecimal
           (Scenario.validateAmount Scenario.parseDecimal) Scenario.noArgs Cases.trim
           Cases.toLowerCase Cases.whole (Scenario.world "1.0") Cases.services 300000
           "911@s.whatsapp.net" "911" "a lot"
           (Cases.inFlow "911" (Flows.flow "AWAITING_SWAP_AMOUNT" 0))
           (Flows.flow "AWAITING_SWAP_AMOUNT" 0)).
  - vm_compute. discriminate.
  - run.
  - vm_compute. discriminate.
  - cbn. tauto.
  - run.
Defined.

Lemma pending_changes_witness :
  exists entry,
    userStates
      (Flows.base (Cases.inFlow "911" (Flows.flow "AWAITING_USDC_DEPOSIT_AMOUNT" 0)))
      !! "911" = Some entry /\
    100 - us_timestamp entry <= Flows.fiveMinutes /\
    In (us_state entry) amountStates /\
    Flows.validAmount (Scenario.parseDecimal (Cases.trim " 0.5")) = true.
Proof.
  apply (pending_changes_only_after_valid_amount Scenario.parseDecimal
           (Scenario.validateAmount Scenario.parseDecimal) Scenario.noArgs Cases.trim
           Cases.toLowerCase Cases.whole (Scenario.world "1.0") Cases.services 100
           "911@s.whatsapp.net" "911" " 0.5"
           (Cases.inFlow "911" (Flows.flow "AWAITING_USDC_DEPOSIT_AMOUNT" 0))).
  intros H. apply (f_equal (fun m => m !! "911")) in H. vm_compute in H. discriminate.
Defined.

Lemma defi_choice_witness :
  exists e,
    Flows.handleStatefulMessage Scenario.parseDecimal
      (Scenario.validateAmount Scenario.parseDecimal) Scenario.noArgs Cases.trim
      Cases.toLowerCase Cases.whole (Scenario.world "1.0") Cases.services 100
      "911@s.whatsapp.net" "911" "3"
      (Cases.inFlow "911" (Flows.flow "AWAITING_DEFI_SELECTION" 0))
    = (Flows.forgetFlow "911" (Cases.inFlow "911" (Flows.flow "AWAITING_DEFI_SELECTION" 0)),
       [Flows.Core (EvSend "911@s.whatsapp.net" (ErrorReply e))], Ok tt).
Proof.
  apply (defi_balance_and_history_fail Scenario.parseDecimal
           (Scenario.validateAmount Scenario.parseDecimal) Scenario.noArgs Cases.trim
           Cases.toLowerCase Cases.whole (Scenario.world "1.0") Cases.services 100
           "911@s.whatsapp.net" "911" "3"
           (Cases.inFlow "911" (Flows.flow "AWAITING_DEFI_SELECTION" 0))
           (Flows.flow "AWAITING_DEFI_SELECTION" 0)).
  - vm_compute. discriminate.
  - run.
  - vm_compute. discriminate.
  - run.
  - left. run.
Defined.

Lemma shared_contact_witness :
  Flows.handleStatefulMessage Scenario.parseDecimal
    (Scenario.validateAmount Scenario.parseDecimal) Scenario.noArgs Cases.trim
    Cases.toLowerCase Cases.whole (Scenario.world "1.0") Cases.services 2000
    "911@s.whatsapp.net" (CommandHandler.extractPhoneNumber "911@s.whatsapp.net") "0.1"
    (finalOf (Flows.handleSharedContact Cases.services 1000 "911@s.whatsapp.net"
                ["+933"; "+944"] Cases.fresh))
  = Flows.core
      (CommandHandler.handleSendTransaction Scenario.parseDecimal
         (Scenario.validateAmount Scenario.parseDecimal) Scenario.noArgs
         (Scenario.world "1.0") 2000 "911@s.whatsapp.net"
         (CommandHandler.extractPhoneNumber "911@s.whatsapp.net")
         {| CommandHandler.p_amount := JNum (Scenario.parseDecimal (Cases.trim "0.1"));
            CommandHandler.p_recipient := Some "0xC0FFEE";
            CommandHandler.p_recipientPhone := Some "933";
            CommandHandler.p_name := Some "933";
            CommandHandler.p_args := None;
            CommandHandler.p_intent := None |})
      (Flows.forgetFlow (CommandHandler.extractPhoneNumber "911@s.whatsapp.net")
         Cases.fresh).
Proof.
  apply (shared_contact_then_amount Scenario.parseDecimal
           (Scenario.validateAmount Scenario.parseDecimal) Scenario.noArgs Cases.trim
           Cases.toLowerCase Cases.whole (Scenario.world "1.0") Cases.services 1000 2000
           "911@s.whatsapp.net" "+933" ["+944"] "0.1" Cases.fresh
           (Some {| Flows.wallet_address := Some "0xC0FFEE" |})).
  - run.
  - vm_compute. discriminate.
  - vm_compute. discriminate.
  - run.
Defined.

Lemma deposit_confirmation_witness :
  let r :=
    Flows.handleDepositConfirmation Scenario.parseDecimal Cases.whole
      (Scenario.world "1.0") Cases.services 50 "911@s.whatsapp.net" "911" 0.5
      Cases.fresh in
  traceOf r
  = [Flows.Say "911@s.whatsapp.net"
       (Flows.DepositConfirmation 0 0 0.5 0.5 (0 - 0.5)%float (0 + 0.5 * 1e18)%float)] /\
  pendingOf (finalOf r) = <["911" := UsdcDeposit 0.5 0.5 50]> (pendingOf Cases.fresh) /\
  userStates (Flows.base (finalOf r)) = userStates (Flows.base Cases.fresh) /\
  snd r = Ok tt.
Proof.
  apply (deposit_confirmation_shows_no_holdings Scenario.parseDecimal Cases.whole
           (Scenario.world "1.0") Cases.services 50 "911@s.whatsapp.net" "911" 0.5
           Cases.fresh {| address := "0xA11CE"; balance := JStr "1.0" |}).
  run.
Defined.

Lemma import_witness :
  "911" = "911" /\ Cases.someKey = Cases.someKey /\
  Flows.isPrivateKey Cases.someKey = true /\
  exists entry,
    userStates (Flows.base (Cases.inFlow "911" (Flows.flow "IMPORTING_WALLET" 0))) !! "911"
    = Some entry /\
    us_state entry = "IMPORTING_WALLET" /\
    60000 - us_timestamp entry <= Flows.fiveMinutes.
Proof.
  apply (import_only_for_wellformed_key Scenario.parseDecimal
           (Scenario.validateAmount Scenario.parseDecimal) Scenario.noArgs Cases.trim
           Cases.toLowerCase Cases.whole (Scenario.world "1.0") Cases.services 60000
           "911@s.whatsapp.net" "911" Cases.someKey
           (Cases.inFlow "911" (Flows.flow "IMPORTING_WALLET" 0)) "911" Cases.someKey).
  vm_compute. tauto.
Defined.

Lemma step_by_step_witness :
  let asked :=
    {| Flows.base :=
         stateOf (CommandHandler.handleSendTransaction Scenario.parseDecimal
                    (Scenario.validateAmount Scenario.parseDecimal) Scenario.noArgs
                    (Scenario.world "1.0") 0 "911@s.whatsapp.net" "911" Cases.startSend
                    (Flows.base Cases.fresh));
       Flows.contactTargets := delete "911" (Flows.contactTargets Cases.fresh) |} in
  let named :=
    finalOf (Flows.handleStatefulMessage Scenario.parseDecimal
               (Scenario.validateAmount Scenario.parseDecimal) Scenario.noArgs Cases.trim
               Cases.toLowerCase Cases.whole (Scenario.world "1.0") Cases.services 1000
               "911@s.whatsapp.net" "911" " 922 " asked) in
  userStates (Flows.base named) !! "911"
  = Some {| us_state := "AWAITING_AMOUNT_FOR_SEND";
            us_recipientPhone := Some (Cases.trim " 922 ");
            us_timestamp := 1000 |} /\
  Flows.handleStatefulMessage Scenario.parseDecimal
    (Scenario.validateAmount Scenario.parseDecimal) Scenario.noArgs Cases.trim
    Cases.toLowerCase Cases.whole (Scenario.world "1.0") Cases.services 2000
    "911@s.whatsapp.net" "911" "0.1" named
  = Flows.core
      (CommandHandler.handleSendTransaction Scenario.parseDecimal
         (Scenario.validateAmount Scenario.parseDecimal) Scenario.noArgs
         (Scenario.world "1.0") 2000 "911@s.whatsapp.net" "911"
         {| CommandHandler.p_amount := JNum (Scenario.parseDecimal (Cases.trim "0.1"));
            CommandHandler.p_recipient := None;
            CommandHandler.p_recipientPhone := Some (Cases.trim " 922 ");
            CommandHandler.p_name := Some (Cases.trim " 922 ");
            CommandHandler.p_args := None;
            CommandHandler.p_intent := None |})
      (Flows.forgetFlow "911" Cases.fresh).
Proof.
  apply (step_by_step_send Scenario.parseDecimal
           (Scenario.validateAmount Scenario.parseDecimal) Scenario.noArgs Cases.trim
           Cases.toLowerCase Cases.whole (Scenario.world "1.0") Cases.services 0 1000 2000
           "911@s.whatsapp.net" "911" Cases.startSend " 922 " "0.1" Cases.fresh).
  - run.
  - run.
  - vm_compute. discriminate.
  - vm_compute. discriminate.
  - vm_compute. discriminate.
  - vm_compute. discriminate.
  - run.
Defined.

Lemma aave_withdrawal_witness :
  List.filter Zappo.isCall
    [Zappo.Called (Zappo.UsdcTransfer "alice" 1000000);
     Zappo.Emitted (Zappo.AaveWithdraw "alice" 1000000 0)]
  = [Zappo.Called
       (Zappo.UsdcTransfer "alice" (Z.min (1000000 + 1000000 * 200 / 10000) 1000000))] /\
  0 = Z.max 0 (Z.min (1000000 + 1000000 * 200 / 10000) 1000000 - 1000000) /\
  Zappo.at_ (Zappo.userAaveBalance (Cases.emptied 1000000 1000000)) "alice"
  = Zappo.at_ (Zappo.userAaveBalance Cases.lending) "alice" - 1000000 /\
  Zappo.totalInAave (Cases.emptied 1000000 1000000)
  = Zappo.totalInAave Cases.lending - 1000000 /\
  0 < 1000000 <= Zappo.at_ (Zappo.userAaveBalance Cases.lending) "alice".
Proof.
  apply (aave_withdrawal_pays_capped (Cases.vaultEnv "alice" 1000000) 1000000
           Cases.lending (Cases.emptied 1000000 1000000)
           [Zappo.Called (Zappo.UsdcTransfer "alice" 1000000);
            Zappo.Emitted (Zappo.AaveWithdraw "alice" 1000000 0)]
           7 0).
  run.
Defined.

Lemma token_withdrawal_witness :
  List.filter Zappo.isCall
    [Zappo.Emitted (Zappo.AaveWithdraw "alice" 1000000 0);
     Zappo.Called (Zappo.Burn "alice" 1000000);
     Zappo.Called (Zappo.UsdcTransfer "alice" 1000000);
     Zappo.Emitted (Zappo.YieldEarned "alice" 15000);
     Zappo.Emitted (Zappo.Withdraw "alice" 1000000 7)]
  = [Zappo.Called (Zappo.Burn "alice" 1000000);
     Zappo.Called (Zappo.UsdcTransfer "alice" 1000000)].
Proof.
  destruct (withdraw_burns_all_pays_at_most_balance (Cases.vaultEnv "alice" 1000000)
              1000000 Cases.lending (Cases.emptied 0 0)
              [Zappo.Emitted (Zappo.AaveWithdraw "alice" 1000000 0);
               Zappo.Called (Zappo.Burn "alice" 1000000);
               Zappo.Called (Zappo.UsdcTransfer "alice" 1000000);
               Zappo.Emitted (Zappo.YieldEarned "alice" 15000);
               Zappo.Emitted (Zappo.Withdraw "alice" 1000000 7)]
              7) as (Hcalls & _).
  - run.
  - exact Hcalls.
Defined.

Lemma deposit_witness :
  let who := Zappo.sender (Cases.vaultEnv "alice" 0) in
  let before :=
    Zappo.getUserInfo (Cases.vaultEnv "bob" 0) who
      (Zappo.history [(Cases.vaultEnv "owner" 0, Zappo.ActivateAave)]) in
  let after := Zappo.getUserInfo (Cases.vaultEnv "bob" 0) who Cases.lending in
  Zappo.totalDeposited_ after = Zappo.totalDeposited_ before + 1000000 /\
  Zappo.tier after = Zappo.calculateTier (Zappo.totalDeposited_ after) /\
  Zappo.transactionCount after = Zappo.transactionCount before + 1 /\
  Zappo.latestTxHash after = 7.
Proof.
  destruct (deposit_is_recorded (Cases.vaultEnv "alice" 0) (Cases.vaultEnv "bob" 0) 1000000
              (Zappo.history [(Cases.vaultEnv "owner" 0, Zappo.ActivateAave)])
              Cases.lending
              [Zappo.Called (Zappo.UsdcTransferFrom "alice" "vault" 1000000);
               Zappo.Called (Zappo.Mint "alice" 1000000);
               Zappo.Emitted (Zappo.AaveSupply "alice" 1000000 1000000);
               Zappo.Emitted (Zappo.Deposit "alice" 1000000 7)]
              7) as (_ & Hd & Ht & Hc & Hh & _).
  - run.
  - cbv zeta. auto.
Defined.

Lemma lending_withdrawal_witness :
  exists st2 effects2 txHash2,
    Zappo.withdrawFromAave (Cases.vaultEnv "alice" 2000000) 1000000 Cases.lending
    = Zappo.Done st2 effects2 (txHash2, 20000) /\
    List.filter Zappo.isCall
      ([Zappo.Called (Zappo.UsdcTransferFrom "alice" "vault" 1000000);
        Zappo.Called (Zappo.Mint "alice" 1000000);
        Zappo.Emitted (Zappo.AaveSupply "alice" 1000000 1000000);
        Zappo.Emitted (Zappo.Deposit "alice" 1000000 7)] ++ effects2)
    = [Zappo.Called (Zappo.UsdcTransferFrom "alice" "vault" 1000000);
       Zappo.Called (Zappo.Mint "alice" 1000000);
       Zappo.Called (Zappo.UsdcTransfer "alice" 1020000)].
Proof.
  destruct (lending_withdrawal_keeps_tokens
              [(Cases.vaultEnv "owner" 0, Zappo.ActivateAave)]
              (Cases.vaultEnv "alice" 0) (Cases.vaultEnv "alice" 2000000) 1000000
              Cases.lending
              [Zappo.Called (Zappo.UsdcTransferFrom "alice" "vault" 1000000);
               Zappo.Called (Zappo.Mint "alice" 1000000);
               Zappo.Emitted (Zappo.AaveSupply "alice" 1000000 1000000);
               Zappo.Emitted (Zappo.Deposit "alice" 1000000 7)]
              7) as (st2 & effects2 & txHash2 & Hrun & Hcalls & _).
  - run.
  - run.
  - reflexivity.
  - vm_compute. discriminate.
  - reflexivity.
  - exists st2, effects2, txHash2. split; [exact Hrun|exact Hcalls].
Defined.

Lemma ai_answer_witness :
  FunctionMapper.parseAIResponse Cases.strictJson (Some "\{ss\}")
  = FunctionMapper.generalChat (Some "\{ss\}") /\
  FunctionMapper.executeAIIntent Cases.strictJson Cases.delivered Cases.unused Cases.unused
    Cases.unused Cases.unused "911@s.whatsapp.net" (Some "\{ss\}") "911"
  = runTry
      (FunctionMapper.send Cases.delivered "911@s.whatsapp.net"
         (if nonEmpty "\{ss\}" then FunctionMapper.Reply "\{ss\}"
          else FunctionMapper.DefaultReply))
      (fun _ => FunctionMapper.send Cases.delivered "911@s.whatsapp.net"
                  FunctionMapper.Hiccup).
Proof.
  apply (ai_answer_is_always_general_chat Cases.strictJson Cases.delivered Cases.unused
           Cases.unused Cases.unused Cases.unused "911@s.whatsapp.net" (Some "\{ss\}")
           "911").
  intros rest. eexists. reflexivity.
Defined.
